(** * Manufacturing report generator (app.py): aggregation, assembly, export

    A shallow embedding of the report functions of [app.py] and of the
    sequential report pass that calls them, with the properties of the
    natural-language specification stated over it.

    Modelling conventions.
    - A pandas DataFrame is an ordered list of column labels together with
      an ordered list of rows; a column that is not among the labels cannot
      be read ([KeyError]).
    - [int64] columns are [Z] values; integer sums wrap around modulo 2^64
      ([wrap64]), as numpy's do.
    - The two grouped means (average defects, productivity) are computed
      on IEEE binary64 numbers ([PrimFloat]) with the summation of pandas'
      grouped mean ([Binary64]); Production Time Hours is a binary64
      number.
    - The other [float64] values (energy, costs, the defect rate, the
      correlations) are modelled by their exact value: a rational, or one
      of the three IEEE special values.  Rounding is not modelled there,
      and the two zeros are identified (a zero divisor counts as [+0.0]):
      what is stated of such a value is stated up to rounding.
    - [object] columns of strings hold [option string]; [None] is the
      missing marker ([NaN]) that [read_csv] produces for an empty cell.
      The labels of Product Type and Shift are kept as text; when every
      label of such a column reads as a number pandas orders the groups
      numerically, so nothing is stated about the order of these groups.
    - A cell of a cost column is a number or a text that is not one.
    - The parsed [Date] column holds [option date]; [None] is [NaT].
    - The repository pins no pandas release; the two behaviours of
      [astype(str)] on a missing value are both modelled ([pandas]).
    - DataFrames are mutable objects: they live in a heap and the report
      functions receive a reference.
    - What Streamlit and matplotlib show is not modelled; their calls are
      kept for the exceptions they raise. *)

From Stdlib Require Import ZArith List String Ascii Bool Lia Permutation.
From Stdlib Require Import Sorting.Sorted QArith Qcanon.
From Stdlib Require Import Floats.
From Stdlib Require Import Reals Qreals Lqa Lra.
Import ListNotations.

Close Scope R_scope.
Close Scope Qc_scope.
Close Scope Q_scope.
Open Scope string_scope.
Open Scope Z_scope.
Open Scope list_scope.

(* ================================================================= *)
(** ** Numbers *)

(** [int64]: the representative of [z] modulo 2^64 in [-2^63, 2^63). *)
Definition wrap64 (z : Z) : Z := (z + 2 ^ 63) mod 2 ^ 64 - 2 ^ 63.

(** Sum of an [int64] column: the accumulator wraps at every step. *)
Definition sum64 (l : list Z) : Z :=
  fold_left (fun acc x => wrap64 (acc + x)) l 0.

(** Exact sum of integers, used to state properties. *)
Definition Zsum (l : list Z) : Z := fold_right Z.add 0 l.

(** [float64], by exact value. *)
Inductive float64 : Type :=
| Fin (q : Qc)
| PInf
| NInf
| NaN.

Definition Qc0 : Qc := Q2Qc 0.

Definition of_int (z : Z) : float64 := Fin (Q2Qc (inject_Z z)).
Definition of_nat (n : nat) : float64 := of_int (Z.of_nat n).

Definition qsign (q : Qc) : comparison := (q ?= Qc0)%Qc.

Definition fadd (x y : float64) : float64 :=
  match x, y with
  | NaN, _ | _, NaN => NaN
  | Fin a, Fin b => Fin (a + b)%Qc
  | PInf, NInf | NInf, PInf => NaN
  | PInf, _ | _, PInf => PInf
  | NInf, _ | _, NInf => NInf
  end.

(** An infinity with the sign [s]; [Eq] stands for [inf * 0]. *)
Definition signed_inf (s : comparison) : float64 :=
  match s with Gt => PInf | Lt => NInf | Eq => NaN end.

Definition sign_mul (s t : comparison) : comparison :=
  match s, t with
  | Eq, _ | _, Eq => Eq
  | Gt, Gt | Lt, Lt => Gt
  | _, _ => Lt
  end.

Definition fmul (x y : float64) : float64 :=
  match x, y with
  | NaN, _ | _, NaN => NaN
  | Fin a, Fin b => Fin (a * b)%Qc
  | Fin a, PInf | PInf, Fin a => signed_inf (qsign a)
  | Fin a, NInf | NInf, Fin a => signed_inf (sign_mul Lt (qsign a))
  | PInf, PInf | NInf, NInf => PInf
  | PInf, NInf | NInf, PInf => NInf
  end.

(** True division.  A finite value divided by zero is an infinity of the
    sign of the dividend, and [0 / 0] is [NaN]; nothing is raised. *)
Definition fdiv (x y : float64) : float64 :=
  match x, y with
  | NaN, _ | _, NaN => NaN
  | Fin a, Fin b =>
      match qsign b with
      | Eq => signed_inf (qsign a)
      | _ => Fin (a / b)%Qc
      end
  | Fin _, (PInf | NInf) => Fin Qc0
  | (PInf | NInf), (PInf | NInf) => NaN
  | PInf, Fin b => match qsign b with Lt => NInf | _ => PInf end
  | NInf, Fin b => match qsign b with Lt => PInf | _ => NInf end
  end.

Definition notna (x : float64) : bool :=
  match x with NaN => false | _ => true end.

Definition fsum (l : list float64) : float64 := fold_right fadd (Fin Qc0) l.

(** [Series.mean] and the grouped mean: missing values are skipped; the
    mean of no value at all is [NaN] (it is [0 / 0]). *)
Definition mean (l : list float64) : float64 :=
  let v := filter notna l in
  fdiv (fsum v) (of_nat (List.length v)).

(* ================================================================= *)
(** ** Binary64 numbers *)

(** The grouped means are computed on IEEE binary64 numbers, rounding to
    nearest, as the program computes them.  [GroupBy.mean] converts
    [int64] values first, adds up the values of a group in row order with
    Kahan's compensated summation and divides the sum by their number. *)
Module Binary64.

(** [int64] to [float64]: the nearest binary64 number. *)
Definition of_int64 (z : Z) : float :=
  match z with
  | Z0 => PrimFloat.zero
  | Zpos _ => PrimFloat.of_uint63 (Uint63.of_Z z)
  | Zneg _ =>
      if z =? - 2 ^ 63 then (-0x1p+63)%float
      else PrimFloat.opp (PrimFloat.of_uint63 (Uint63.of_Z (- z)))
  end.

(** One step of the summation: the sum so far and its compensation.  A
    compensation that is not a number (an infinity was added) is reset. *)
Definition kahan_add (acc : float * float) (val : float) : float * float :=
  let (sumx, compensation) := acc in
  let y := PrimFloat.sub val compensation in
  let t := PrimFloat.add sumx y in
  let c := PrimFloat.sub (PrimFloat.sub t sumx) y in
  (t, if PrimFloat.is_nan c then PrimFloat.zero else c).

Definition kahan_sum (values : list float) : float :=
  fst (fold_left kahan_add values (PrimFloat.zero, PrimFloat.zero)).

(** The mean of a group: missing values are skipped, and the mean of no
    value is [NaN]. *)
Definition group_mean (values : list float) : float :=
  let present := filter (fun v => negb (PrimFloat.is_nan v)) values in
  match present with
  | [] => PrimFloat.nan
  | _ => PrimFloat.div (kahan_sum present)
           (of_int64 (Z.of_nat (List.length present)))
  end.

(** The exact value of a binary64 number. *)
Definition to_float64 (x : float) : float64 :=
  match Prim2SF x with
  | S754_zero _ => Fin Qc0
  | S754_finite s m e =>
      Fin (Q2Qc ((if s then -1 else 1) * inject_Z (Zpos m)
                 * Qpower (2 # 1) e)%Q)
  | S754_infinity false => PInf
  | S754_infinity true => NInf
  | S754_nan => NaN
  end.

End Binary64.

(** What follows serves to state how integers are represented: a
    mantissa shifted to the left by [n] binary digits, *)
Definition shl (m : positive) (n : nat) : positive := Nat.iter n xO m.

(** the binary64 form of the integer of sign [sx] and absolute value [m],
    when [m] has at most 53 digits, *)
Definition canonical (sx : bool) (m : positive) : spec_float :=
  S754_finite sx (shl m (Z.to_nat (53 - Zpos (digits2_pos m))))
    (Zpos (digits2_pos m) - 53).

(** the binary64 number of an integer below 2^53 in absolute value, *)
Definition SFZ (z : Z) : spec_float :=
  match z with
  | Z0 => S754_zero false
  | Zpos m => canonical false m
  | Zneg m => canonical true m
  end.

(** and the integer of sign [s] and absolute value [m]. *)
Definition signed (s : bool) (m : positive) : Z := cond_Zopp s (Zpos m).

(* ================================================================= *)
(** ** Group keys *)

(** Group keys are compared for equality and sorted: [groupby] returns the
    groups in ascending order of key. *)
Class Key (K : Type) : Type := {
  keqb : K -> K -> bool;
  kleb : K -> K -> bool
}.

Class KeyLaws (K : Type) `{Key K} : Prop := {
  keqb_spec : forall a b : K, keqb a b = true <-> a = b;
  kleb_total : forall a b : K, kleb a b = true \/ kleb b a = true;
  kleb_antisym : forall a b : K, kleb a b = true -> kleb b a = true -> a = b;
  kleb_trans : forall a b c : K,
      kleb a b = true -> kleb b c = true -> kleb a c = true
}.

#[export] Instance Key_string : Key string :=
  {| keqb := String.eqb; kleb := String.leb |}.

(** Tuples of keys are ordered lexicographically. *)
#[export] Instance Key_prod (A B : Type) `{Key A} `{Key B} : Key (A * B) :=
  {| keqb := fun x y => keqb (fst x) (fst y) && keqb (snd x) (snd y);
     kleb := fun x y =>
               if keqb (fst x) (fst y) then kleb (snd x) (snd y)
               else kleb (fst x) (fst y) |}.

Section GroupBy.
Context {K V : Type} `{Key K}.

(** Insertion in a sorted list of distinct keys. *)
Fixpoint insert_key (k : K) (ks : list K) : list K :=
  match ks with
  | [] => [k]
  | k' :: ks' =>
      if keqb k k' then ks
      else if kleb k k' then k :: ks
      else k' :: insert_key k ks'
  end.

(** The distinct keys of a column, ascending. *)
Definition sorted_keys (l : list K) : list K := fold_right insert_key [] l.

(** With the default [dropna=True] the rows whose key is missing belong
    to no group. *)
Fixpoint dropna (rows : list (option K * V)) : list (K * V) :=
  match rows with
  | [] => []
  | (Some k, v) :: rows' => (k, v) :: dropna rows'
  | (None, _) :: rows' => dropna rows'
  end.

(** The values of the rows of key [k], in row order. *)
Definition group_of (k : K) (rows : list (K * V)) : list V :=
  map snd (filter (fun r => keqb (fst r) k) rows).

(** [df.groupby(key)[col]]: each key with the values of its rows. *)
Definition groupby (rows : list (option K * V)) : list (K * list V) :=
  let present := dropna rows in
  map (fun k => (k, group_of k present)) (sorted_keys (map fst present)).

(** Applying an aggregation to every group gives a Series indexed by key. *)
Definition agg {R : Type} (f : list V -> R) (g : list (K * list V))
  : list (K * R) :=
  map (fun kv => (fst kv, f (snd kv))) g.
End GroupBy.

(** Element-wise operation on two aligned columns. *)
Definition zip_with {A B C : Type} (f : A -> B -> C) (l1 : list A)
  (l2 : list B) : list C :=
  map (fun p => f (fst p) (snd p)) (combine l1 l2).

(** A group key made of two columns is missing as soon as one part is. *)
Definition key2 {A B : Type} (a : option A) (b : option B) : option (A * B) :=
  match a, b with
  | Some x, Some y => Some (x, y)
  | _, _ => None
  end.

Fixpoint lookup_key {K V : Type} `{Key K} (k : K) (s : list (K * V))
  : option V :=
  match s with
  | [] => None
  | (k', v) :: s' => if keqb k k' then Some v else lookup_key k s'
  end.

(** [a / b] on two Series: values are paired by index label; a label
    without a partner gives [NaN].  Both operands of the program carry the
    same index, which is then the index of the result. *)
Definition series_div {K : Type} `{Key K} (a b : list (K * Z))
  : list (K * float64) :=
  map (fun kv =>
         (fst kv,
          match lookup_key (fst kv) b with
          | Some d => fdiv (of_int (snd kv)) (of_int d)
          | None => NaN
          end)) a.

Definition series_mul_int {K : Type} (a : list (K * float64)) (n : Z)
  : list (K * float64) :=
  map (fun kv => (fst kv, fmul (snd kv) (of_int n))) a.

(* ================================================================= *)
(** ** Dates and month labels *)

Record date : Type := mkDate { year : Z; month : Z; day : Z }.

(** The range of [datetime64[ns]]; anything else was coerced to [NaT]. *)
Definition valid_date (d : date) : Prop :=
  1677 <= year d <= 2262 /\ 1 <= month d <= 12.

Definition digit (d : Z) : ascii := ascii_of_N (48 + Z.to_N (d mod 10)).

Definition pad2 (n : Z) : string :=
  String (digit (n / 10)) (String (digit n) "").

Definition pad4 (n : Z) : string :=
  String (digit (n / 1000))
    (String (digit (n / 100)) (String (digit (n / 10)) (String (digit n) ""))).

(** [.dt.to_period("M").astype(str)]: ["YYYY-MM"], and the three letters
    ["NaT"] for a missing date. *)
Definition period_str (d : option date) : string :=
  match d with
  | Some d => pad4 (year d) ++ "-" ++ pad2 (month d)
  | None => "NaT"
  end.

(** The pandas release that runs the program.  Up to pandas 2,
    [astype(str)] writes a missing value as its text; from pandas 3 on the
    value stays missing. *)
Inductive pandas : Type :=
| pandas2
| pandas3.

Definition nat_is_text (pd : pandas) : bool :=
  match pd with pandas2 => true | pandas3 => false end.

(** [.dt.to_period("M").astype(str)] on one date. *)
Definition astype_str (pd : pandas) (d : option date) : option string :=
  match d with
  | Some _ => Some (period_str d)
  | None => if nat_is_text pd then Some (period_str d) else None
  end.

(** Chronological order of months. *)
Definition month_lt (a b : date) : Prop :=
  year a < year b \/ (year a = year b /\ month a < month b).

(* ================================================================= *)
(** ** Tables *)

(** A cell of a cost column: a number (or the missing marker [NaN]), or a
    text that [read_csv] could not read as a number.  A column with such a
    cell is an [object] column. *)
Inductive cost : Type :=
| Num (x : float64)
| Text (s : string).

(** One record of the input table.  The last two fields are the derived
    columns that the report functions add. *)
Record Row : Type := mkRow {
  Date : option date;
  Product_Type : option string;
  Shift : option string;
  Units_Produced : Z;
  Defects : Z;
  Operator_Count : Z;
  Production_Time_Hours : PrimFloat.float;
  Energy_Consumption_kWh : float64;
  Material_Cost_Per_Unit : cost;
  Labour_Cost_Per_Hour : cost;
  Month : option string;
  Productivity : PrimFloat.float
}.

(** A DataFrame: the labels of the columns it has, in order, and its rows.
    The fields of a row whose label is not listed are not part of the
    table: no operation reads them. *)
Record DataFrame : Type := mkDF {
  columns : list string;
  rows : list Row
}.

(** A typed column: its label and how it is read from a row. *)
Record Col (A : Type) : Type := mkCol {
  label : string;
  cget : Row -> A
}.
Arguments mkCol {A} _ _.
Arguments label {A} _.
Arguments cget {A} _ _.

Definition DateC := mkCol "Date" Date.
Definition Product_TypeC := mkCol "Product Type" Product_Type.
Definition ShiftC := mkCol "Shift" Shift.
Definition Units_ProducedC := mkCol "Units Produced" Units_Produced.
Definition DefectsC := mkCol "Defects" Defects.
Definition Operator_CountC := mkCol "Operator Count" Operator_Count.
Definition Production_Time_HoursC :=
  mkCol "Production Time Hours" Production_Time_Hours.
Definition MonthC := mkCol "Month" Month.

Definition set_Date (v : option date) (r : Row) : Row :=
  mkRow v (Product_Type r) (Shift r) (Units_Produced r) (Defects r)
    (Operator_Count r) (Production_Time_Hours r) (Energy_Consumption_kWh r)
    (Material_Cost_Per_Unit r) (Labour_Cost_Per_Hour r) (Month r)
    (Productivity r).

Definition set_Month (v : option string) (r : Row) : Row :=
  mkRow (Date r) (Product_Type r) (Shift r) (Units_Produced r) (Defects r)
    (Operator_Count r) (Production_Time_Hours r) (Energy_Consumption_kWh r)
    (Material_Cost_Per_Unit r) (Labour_Cost_Per_Hour r) v (Productivity r).

Definition set_Productivity (v : PrimFloat.float) (r : Row) : Row :=
  mkRow (Date r) (Product_Type r) (Shift r) (Units_Produced r) (Defects r)
    (Operator_Count r) (Production_Time_Hours r) (Energy_Consumption_kWh r)
    (Material_Cost_Per_Unit r) (Labour_Cost_Per_Hour r) (Month r) v.

Definition cost_value (c : cost) : float64 :=
  match c with Num x => x | Text _ => NaN end.

Definition is_text (c : cost) : bool :=
  match c with Num _ => false | Text _ => true end.

(** The column [lbl] holds a text in the row. *)
Definition holds_text (lbl : string) (r : Row) : bool :=
  if String.eqb lbl "Material Cost Per Unit"
  then is_text (Material_Cost_Per_Unit r)
  else if String.eqb lbl "Labour Cost Per Hour"
  then is_text (Labour_Cost_Per_Hour r)
  else false.

(** The numeric columns, read as [float64] (what [DataFrame.mean] and
    [DataFrame.corr] work on). *)
Definition as_float (lbl : string) (r : Row) : float64 :=
  if String.eqb lbl "Units Produced" then of_int (Units_Produced r)
  else if String.eqb lbl "Defects" then of_int (Defects r)
  else if String.eqb lbl "Operator Count" then of_int (Operator_Count r)
  else if String.eqb lbl "Production Time Hours"
  then Binary64.to_float64 (Production_Time_Hours r)
  else if String.eqb lbl "Energy Consumption kWh" then Energy_Consumption_kWh r
  else if String.eqb lbl "Material Cost Per Unit"
  then cost_value (Material_Cost_Per_Unit r)
  else if String.eqb lbl "Labour Cost Per Hour"
  then cost_value (Labour_Cost_Per_Hour r)
  else if String.eqb lbl "Productivity"
  then Binary64.to_float64 (Productivity r)
  else NaN.

Definition has_column (df : DataFrame) (lbl : string) : bool :=
  existsb (String.eqb lbl) (columns df).

(** A value of a result table. *)
Inductive cell : Type :=
| VStr (s : string)
| VInt (z : Z)
| VFloat (x : float64)
| VReal (x : R)
| VDouble (x : PrimFloat.float).

(** A result table: column headers and rows of values. *)
Record ReportTable : Type := mkTable {
  headers : list string;
  body : list (list cell)
}.

Class ToCell (A : Type) : Type := to_cell : A -> cell.
#[export] Instance ToCell_string : ToCell string := VStr.
#[export] Instance ToCell_Z : ToCell Z := VInt.
#[export] Instance ToCell_float64 : ToCell float64 := VFloat.
#[export] Instance ToCell_double : ToCell PrimFloat.float := VDouble.

(** [Series.reset_index()]: the index becomes the first column. *)
Definition reset_index {K V : Type} `{ToCell K} `{ToCell V}
  (index_name value_name : string) (s : list (K * V)) : ReportTable :=
  mkTable [index_name; value_name]
    (map (fun kv => [to_cell (fst kv); to_cell (snd kv)]) s).

(** [reset_index()] of a frame indexed by a pair of keys. *)
Definition reset_index2 {K1 K2 V : Type} `{ToCell K1} `{ToCell K2} `{ToCell V}
  (name1 name2 value_name : string) (s : list (K1 * K2 * V)) : ReportTable :=
  mkTable [name1; name2; value_name]
    (map (fun kv => [to_cell (fst (fst kv)); to_cell (snd (fst kv));
                     to_cell (snd kv)]) s).

(** [reset_index()] of a frame indexed by row labels. *)
Definition reset_index_frame (cols : list string)
  (m : list (string * list cell)) : ReportTable :=
  mkTable ("index" :: cols) (map (fun lr => VStr (fst lr) :: snd lr) m).

(** [rename(columns={old: new})]. *)
Definition rename (old new : string) (t : ReportTable) : ReportTable :=
  mkTable (map (fun h => if String.eqb h old then new else h) (headers t))
    (body t).

(* ================================================================= *)
(** ** The heap of DataFrame objects *)

Inductive exn : Type :=
| KeyError (missing : list string)  (* a column label that is not there *)
| ValueError                        (* a column of the wrong length, or a
                                       sheet that is too large *)
| IndexError                        (* a position that is not there *)
| NotNumeric                        (* the TypeError of a mean over text *)
| BadRef.                           (* no object at this address *)

Inductive outcome (A : Type) : Type :=
| Ok (a : A)
| Raise (e : exn).
Arguments Ok {A} _.
Arguments Raise {A} _.

Definition ref : Type := nat.
Definition heap : Type := list DataFrame.

(** A computation reads and updates the heap and returns or raises; the
    updates made before an exception stay. *)
Definition M (A : Type) : Type := heap -> outcome A * heap.

Definition ret {A : Type} (a : A) : M A := fun h => (Ok a, h).

Definition bind {A B : Type} (m : M A) (f : A -> M B) : M B :=
  fun h =>
    match m h with
    | (Ok a, h') => f a h'
    | (Raise e, h') => (Raise e, h')
    end.

Definition raise {A : Type} (e : exn) : M A := fun h => (Raise e, h).

(** A step that does not touch the heap. *)
Definition lift {A : Type} (o : outcome A) : M A := fun h => (o, h).

Declare Scope py_scope.
Delimit Scope py_scope with py.
Notation "x <- m ;; k" := (bind m (fun x => k))
  (at level 100, m at next level, right associativity) : py_scope.
Notation "m ;; k" := (bind m (fun _ => k))
  (at level 100, right associativity) : py_scope.
Open Scope py_scope.

Definition load (r : ref) : M DataFrame :=
  fun h =>
    match nth_error h r with
    | Some df => (Ok df, h)
    | None => (Raise BadRef, h)
    end.

Fixpoint update_nth {A : Type} (n : nat) (x : A) (l : list A) : list A :=
  match l, n with
  | [], _ => []
  | _ :: l', O => x :: l'
  | y :: l', S n' => y :: update_nth n' x l'
  end.

Definition store (r : ref) (df : DataFrame) : M unit :=
  fun h =>
    match nth_error h r with
    | Some _ => (Ok tt, update_nth r df h)
    | None => (Raise BadRef, h)
    end.

(** [df.copy()]: a new object with the same contents. *)
Definition copy (r : ref) : M ref :=
  df <- load r ;;
  fun h => (Ok (List.length h), h ++ [df]).

(** [df[label]] *)
Definition getitem {A : Type} (r : ref) (c : Col A) : M (list A) :=
  df <- load r ;;
  if has_column df (label c) then ret (map (cget c) (rows df))
  else raise (KeyError [label c]).

(** [df[[label; ...]]]: a new frame with these columns; the labels that are
    not there are all reported. *)
Definition getitems (r : ref) (lbls : list string) : M DataFrame :=
  df <- load r ;;
  match filter (fun l => negb (has_column df l)) lbls with
  | [] => ret (mkDF lbls (rows df))
  | missing => raise (KeyError missing)
  end.

(** [df[label] = values]: replaces the column, or appends it when the label
    is new. *)
Definition setitem {A : Type} (r : ref) (lbl : string)
  (set : A -> Row -> Row) (values : list A) : M unit :=
  df <- load r ;;
  if (List.length values =? List.length (rows df))%nat then
    store r (mkDF (if has_column df lbl then columns df
                   else columns df ++ [lbl])
                  (zip_with set values (rows df)))
  else raise ValueError.

(** [df.groupby(key)[value]]: the key column is looked up first. *)
Definition groupby_col {K V : Type} `{Key K} (r : ref) (key : Col (option K))
  (value : Col V) : M (list (K * list V)) :=
  ks <- getitem r key ;;
  vs <- getitem r value ;;
  ret (groupby (combine ks vs)).

(* ================================================================= *)
(** ** Column statistics *)

(** The frame has an [object] column: a column with a text in it. *)
Definition has_text (df : DataFrame) : bool :=
  existsb (fun l => existsb (holds_text l) (rows df)) (columns df).

(** [DataFrame.mean()]: the mean of every column, indexed by label.  The
    sum of an [object] column is no number, and the mean raises. *)
Definition frame_mean (df : DataFrame) : outcome (list (string * float64)) :=
  if has_text df then Raise NotNumeric
  else Ok (map (fun l => (l, mean (map (as_float l) (rows df))))
             (columns df)).

Definition qsum (l : list Qc) : Qc := fold_right Qcplus Qc0 l.

Definition qlen {A : Type} (l : list A) : Qc :=
  Q2Qc (inject_Z (Z.of_nat (List.length l))).

Definition qmean (l : list Qc) : Qc := (qsum l / qlen l)%Qc.

(** Sum of the products of the deviations from the means. *)
Definition codev (ps : list (Qc * Qc)) : Qc :=
  let mx := qmean (map fst ps) in
  let my := qmean (map snd ps) in
  qsum (map (fun p => ((fst p - mx) * (snd p - my))%Qc) ps).

(** The observations in which both values are finite. *)
Fixpoint finite_pairs (xs ys : list float64) : list (Qc * Qc) :=
  match xs, ys with
  | Fin x :: xs', Fin y :: ys' => (x, y) :: finite_pairs xs' ys'
  | _ :: xs', _ :: ys' => finite_pairs xs' ys'
  | _, _ => []
  end.

Definition swap_pair {A B : Type} (p : A * B) : B * A := (snd p, fst p).
Definition diag_pair {A : Type} (p : A * A) : A * A := (fst p, fst p).

(** Pearson's coefficient of a list of observations: covariance over the
    root of the product of the variances, and [NaN] when there is no
    observation or the divisor is zero. *)
Definition correlate (ps : list (Qc * Qc)) : cell :=
  match ps with
  | [] => VFloat NaN
  | _ =>
      let ssx := codev (map diag_pair ps) in
      let ssy := codev (map diag_pair (map swap_pair ps)) in
      if Qc_eq_bool (ssx * ssy)%Qc Qc0 then VFloat NaN
      else VReal (Q2R (codev ps) / sqrt (Q2R (ssx * ssy)%Qc))%R
  end.

(** The entry of the correlation matrix for two columns: the coefficient
    over the pairwise complete observations. *)
Definition pearson (xs ys : list float64) : cell :=
  correlate (finite_pairs xs ys).

(** [DataFrame.corr()]: one row per column, one entry per column. *)
Definition corr (df : DataFrame) : list (string * list cell) :=
  let col l := map (as_float l) (rows df) in
  map (fun a => (a, map (fun b => pearson (col a) (col b)) (columns df)))
    (columns df).

(* ================================================================= *)
(** ** Report functions *)

(** [return df.groupby("Product Type")["Units Produced"].sum().reset_index()] *)
Definition generate_units_by_product (df : ref) : M ReportTable :=
  g <- groupby_col df Product_TypeC Units_ProducedC ;;
  ret (reset_index "Product Type" "Units Produced" (agg sum64 g)).

(** [return df.groupby("Shift")["Defects"].mean().reset_index()] *)
Definition generate_avg_defects_by_shift (df : ref) : M ReportTable :=
  g <- groupby_col df ShiftC DefectsC ;;
  ret (reset_index "Shift" "Defects"
         (agg (fun l => Binary64.group_mean (map Binary64.of_int64 l)) g)).

(** [df["Month"] = df["Date"].dt.to_period("M").astype(str)]
    [return df.groupby("Month")["Units Produced"].sum().reset_index()] *)
Definition generate_monthly_production (pd : pandas) (df : ref)
  : M ReportTable :=
  d <- getitem df DateC ;;
  setitem df "Month" set_Month (map (astype_str pd) d) ;;
  g <- groupby_col df MonthC Units_ProducedC ;;
  ret (reset_index "Month" "Units Produced" (agg sum64 g)).

(** [cols] collects the cost columns that [df.columns] has;
    [return df[cols].mean().reset_index().rename(columns={0: "Average Cost"})].
    The value column of the reset Series is labelled 0, written ["0"]. *)
Definition generate_avg_cost_summary (df : ref) : M ReportTable :=
  let cols := [] in
  d <- load df ;;
  let cols := if has_column d "Material Cost Per Unit"
              then cols ++ ["Material Cost Per Unit"] else cols in
  let cols := if has_column d "Labour Cost Per Hour"
              then cols ++ ["Labour Cost Per Hour"] else cols in
  sub <- getitems df cols ;;
  m <- lift (frame_mean sub) ;;
  ret (rename "0" "Average Cost" (reset_index "index" "0" m)).

(** [return df[["Energy Consumption kWh", "Units Produced"]].corr().reset_index()] *)
Definition generate_energy_vs_production (df : ref) : M ReportTable :=
  sub <- getitems df ["Energy Consumption kWh"; "Units Produced"] ;;
  ret (reset_index_frame (columns sub) (corr sub)).

(** [prod = df.groupby("Product Type")["Units Produced"].sum()]
    [defects = df.groupby("Product Type")["Defects"].sum()]
    [result = (defects / prod * 100).reset_index()]
    [result.columns = ["Product Type", "Defect Rate (%)"]] *)
Definition generate_defect_rate_by_product (df : ref) : M ReportTable :=
  prod <- (g <- groupby_col df Product_TypeC Units_ProducedC ;;
           ret (agg sum64 g)) ;;
  defects <- (g <- groupby_col df Product_TypeC DefectsC ;;
              ret (agg sum64 g)) ;;
  let result :=
    reset_index "Product Type" "0"
      (series_mul_int (series_div defects prod) 100) in
  ret (mkTable ["Product Type"; "Defect Rate (%)"] (body result)).

(** [df = df.copy()]
    [df["Productivity"] = df["Units Produced"]
                          / (df["Operator Count"] * df["Production Time Hours"])]
    [return df[["Product Type", "Shift", "Productivity"]]
              .groupby(["Product Type", "Shift"]).mean().reset_index()] *)
Definition generate_productivity_per_operator (df : ref) : M ReportTable :=
  df <- copy df ;;
  u <- getitem df Units_ProducedC ;;
  o <- getitem df Operator_CountC ;;
  t <- getitem df Production_Time_HoursC ;;
  setitem df "Productivity" set_Productivity
    (zip_with PrimFloat.div (map Binary64.of_int64 u)
       (zip_with PrimFloat.mul (map Binary64.of_int64 o) t)) ;;
  sub <- getitems df ["Product Type"; "Shift"; "Productivity"] ;;
  let g := groupby (map (fun r => (key2 (Product_Type r) (Shift r),
                                   Productivity r)) (rows sub)) in
  ret (reset_index2 "Product Type" "Shift" "Productivity"
         (agg Binary64.group_mean g)).

(* ================================================================= *)
(** ** Reading a result table *)

Fixpoint column_index (lbl : string) (hs : list string) : option nat :=
  match hs with
  | [] => None
  | h :: hs' =>
      if String.eqb h lbl then Some O
      else option_map S (column_index lbl hs')
  end.

Definition table_column (lbl : string) (t : ReportTable) : list cell :=
  match column_index lbl (headers t) with
  | Some i => map (fun row => nth i row (VStr "")) (body t)
  | None => []
  end.

Definition cell_int (c : cell) : Z :=
  match c with VInt z => z | _ => 0 end.

Definition cell_str (c : cell) : string :=
  match c with VStr s => s | _ => "" end.

Definition int_column (lbl : string) (t : ReportTable) : list Z :=
  map cell_int (table_column lbl t).

Definition str_column (lbl : string) (t : ReportTable) : list string :=
  map cell_str (table_column lbl t).

(** The first row whose first value is the label [s]. *)
Fixpoint find_row (s : string) (b : list (list cell)) : option (list cell) :=
  match b with
  | [] => None
  | row :: b' =>
      match row with
      | VStr s' :: _ => if String.eqb s' s then Some row else find_row s b'
      | _ => find_row s b'
      end
  end.

(* ================================================================= *)
(** ** The report pass and the export *)

(** *** What is shown *)

(** The Streamlit calls and the calls that only set up or decorate a
    figure return; what they show is not part of the model. *)
Definition st_success : M unit := ret tt.
Definition st_subheader : M unit := ret tt.
Definition st_header : M unit := ret tt.
Definition st_divider : M unit := ret tt.
Definition st_dataframe (t : ReportTable) : M unit := ret tt.
Definition st_dataframe_frame (df : DataFrame) : M unit := ret tt.
Definition plt_subplots : M unit := ret tt.
Definition st_pyplot : M unit := ret tt.
Definition ax_bar (x height : list cell) : M unit := ret tt.
Definition ax_set_title : M unit := ret tt.
Definition ax_legend : M unit := ret tt.
Definition plt_xticks : M unit := ret tt.

(** [df.head()]: the first five rows. *)
Definition head (r : ref) : M DataFrame :=
  df <- load r ;;
  ret (mkDF (columns df) (firstn 5 (rows df))).

Definition has_header (t : ReportTable) (lbl : string) : bool :=
  existsb (String.eqb lbl) (headers t).

(** [t[label]] on a result table. *)
Definition table_getitem (t : ReportTable) (lbl : string)
  : outcome (list cell) :=
  match column_index lbl (headers t) with
  | Some i => Ok (map (fun row => nth i row (VStr "")) (body t))
  | None => Raise (KeyError [lbl])
  end.

(** [t.plot(kind="bar", x=..., y=..., ax=...)].  The two columns are looked
    up and the bars are drawn; the limits of the x axis are then read off
    the positions of the first and of the last bar, which a table without
    rows does not have.  (The value column of every table drawn here is
    numeric.) *)
Definition bar_chart (t : ReportTable) (x y : string) : outcome unit :=
  if negb (has_header t x) then Raise (KeyError [x])
  else if negb (has_header t y) then Raise (KeyError [y])
  else match body t with
       | [] => Raise IndexError
       | _ => Ok tt
       end.

(** [t.plot(kind="line", x=..., y=..., ax=...)]: a line through no point
    is drawn as well. *)
Definition line_chart (t : ReportTable) (x y : string) : outcome unit :=
  if negb (has_header t x) then Raise (KeyError [x])
  else if negb (has_header t y) then Raise (KeyError [y])
  else Ok tt.

Definition plot_bar (t : ReportTable) (x y : string) : M unit :=
  lift (bar_chart t x y).

Definition plot_line (t : ReportTable) (x y : string) : M unit :=
  lift (line_chart t x y).

(** [Series.unique()]: the values in the order of their first occurrence. *)
Definition unique (l : list string) : list string :=
  fold_left (fun seen x => if existsb (String.eqb x) seen then seen
                           else seen ++ [x]) l [].

Fixpoint for_each {A : Type} (l : list A) (body : A -> M unit) : M unit :=
  match l with
  | [] => ret tt
  | x :: l' => body x ;; for_each l' body
  end.

(** [t[t[label] == v]] on a result table whose column [label] is its
    [i]-th. *)
Definition rows_where (t : ReportTable) (i : nat) (v : string)
  : ReportTable :=
  mkTable (headers t)
    (filter (fun row => String.eqb (cell_str (nth i row (VStr ""))) v)
       (body t)).

(** [for shift in productivity["Shift"].unique():]
    [    shift_df = productivity[productivity["Shift"] == shift]]
    [    ax7.bar(shift_df["Product Type"], shift_df["Productivity"], ...)] *)
Definition productivity_chart (productivity : ReportTable) : M unit :=
  shifts <- lift (table_getitem productivity "Shift") ;;
  for_each (unique (map cell_str shifts)) (fun shift =>
    let shift_df := rows_where productivity 1 shift in
    x <- lift (table_getitem shift_df "Product Type") ;;
    height <- lift (table_getitem shift_df "Productivity") ;;
    ax_bar x height).

(** *** The workbook *)

(** A cell of a sheet. *)
Inductive xl : Type :=
| XText (s : string)
| XInt (z : Z)
| XNum (x : float64)
| XReal (x : R)
| XDouble (x : PrimFloat.float).

(** How [to_excel] writes a value: a missing value as the empty text
    ([na_rep]) and an infinity as the text [inf] ([inf_rep]). *)
Definition excel_cell (c : cell) : xl :=
  match c with
  | VStr s => XText s
  | VInt z => XInt z
  | VFloat NaN => XText ""
  | VFloat PInf => XText "inf"
  | VFloat NInf => XText "-inf"
  | VFloat x => XNum x
  | VReal x => XReal x
  | VDouble x =>
      if PrimFloat.is_nan x then XText ""
      else if PrimFloat.eqb x PrimFloat.infinity then XText "inf"
      else if PrimFloat.eqb x PrimFloat.neg_infinity then XText "-inf"
      else XDouble x
  end.

Record sheet : Type := mkSheet {
  title : string;
  header_row : list string;
  data_rows : list (list xl)
}.

(** The workbook being written: its sheets in the order they were added. *)
Definition workbook : Type := list sheet.

Definition sheet_of (sheet_name : string) (t : ReportTable) : sheet :=
  mkSheet sheet_name (headers t) (map (map excel_cell) (body t)).

(** The largest sheet of the xlsx format. *)
Definition max_rows : Z := 2 ^ 20.
Definition max_cols : Z := 2 ^ 14.

(** [t.to_excel(writer, sheet_name=name, index=False)]: the header row and
    the rows, without the index; a table that does not fit in a sheet is
    refused. *)
Definition to_excel (t : ReportTable) (writer : workbook)
  (sheet_name : string) : M workbook :=
  if (max_rows <? Z.of_nat (List.length (body t)))
     || (max_cols <? Z.of_nat (List.length (headers t)))
  then raise ValueError
  else ret (writer ++ [sheet_of sheet_name t]).

(** What [st.download_button] is given. *)
Record Download : Type := mkDownload {
  data : workbook;
  file_name : string;
  mime : string
}.

(** *** The pass *)

(** The body of [if uploaded_file:], statement by statement.  The table at
    [df] is the one [read_csv] returned with its dates already parsed, so
    that [df["Date"] = pd.to_datetime(df["Date"], errors="coerce")] reads
    the [Date] column and writes it back. *)
Definition main (pd : pandas) (df : ref) : M Download :=
  d <- getitem df DateC ;;
  setitem df "Date" set_Date d ;;
  st_success ;;
  st_subheader ;;
  preview <- head df ;;
  st_dataframe_frame preview ;;
  st_divider ;;
  st_header ;;
  (* 1. Units by Product Type *)
  st_subheader ;;
  units <- generate_units_by_product df ;;
  st_dataframe units ;;
  plt_subplots ;;
  plot_bar units "Product Type" "Units Produced" ;;
  st_pyplot ;;
  (* 2. Avg Defects by Shift *)
  st_subheader ;;
  defects <- generate_avg_defects_by_shift df ;;
  st_dataframe defects ;;
  plt_subplots ;;
  plot_bar defects "Shift" "Defects" ;;
  st_pyplot ;;
  (* 3. Monthly Production *)
  st_subheader ;;
  monthly <- generate_monthly_production pd df ;;
  st_dataframe monthly ;;
  plt_subplots ;;
  plot_line monthly "Month" "Units Produced" ;;
  st_pyplot ;;
  (* 4. Average Cost *)
  st_subheader ;;
  cost <- generate_avg_cost_summary df ;;
  st_dataframe cost ;;
  plt_subplots ;;
  plot_bar cost "index" "Average Cost" ;;
  st_pyplot ;;
  (* 5. Energy vs Production *)
  st_subheader ;;
  energy <- generate_energy_vs_production df ;;
  st_dataframe energy ;;
  (* 6. Defect Rate (%) *)
  st_subheader ;;
  defect_rate <- generate_defect_rate_by_product df ;;
  st_dataframe defect_rate ;;
  plt_subplots ;;
  plot_bar defect_rate "Product Type" "Defect Rate (%)" ;;
  st_pyplot ;;
  (* 7. Productivity per Operator *)
  st_subheader ;;
  productivity <- generate_productivity_per_operator df ;;
  st_dataframe productivity ;;
  plt_subplots ;;
  productivity_chart productivity ;;
  ax_set_title ;;
  ax_legend ;;
  plt_xticks ;;
  st_pyplot ;;
  (* Export Excel Report *)
  st_divider ;;
  st_subheader ;;
  let writer := [] in
  writer <- to_excel units writer "Units by Product" ;;
  writer <- to_excel defects writer "Defects by Shift" ;;
  writer <- to_excel monthly writer "Monthly Production" ;;
  writer <- to_excel cost writer "Cost Summary" ;;
  writer <- to_excel energy writer "Energy vs Prod" ;;
  writer <- to_excel defect_rate writer "Defect Rate (%)" ;;
  writer <- to_excel productivity writer "Productivity" ;;
  ret (mkDownload writer "agentic_report.xlsx"
         "application/vnd.openxmlformats-officedocument.spreadsheetml.sheet").

(* ================================================================= *)
(** ** Results as functions of the table *)

(** The table stored at an address. *)
Definition at_ref (h : heap) (r : ref) (df : DataFrame) : Prop :=
  nth_error h r = Some df.

Definition require {A : Type} (df : DataFrame) (lbl : string)
  (k : outcome A) : outcome A :=
  if has_column df lbl then k else Raise (KeyError [lbl]).

Definition obind {A B : Type} (o : outcome A) (f : A -> outcome B)
  : outcome B :=
  match o with
  | Ok a => f a
  | Raise e => Raise e
  end.

(** The rows of each grouped report, as (key, value) pairs. *)
Definition product_units (df : DataFrame) : list (option string * Z) :=
  map (fun r => (Product_Type r, Units_Produced r)) (rows df).

Definition product_defects (df : DataFrame) : list (option string * Z) :=
  map (fun r => (Product_Type r, Defects r)) (rows df).

Definition shift_defects (df : DataFrame) : list (option string * Z) :=
  map (fun r => (Shift r, Defects r)) (rows df).

Definition month_units (pd : pandas) (df : DataFrame)
  : list (option string * Z) :=
  map (fun r => (astype_str pd (Date r), Units_Produced r)) (rows df).

(** Units per operator and hour of one record. *)
Definition productivity_of (r : Row) : PrimFloat.float :=
  PrimFloat.div (Binary64.of_int64 (Units_Produced r))
    (PrimFloat.mul (Binary64.of_int64 (Operator_Count r))
       (Production_Time_Hours r)).

Definition group_productivity (df : DataFrame)
  : list (option (string * string) * PrimFloat.float) :=
  map (fun r => (key2 (Product_Type r) (Shift r), productivity_of r))
    (rows df).

Definition units_by_product_result (df : DataFrame) : outcome ReportTable :=
  require df "Product Type"
    (require df "Units Produced"
       (Ok (reset_index "Product Type" "Units Produced"
              (agg sum64 (groupby (product_units df)))))).

Definition avg_defects_by_shift_result (df : DataFrame)
  : outcome ReportTable :=
  require df "Shift"
    (require df "Defects"
       (Ok (reset_index "Shift" "Defects"
              (agg (fun l => Binary64.group_mean (map Binary64.of_int64 l))
                 (groupby (shift_defects df)))))).

(** The input table once [generate_monthly_production] has set [Month]. *)
Definition with_month (pd : pandas) (df : DataFrame) : DataFrame :=
  mkDF (if has_column df "Month" then columns df else columns df ++ ["Month"])
    (map (fun r => set_Month (astype_str pd (Date r)) r) (rows df)).

Definition monthly_production_result (pd : pandas) (df : DataFrame)
  : outcome ReportTable :=
  require df "Date"
    (require df "Units Produced"
       (Ok (reset_index "Month" "Units Produced"
              (agg sum64 (groupby (month_units pd df)))))).

Definition cost_columns (df : DataFrame) : list string :=
  (if has_column df "Material Cost Per Unit"
   then ["Material Cost Per Unit"] else []) ++
  (if has_column df "Labour Cost Per Hour"
   then ["Labour Cost Per Hour"] else []).

(** No cost column that the table has holds a text. *)
Definition numeric_costs (df : DataFrame) : bool :=
  negb (has_text (mkDF (cost_columns df) (rows df))).

Definition avg_cost_summary_result (df : DataFrame) : outcome ReportTable :=
  if numeric_costs df then
    Ok (mkTable ["index"; "Average Cost"]
          (map (fun l => [VStr l; VFloat (mean (map (as_float l) (rows df)))])
             (cost_columns df)))
  else Raise NotNumeric.

Definition energy_columns : list string :=
  ["Energy Consumption kWh"; "Units Produced"].

Definition energy_vs_production_result (df : DataFrame)
  : outcome ReportTable :=
  match filter (fun l => negb (has_column df l)) energy_columns with
  | [] => Ok (reset_index_frame energy_columns
                (corr (mkDF energy_columns (rows df))))
  | missing => Raise (KeyError missing)
  end.

Definition defect_rate (defects units : Z) : float64 :=
  fmul (fdiv (of_int defects) (of_int units)) (of_int 100).

Definition defect_rate_by_product_result (df : DataFrame)
  : outcome ReportTable :=
  require df "Product Type"
    (require df "Units Produced"
       (require df "Defects"
          (Ok (mkTable ["Product Type"; "Defect Rate (%)"]
                 (map (fun k =>
                         [VStr k;
                          VFloat (defect_rate
                                    (sum64 (group_of k (dropna (product_defects df))))
                                    (sum64 (group_of k (dropna (product_units df)))))])
                    (sorted_keys (map fst (dropna (product_units df))))))))).

Definition productivity_per_operator_result (df : DataFrame)
  : outcome ReportTable :=
  require df "Units Produced"
    (require df "Operator Count"
       (require df "Production Time Hours"
          (match filter (fun l => negb (has_column df l))
                   ["Product Type"; "Shift"] with
           | [] => Ok (reset_index2 "Product Type" "Shift" "Productivity"
                         (agg Binary64.group_mean
                            (groupby (group_productivity df))))
           | missing => Raise (KeyError missing)
           end))).

Definition sheet_names : list string :=
  ["Units by Product"; "Defects by Shift"; "Monthly Production";
   "Cost Summary"; "Energy vs Prod"; "Defect Rate (%)"; "Productivity"].

Definition xlsx_mime : string :=
  "application/vnd.openxmlformats-officedocument.spreadsheetml.sheet".

(** The table fits in a sheet. *)
Definition fits (t : ReportTable) : bool :=
  negb ((max_rows <? Z.of_nat (List.length (body t)))
        || (max_cols <? Z.of_nat (List.length (headers t)))).

(** The workbook of the seven tables. *)
Definition export_result (tables : list ReportTable) : outcome Download :=
  if forallb fits tables then
    Ok (mkDownload
          (map (fun nt => sheet_of (fst nt) (snd nt))
             (combine sheet_names tables))
          "agentic_report.xlsx" xlsx_mime)
  else Raise ValueError.

(** The whole pass: the first failure is the outcome. *)
Definition main_result (pd : pandas) (df : DataFrame) : outcome Download :=
  require df "Date"
    (obind (units_by_product_result df) (fun units =>
     obind (bar_chart units "Product Type" "Units Produced") (fun _ =>
     obind (avg_defects_by_shift_result df) (fun defects =>
     obind (bar_chart defects "Shift" "Defects") (fun _ =>
     obind (monthly_production_result pd df) (fun monthly =>
     obind (line_chart monthly "Month" "Units Produced") (fun _ =>
     obind (avg_cost_summary_result df) (fun cost =>
     obind (bar_chart cost "index" "Average Cost") (fun _ =>
     obind (energy_vs_production_result df) (fun energy =>
     obind (defect_rate_by_product_result df) (fun rate =>
     obind (bar_chart rate "Product Type" "Defect Rate (%)") (fun _ =>
     obind (productivity_per_operator_result df) (fun productivity =>
     export_result
       [units; defects; monthly; cost; energy; rate; productivity]))))))))))))).

(* ================================================================= *)
(** ** Keys and derived tables *)

Definition is_some {A : Type} (o : option A) : bool :=
  match o with Some _ => true | None => false end.

Definition is_key (s : string) (o : option string) : bool :=
  match o with Some s' => String.eqb s' s | None => false end.

(** The copy made by [generate_productivity_per_operator], once it has
    received the [Productivity] column. *)
Definition with_productivity (df : DataFrame) : DataFrame :=
  mkDF (if has_column df "Productivity" then columns df
        else columns df ++ ["Productivity"])
    (map (fun r => set_Productivity (productivity_of r) r) (rows df)).

(** Strictly ascending keys. *)
Definition klt {K : Type} `{Key K} (a b : K) : Prop :=
  kleb a b = true /\ a <> b.

(* ================================================================= *)
(** ** Units by product: what is summed, and the tables of the scenarios *)

(** Units Produced of the rows that have a Product Type. *)
Definition present_units (df : DataFrame) : list Z :=
  map Units_Produced (filter (fun r => is_some (Product_Type r)) (rows df)).

(** A row of which only the product columns matter. *)
Definition product_row (p : option string) (units defects : Z) : Row :=
  mkRow None p None units defects 0 PrimFloat.nan NaN (Num NaN) (Num NaN) None PrimFloat.nan.

(** Products "A" (units 10 and 20, defects 1 and 2) and "B" (units 5,
    defects 1). *)
Definition scenario_AB : DataFrame :=
  mkDF ["Product Type"; "Units Produced"; "Defects"]
    [product_row (Some "A") 10 1; product_row (Some "A") 20 2;
     product_row (Some "B") 5 1].

(** One row of product "A" and one row whose Product Type cell is empty. *)
Definition missing_product_table : DataFrame :=
  mkDF ["Product Type"; "Units Produced"; "Defects"]
    [product_row (Some "A") 10 1; product_row None 7 0].

(** The totals of the report add up to the total of the whole column. *)
Definition units_total_claim (df : DataFrame) : Prop :=
  forall h r t,
    at_ref h r df ->
    generate_units_by_product r h = (Ok t, h) ->
    Zsum (int_column "Units Produced" t) = Zsum (map Units_Produced (rows df)).

(* ================================================================= *)
(** ** Average defects by shift: the mean it is compared with *)

(** Defects of the rows whose Shift is [s]. *)
Definition defects_of_shift (s : string) (df : DataFrame) : list Z :=
  map Defects (filter (fun r => is_key s (Shift r)) (rows df)).

(** The arithmetic mean of a non-empty list of integers: their sum over
    their number. *)
Definition arithmetic_mean (l : list Z) : Qc :=
  Q2Qc (Zsum l # Pos.of_nat (List.length l)).

(** A row of which only the shift columns matter. *)
Definition shift_row (s : option string) (defects : Z) : Row :=
  mkRow None None s 0 defects 0 PrimFloat.nan NaN (Num NaN) (Num NaN) None
    PrimFloat.nan.

(** Three records of the day shift, with 1, 1 and 2 defects. *)
Definition defects_1_1_2 : DataFrame :=
  mkDF ["Shift"; "Defects"]
    [shift_row (Some "Day") 1; shift_row (Some "Day") 1;
     shift_row (Some "Day") 2].

(** The value of every shift is the arithmetic mean of its defects. *)
Definition arithmetic_mean_claim (df : DataFrame) : Prop :=
  forall h r s,
    at_ref h r df ->
    In (Some s) (map Shift (rows df)) ->
    exists t x,
      generate_avg_defects_by_shift r h = (Ok t, h) /\
      find_row s (body t) = Some [VStr s; VDouble x] /\
      Binary64.to_float64 x = Fin (arithmetic_mean (defects_of_shift s df)).

(* ================================================================= *)
(** ** Defect rate by product: per-product columns and the sentinel *)

Definition units_of_product (p : string) (df : DataFrame) : list Z :=
  map Units_Produced (filter (fun r => is_key p (Product_Type r)) (rows df)).

Definition defects_of_product (p : string) (df : DataFrame) : list Z :=
  map Defects (filter (fun r => is_key p (Product_Type r)) (rows df)).











(* ================================================================= *)
(** ** Productivity: a table, and a group in two row orders *)

Definition productivity_row (p s : option string) (units ops : Z)
  (hours : PrimFloat.float) : Row :=
  mkRow None p s units 0 ops hours NaN (Num NaN) (Num NaN) None PrimFloat.nan.

Definition productivity_columns : list string :=
  ["Product Type"; "Shift"; "Units Produced"; "Operator Count";
   "Production Time Hours"].

Definition productivity_table : DataFrame :=
  mkDF productivity_columns
    [productivity_row (Some "B") (Some "Day") 12 2 3%float;
     productivity_row (Some "A") (Some "Night") 10 1 5%float;
     productivity_row (Some "A") (Some "Night") 7 0 5%float;
     productivity_row (Some "A") None 9 3 1%float].

(** Three records of one group, one hour each: 1 unit with 3 operators,
    5 units with 2 and 2 units with 1. *)
Definition one_group : DataFrame :=
  mkDF productivity_columns
    [productivity_row (Some "A") (Some "Day") 1 3 1%float;
     productivity_row (Some "A") (Some "Day") 5 2 1%float;
     productivity_row (Some "A") (Some "Day") 2 1 1%float].

(** The same records in the opposite order. *)
Definition one_group_reversed : DataFrame :=
  mkDF productivity_columns (rev (rows one_group)).

(** The report does not depend on the order of the records. *)
Definition row_order_claim (df df' : DataFrame) : Prop :=
  forall h r h' r',
    at_ref h r df ->
    at_ref h' r' df' ->
    columns df' = columns df ->
    Permutation (rows df) (rows df') ->
    fst (generate_productivity_per_operator r h)
    = fst (generate_productivity_per_operator r' h').

(* ================================================================= *)
(** ** A complete input table *)

Definition all_columns : list string :=
  ["Date"; "Product Type"; "Shift"; "Units Produced"; "Defects";
   "Operator Count"; "Production Time Hours"; "Energy Consumption kWh";
   "Material Cost Per Unit"; "Labour Cost Per Hour"].

Definition full_table : DataFrame :=
  mkDF all_columns
    [mkRow (Some (mkDate 2024 2 14)) (Some "B") (Some "Day") 5 1 2
       4%float (of_int 70) (Num (of_int 3)) (Num (of_int 9)) None PrimFloat.nan;
     mkRow (Some (mkDate 2024 1 5)) (Some "A") (Some "Day") 10 1 2
       4%float (of_int 90) (Num (of_int 3)) (Num (of_int 9)) None PrimFloat.nan;
     mkRow None (Some "A") (Some "Night") 20 2 4
       8%float (of_int 150) (Num (of_int 5)) (Num (of_int 11)) None PrimFloat.nan].

(* ================================================================= *)
(** ** The aggregations and their required columns *)

(** Name, required columns and code of the seven report functions, in the
    order in which the pass calls them. *)
Definition aggregations (pd : pandas)
  : list (string * list string * (ref -> M ReportTable)) :=
  [("generate_units_by_product", ["Product Type"; "Units Produced"],
    generate_units_by_product);
   ("generate_avg_defects_by_shift", ["Shift"; "Defects"],
    generate_avg_defects_by_shift);
   ("generate_monthly_production", ["Date"; "Units Produced"],
    generate_monthly_production pd);
   ("generate_avg_cost_summary", [], generate_avg_cost_summary);
   ("generate_energy_vs_production",
    ["Energy Consumption kWh"; "Units Produced"],
    generate_energy_vs_production);
   ("generate_defect_rate_by_product",
    ["Product Type"; "Units Produced"; "Defects"],
    generate_defect_rate_by_product);
   ("generate_productivity_per_operator",
    ["Product Type"; "Shift"; "Units Produced"; "Operator Count";
     "Production Time Hours"],
    generate_productivity_per_operator)].

(** An exception that names missing columns. *)
Definition names_missing (df : DataFrame) (req : list string) (e : exn)
  : Prop :=
  exists cs, e = KeyError cs /\ cs <> [] /\
             Forall (fun c => In c req /\ has_column df c = false) cs.

(** The complete table without its Shift column. *)
Definition table_without_shift : DataFrame :=
  mkDF (filter (fun l => negb (String.eqb l "Shift")) all_columns)
    (rows full_table).

(** The pass over a table returns its results. *)
Definition pass_completes_claim (pd : pandas) (df : DataFrame) : Prop :=
  forall h r, at_ref h r df -> exists out h', main pd r h = (Ok out, h').



(** What a report function does with respect to its required columns. *)
Definition respects_required (df : DataFrame) (req : list string)
  (o : outcome ReportTable) : Prop :=
  match o with
  | Ok _ => Forall (fun c => has_column df c = true) req
  | Raise e => names_missing df req e
  end.

(* ================================================================= *)
(** ** The contents of a table, column by column *)

(** A value of an input column, whatever its type. *)
Inductive value : Type :=
| DateV (d : option date)
| ObjectV (s : option string)
| IntV (z : Z)
| FloatV (x : float64)
| DoubleV (x : PrimFloat.float)
| CostV (c : cost)
| OtherV.

Definition field (lbl : string) (r : Row) : value :=
  if String.eqb lbl "Date" then DateV (Date r)
  else if String.eqb lbl "Product Type" then ObjectV (Product_Type r)
  else if String.eqb lbl "Shift" then ObjectV (Shift r)
  else if String.eqb lbl "Units Produced" then IntV (Units_Produced r)
  else if String.eqb lbl "Defects" then IntV (Defects r)
  else if String.eqb lbl "Operator Count" then IntV (Operator_Count r)
  else if String.eqb lbl "Production Time Hours"
       then DoubleV (Production_Time_Hours r)
  else if String.eqb lbl "Energy Consumption kWh"
       then FloatV (Energy_Consumption_kWh r)
  else if String.eqb lbl "Material Cost Per Unit"
       then CostV (Material_Cost_Per_Unit r)
  else if String.eqb lbl "Labour Cost Per Hour"
       then CostV (Labour_Cost_Per_Hour r)
  else if String.eqb lbl "Month" then ObjectV (Month r)
  else if String.eqb lbl "Productivity" then DoubleV (Productivity r)
  else OtherV.

(** The values of a column, when the table has it. *)
Definition column_values (df : DataFrame) (lbl : string)
  : option (list value) :=
  if has_column df lbl then Some (map (field lbl) (rows df)) else None.

(** Every column of [df] is in [df'] with the same values. *)
Definition existing_columns_unchanged (df df' : DataFrame) : Prop :=
  forall lbl,
    has_column df lbl = true -> column_values df' lbl = column_values df lbl.

(** The report functions other than [generate_monthly_production]. *)
Definition read_only_aggregations : list (ref -> M ReportTable) :=
  [generate_units_by_product; generate_avg_defects_by_shift;
   generate_avg_cost_summary; generate_energy_vs_production;
   generate_defect_rate_by_product; generate_productivity_per_operator].

(** No report function changes a column that the input table has. *)
Definition frame_claim (pd : pandas) (df : DataFrame) : Prop :=
  forall name req f h r o h',
    In (name, req, f) (aggregations pd) ->
    at_ref h r df ->
    f r h = (o, h') ->
    exists df', at_ref h' r df' /\ existing_columns_unchanged df df'.

(** An input table that already has a column called Month. *)
Definition table_with_month : DataFrame :=
  mkDF ["Date"; "Units Produced"; "Month"]
    [mkRow (Some (mkDate 2024 1 5)) None None 10 0 0 PrimFloat.nan NaN
       (Num NaN) (Num NaN) (Some "January") PrimFloat.nan].

(* ================================================================= *)
(** ** Monthly production: dates of a table *)

(** Every date of the table that is not [NaT] is a valid timestamp. *)
Definition valid_dates (df : DataFrame) : Prop :=
  Forall (fun d => match d with Some x => valid_date x | None => True end)
    (map Date (rows df)).

Definition has_missing_date (df : DataFrame) : bool :=
  existsb (fun d => negb (is_some d)) (map Date (rows df)).

(** The dates of the rows that are in a month group: the rows with a
    date and, where a missing month is a text, the rows without one. *)
Definition in_a_month (pd : pandas) (d : option date) : bool :=
  is_some d || nat_is_text pd.

(** Units Produced of these rows. *)
Definition monthly_units (pd : pandas) (df : DataFrame) : list Z :=
  map Units_Produced (filter (fun r => in_a_month pd (Date r)) (rows df)).

(** A row of which only the date and the units matter. *)
Definition dated_row (d : option date) (units : Z) : Row :=
  mkRow d None None units 0 0 PrimFloat.nan NaN (Num NaN) (Num NaN) None
    PrimFloat.nan.

(** One row without a date and one row of January 2024. *)
Definition missing_date_table : DataFrame :=
  mkDF ["Date"; "Units Produced"]
    [dated_row None 5; dated_row (Some (mkDate 2024 1 5)) 3].

(** Two rows of January 2024 whose units add up to 2^63. *)
Definition large_units_table : DataFrame :=
  mkDF ["Date"; "Units Produced"]
    [dated_row (Some (mkDate 2024 1 5)) (2 ^ 62);
     dated_row (Some (mkDate 2024 1 20)) (2 ^ 62)].

(** The monthly totals add up to the units of the rows that have a date. *)
Definition monthly_parseable_total_claim (pd : pandas) (df : DataFrame)
  : Prop :=
  forall h r t h',
    at_ref h r df ->
    generate_monthly_production pd r h = (Ok t, h') ->
    Zsum (int_column "Units Produced" t) =
    Zsum (map Units_Produced (filter (fun r => is_some (Date r)) (rows df))).

(* ================================================================= *)
(** ** Energy and production: spread of a column *)

(** Sum of the squared deviations from the mean: it is zero when the
    values do not vary. *)
Definition sum_sq_dev (l : list Qc) : Qc :=
  qsum (map (fun x => ((x - qmean l) * (x - qmean l))%Qc) l).



Definition energy_row (energy : float64) (units : Z) : Row :=
  mkRow None None None units 0 0 PrimFloat.nan energy (Num NaN) (Num NaN)
    None PrimFloat.nan.





(** The columns that the input must have (the two cost columns are
    optional). *)
Definition required_columns : list string :=
  ["Date"; "Product Type"; "Shift"; "Units Produced"; "Defects";
   "Operator Count"; "Production Time Hours"; "Energy Consumption kWh"].

(* ================================================================= *)
(** ** The rate in binary64 *)

(** [defects / units * 100] on IEEE binary64 numbers, to compare the
    exact-value model with the rounded arithmetic on given inputs. *)
Definition defect_rate_binary64 (defects units : PrimFloat.float)
  : PrimFloat.float :=
  PrimFloat.mul (PrimFloat.div defects units) 100%float.

(* ================================================================= *)
(** ** Monthly production: the rows of a month *)

Definition same_month (a b : date) : bool :=
  (year a =? year b) && (month a =? month b).

(** Units Produced of the rows dated in the month of [d]. *)
Definition units_of_month (d : date) (df : DataFrame) : list Z :=
  map Units_Produced
    (filter (fun r => match Date r with
                      | Some x => same_month x d
                      | None => false
                      end) (rows df)).

(** Units Produced of the rows without a date. *)
Definition units_without_date (df : DataFrame) : list Z :=
  map Units_Produced (filter (fun r => negb (is_some (Date r))) (rows df)).

(* ================================================================= *)
(** ** Productivity: the rows of a group *)

(** The row belongs to the group of product [p] and shift [s]. *)
Definition in_group (p s : string) (r : Row) : bool :=
  is_key p (Product_Type r) && is_key s (Shift r).

(** The per-record productivities of a group, in row order. *)
Definition productivity_of_group (p s : string) (df : DataFrame)
  : list PrimFloat.float :=
  map productivity_of (filter (in_group p s) (rows df)).

(** The first row of a result table that starts with the labels [p], [s]. *)
Fixpoint find_row2 (p s : string) (b : list (list cell))
  : option (list cell) :=
  match b with
  | [] => None
  | row :: b' =>
      match row with
      | VStr p' :: VStr s' :: _ =>
          if String.eqb p' p && String.eqb s' s then Some row
          else find_row2 p s b'
      | _ => find_row2 p s b'
      end
  end.

(** The pairs of labels that start the rows of a result table. *)
Definition key_column2 (t : ReportTable) : list (string * string) :=
  map (fun row => (cell_str (nth 0 row (VStr "")),
                   cell_str (nth 1 row (VStr "")))) (body t).



(** The complete table with its rows in the opposite order. *)
Definition full_table_reordered : DataFrame :=
  mkDF all_columns (rev (rows full_table)).

(** A table with dates and without the Units Produced column. *)
Definition dates_only_table : DataFrame :=
  mkDF ["Date"]
    [mkRow (Some (mkDate 2024 1 5)) None None 0 0 0 PrimFloat.nan NaN (Num NaN)
       (Num NaN) None PrimFloat.nan;
     mkRow None None None 0 0 0 PrimFloat.nan NaN (Num NaN) (Num NaN) None PrimFloat.nan].



(** A table of one record. *)
Definition single_row_table : DataFrame :=
  mkDF ["Energy Consumption kWh"; "Units Produced"]
    [energy_row (of_int 70) 5].

(* ================================================================= *)
(** ** The mail step *)

(** The mail code reads names of the module, a file, the process
    environment and a submitted form, and calls the SMTP client and a
    logger.  The world holds what it reads and records what it calls. *)

Inductive py_exn : Type :=
| NameError (name : string)         (* a name that is not defined *)
| TypeError                         (* an operand of the wrong type *)
| AttributeError                    (* an attribute that is not there *)
| FileNotFoundError (path : string) (* no such file *)
| SMTPException.                    (* the server cannot be used *)

Inductive mime_part : Type :=
| TextPart (text subtype : string)
| Attachment (payload disposition : string).

Record message : Type := mkMessage {
  msg_from : option string;
  msg_to : option string;
  msg_subject : string;
  msg_parts : list mime_part
}.

Inductive call : Type :=
| SMTP_connect (host : string) (port : Z)
| SMTP_starttls
| SMTP_login (user password : option string)
| SMTP_send_message (msg : message)
| SMTP_quit
| Log_error (text : string).

Definition is_smtp (c : call) : bool :=
  match c with Log_error _ => false | _ => true end.

Inductive io_outcome (A : Type) : Type :=
| Done (a : A)
| Fail (e : py_exn).
Arguments Done {A} _.
Arguments Fail {A} _.

Record world : Type := mkWorld {
  defined : string -> bool;         (* the global and builtin names *)
  files : string -> option string;  (* the readable files *)
  environ : string -> option string;
  form : string -> option string;   (* the fields of [request.form] *)
  (** What evaluating
      [application/vnd.openxmlformats-officedocument.spreadsheetml.sheet]
      gives once its two names are defined: an exception, a string
      ([Some]) or another object ([None]). *)
  mime_expr : io_outcome (option string);
  smtp_up : bool;
  calls : list call
}.

Definition IO (A : Type) : Type := world -> io_outcome A * world.

Definition io_ret {A : Type} (a : A) : IO A := fun w => (Done a, w).

Definition io_bind {A B : Type} (m : IO A) (f : A -> IO B) : IO B :=
  fun w =>
    match m w with
    | (Done a, w') => f a w'
    | (Fail e, w') => (Fail e, w')
    end.

Definition io_fail {A : Type} (e : py_exn) : IO A := fun w => (Fail e, w).

Declare Scope io_scope.
Delimit Scope io_scope with io.
Notation "x <- m ;; k" := (io_bind m (fun x => k))
  (at level 100, m at next level, right associativity) : io_scope.
Notation "m ;; k" := (io_bind m (fun _ => k))
  (at level 100, right associativity) : io_scope.

(** Reading a global or builtin name. *)
Definition name (n : string) : IO unit :=
  fun w => if defined w n then (Done tt, w) else (Fail (NameError n), w).

(** [open(path, "rb")] followed by [read()]. *)
Definition open_rb (path : option string) : IO string :=
  fun w =>
    match path with
    | None => (Fail TypeError, w)
    | Some p =>
        match files w p with
        | Some contents => (Done contents, w)
        | None => (Fail (FileNotFoundError p), w)
        end
    end.

Definition getenv (key : string) : IO (option string) :=
  fun w => (Done (environ w key), w).

Definition form_get (key : string) : IO (option string) :=
  fun w => (Done (form w key), w).

Definition eval_mime_expr : IO (option string) :=
  fun w => (mime_expr w, w).

(** A call on the SMTP client or the logger: it is recorded, and an SMTP
    call fails when the server cannot be used. *)
Definition do_call (c : call) : IO unit :=
  fun w =>
    let w' := mkWorld (defined w) (files w) (environ w) (form w)
                (mime_expr w) (smtp_up w) (calls w ++ [c]) in
    if is_smtp c && negb (smtp_up w) then (Fail SMTPException, w')
    else (Done tt, w').

(** [try: m except Exception as e: handler(e)] *)
Definition try_except {A : Type} (m : IO A) (handler : py_exn -> IO A)
  : IO A :=
  fun w =>
    match m w with
    | (Done a, w') => (Done a, w')
    | (Fail e, w') => handler e w'
    end.

(** [os.path.basename]: what follows the last slash. *)
Fixpoint basename (s : string) : string :=
  match s with
  | EmptyString => EmptyString
  | String c s' =>
      if existsb (Ascii.eqb "/") (list_ascii_of_string s') then basename s'
      else if Ascii.eqb c "/" then s' else s
  end.

Definition os_path_basename (v : option string) : IO string :=
  match v with
  | Some s => io_ret (basename s)
  | None => io_fail TypeError
  end.

Definition newline : string := String (ascii_of_nat 10) EmptyString.

Definition mail_body : string :=
  "Hello," ++ newline ++ newline ++
  "Here is your requested manufacturing report attached." ++
  newline ++ newline ++ "Regards," ++ newline ++ "Your AI System".

Definition attach (msg : message) (p : mime_part) : message :=
  mkMessage (msg_from msg) (msg_to msg) (msg_subject msg)
    (msg_parts msg ++ [p]).

Open Scope io_scope.

(** [send_report_via_email], statement by statement; the names it reads
    are looked up where the source reads them. *)
Definition send_report_via_email
  (sender_email sender_password recipient_email report_path : option string)
  : IO unit :=
  name "MIMEMultipart" ;;
  let msg := mkMessage sender_email recipient_email "Manufacturing Report" [] in
  let body := mail_body in
  name "MIMEText" ;;
  let msg := attach msg (TextPart body "plain") in
  name "open" ;;
  f <- open_rb report_path ;;
  name "MIMEBase" ;;
  let payload := f in
  name "encoders" ;;
  name "os" ;;
  name "application" ;;
  name "vnd" ;;
  v <- eval_mime_expr ;;
  filename <- os_path_basename v ;;
  let part := Attachment payload ("attachment; filename=" ++ filename) in
  let msg := attach msg part in
  let smtp_server := "abth110405@gmail.com" in
  let smtp_port := 587 in
  name "smtplib" ;;
  do_call (SMTP_connect smtp_server smtp_port) ;;
  do_call SMTP_starttls ;;
  do_call (SMTP_login sender_email sender_password) ;;
  do_call (SMTP_send_message msg) ;;
  do_call SMTP_quit.

(** [str(e)] for the exceptions of the model. *)
Definition exn_message (e : py_exn) : string :=
  match e with
  | NameError n => "name '" ++ n ++ "' is not defined"
  | TypeError => "TypeError"
  | AttributeError => "AttributeError"
  | FileNotFoundError p => "[Errno 2] No such file or directory: '" ++ p ++ "'"
  | SMTPException => "SMTPException"
  end.

(** [if recipient:] *)
Definition truthy (v : option string) : bool :=
  match v with
  | Some s => negb (String.eqb s "")
  | None => false
  end.

(** The body of the [try]: the call of [send_report_via_email], its
    function name and its arguments evaluated first. *)
Definition call_send_report (sender_email sender_password recipient
  : option string) : IO unit :=
  name "send_report_via_email" ;;
  name "application" ;;
  name "vnd" ;;
  path <- eval_mime_expr ;;
  send_report_via_email sender_email sender_password recipient path.

(** The body of the [except]: [app.logger.error(f"Email send failed: {e}")] *)
Definition log_failure (e : py_exn) : IO unit :=
  name "app" ;;
  do_call (Log_error ("Email send failed: " ++ exn_message e)).

(** The statements at the end of the module, after the report pass. *)
Definition mail_step : IO unit :=
  name "request" ;;
  recipient <- form_get "email" ;;
  name "os" ;;
  sender_email <- getenv "221260132002setiict@gmail.com" ;;
  name "os" ;;
  sender_password <- getenv "952004" ;;
  if truthy recipient then
    try_except (call_send_report sender_email sender_password recipient)
      log_failure
  else io_ret tt.

Close Scope io_scope.

(** The names that app.py binds at module level when a file was uploaded,
    and the builtin it calls. *)
Definition app_py_names : list string :=
  ["st"; "pd"; "plt"; "ExcelWriter"; "io"; "smtplib"; "MIMEMultipart";
   "MIMEBase"; "MIMEText"; "encoders"; "os"; "uploaded_file";
   "generate_units_by_product"; "generate_avg_defects_by_shift";
   "generate_monthly_production"; "generate_avg_cost_summary";
   "generate_energy_vs_production"; "generate_defect_rate_by_product";
   "generate_productivity_per_operator"; "send_report_via_email";
   "df"; "units"; "fig1"; "ax1"; "defects"; "fig2"; "ax2"; "monthly";
   "fig3"; "ax3"; "cost"; "fig4"; "ax4"; "energy"; "defect_rate"; "fig6";
   "ax6"; "productivity"; "fig7"; "ax7"; "shift"; "shift_df"; "buffer";
   "writer"; "open"].

(** A world with these names, one report file and a server that answers. *)
Definition app_py_world : world :=
  mkWorld (fun n => existsb (String.eqb n) app_py_names)
    (fun p => if String.eqb p "agentic_report.xlsx" then Some "PK" else None)
    (fun _ => None) (fun _ => None) (Fail TypeError) true [].

(* ================================================================= *)
(** * Properties *)

(* ----------------------------------------------------------------- *)
(** ** Running computations *)

Lemma bind_ok {A B : Type} (m : M A) (f : A -> M B) h a h' :
  m h = (Ok a, h') -> bind m f h = f a h'.
Proof. intros E. unfold bind. now rewrite E. Qed.

Lemma has_column_In df lbl : has_column df lbl = true <-> In lbl (columns df).
Proof.
  unfold has_column. rewrite existsb_exists. split.
  - intros [x [Hx E]]. apply String.eqb_eq in E. now subst.
  - intros Hin. exists lbl. split; [assumption | apply String.eqb_refl].
Qed.

Lemma load_at h r df : at_ref h r df -> load r h = (Ok df, h).
Proof. unfold at_ref, load. now intros ->. Qed.

Lemma getitem_at {A : Type} h r df (c : Col A) :
  at_ref h r df ->
  getitem r c h =
    (require df (label c) (Ok (map (cget c) (rows df))), h).
Proof.
  intros Hr. unfold getitem. rewrite (bind_ok _ _ _ _ _ (load_at _ _ _ Hr)).
  unfold require. now destruct (has_column df (label c)).
Qed.

Lemma combine_map {A B C : Type} (f : A -> B) (g : A -> C) (l : list A) :
  combine (map f l) (map g l) = map (fun x => (f x, g x)) l.
Proof. induction l as [|x l IH]; simpl; [reflexivity | now rewrite IH]. Qed.

Lemma zip_with_map {A B C D : Type} (op : B -> C -> D) (f : A -> B)
  (g : A -> C) (l : list A) :
  zip_with op (map f l) (map g l) = map (fun x => op (f x) (g x)) l.
Proof. unfold zip_with. rewrite combine_map, map_map. reflexivity. Qed.

Lemma zip_with_set {A : Type} (set : A -> Row -> Row) (f : Row -> A)
  (l : list Row) :
  zip_with set (map f l) l = map (fun r => set (f r) r) l.
Proof.
  rewrite <- (map_id l) at 2. rewrite zip_with_map. reflexivity.
Qed.

Lemma groupby_col_at {K V : Type} `{Key K} h r df (key : Col (option K))
  (value : Col V) :
  at_ref h r df ->
  groupby_col r key value h =
    (require df (label key)
       (require df (label value)
          (Ok (groupby (map (fun x => (cget key x, cget value x)) (rows df))))),
     h).
Proof.
  intros Hr. unfold groupby_col, bind.
  rewrite (getitem_at _ _ _ key Hr). unfold require.
  destruct (has_column df (label key)); [|reflexivity].
  rewrite (getitem_at _ _ _ value Hr). unfold require.
  destruct (has_column df (label value)); [|reflexivity].
  unfold ret. now rewrite combine_map.
Qed.

Lemma getitems_at h r df lbls :
  at_ref h r df ->
  getitems r lbls h =
    (match filter (fun l => negb (has_column df l)) lbls with
     | [] => Ok (mkDF lbls (rows df))
     | missing => Raise (KeyError missing)
     end, h).
Proof.
  intros Hr. unfold getitems.
  rewrite (bind_ok _ _ _ _ _ (load_at _ _ _ Hr)).
  now destruct (filter _ lbls).
Qed.

Lemma at_ref_update h r df df' :
  at_ref h r df -> at_ref (update_nth r df' h) r df'.
Proof.
  unfold at_ref. revert r. induction h as [|x h IH]; intros [|r]; simpl;
    try discriminate; auto.
Qed.

Lemma at_ref_update_other h r r' df' d :
  r' <> r -> at_ref h r' d -> at_ref (update_nth r df' h) r' d.
Proof.
  unfold at_ref. revert r r'.
  induction h as [|x h IH]; intros [|r] [|r']; simpl; try discriminate;
    try congruence; auto.
Qed.

Lemma update_nth_same h r df : at_ref h r df -> update_nth r df h = h.
Proof.
  unfold at_ref. revert r. induction h as [|x h IH]; intros [|r]; simpl;
    try discriminate.
  - now intros [= ->].
  - intros E. now rewrite IH.
Qed.

Lemma at_ref_app h r df d : at_ref h r df -> at_ref (h ++ [d]) r df.
Proof.
  unfold at_ref. intros E. rewrite nth_error_app1; [assumption|].
  apply nth_error_Some. congruence.
Qed.

Lemma at_ref_new h d : at_ref (h ++ [d]) (List.length h) d.
Proof.
  unfold at_ref. rewrite nth_error_app2, Nat.sub_diag; [reflexivity | lia].
Qed.

Lemma setitem_at {A : Type} h r df lbl (set : A -> Row -> Row) values :
  at_ref h r df ->
  List.length values = List.length (rows df) ->
  setitem r lbl set values h =
    (Ok tt,
     update_nth r
       (mkDF (if has_column df lbl then columns df else columns df ++ [lbl])
          (zip_with set values (rows df))) h).
Proof.
  intros Hr Hlen. unfold setitem.
  rewrite (bind_ok _ _ _ _ _ (load_at _ _ _ Hr)).
  rewrite Hlen, Nat.eqb_refl. unfold store.
  unfold at_ref in Hr. now rewrite Hr.
Qed.

Lemma copy_at h r df :
  at_ref h r df -> copy r h = (Ok (List.length h), h ++ [df]).
Proof.
  intros Hr. unfold copy. now rewrite (bind_ok _ _ _ _ _ (load_at _ _ _ Hr)).
Qed.

Lemma set_Date_same r : set_Date (Date r) r = r.
Proof. now destruct r. Qed.

(* ----------------------------------------------------------------- *)
(** ** Each report function computes its result *)

Lemma generate_units_by_product_run h r df :
  at_ref h r df ->
  generate_units_by_product r h = (units_by_product_result df, h).
Proof.
  intros Hr. unfold generate_units_by_product, bind.
  rewrite (groupby_col_at _ _ _ Product_TypeC Units_ProducedC Hr).
  unfold units_by_product_result, require. simpl label.
  destruct (has_column df "Product Type"); [|reflexivity].
  destruct (has_column df "Units Produced"); reflexivity.
Qed.

Lemma generate_avg_defects_by_shift_run h r df :
  at_ref h r df ->
  generate_avg_defects_by_shift r h = (avg_defects_by_shift_result df, h).
Proof.
  intros Hr. unfold generate_avg_defects_by_shift, bind.
  rewrite (groupby_col_at _ _ _ ShiftC DefectsC Hr).
  unfold avg_defects_by_shift_result, require. simpl label.
  destruct (has_column df "Shift"); [|reflexivity].
  destruct (has_column df "Defects"); reflexivity.
Qed.

Lemma has_column_added df lbl rs l :
  has_column
    (mkDF (if has_column df lbl then columns df else columns df ++ [lbl]) rs)
    l = has_column df l || String.eqb l lbl.
Proof.
  destruct (has_column df lbl) eqn:E; unfold has_column in *; simpl.
  - destruct (String.eqb_spec l lbl) as [->|_].
    + now rewrite E.
    + now rewrite orb_false_r.
  - rewrite existsb_app. simpl. now rewrite orb_false_r.
Qed.

Lemma has_column_with_month pd df l :
  has_column (with_month pd df) l = has_column df l || String.eqb l "Month".
Proof. apply has_column_added. Qed.

Lemma map_rows_with_month {A : Type} (f : Row -> A) pd df :
  (forall m r, f (set_Month m r) = f r) ->
  map f (rows (with_month pd df)) = map f (rows df).
Proof.
  intros Hf. unfold with_month. simpl. rewrite map_map.
  apply map_ext. intros r. apply Hf.
Qed.

Lemma generate_monthly_production_run pd h r df :
  at_ref h r df ->
  generate_monthly_production pd r h =
    (monthly_production_result pd df,
     if has_column df "Date" then update_nth r (with_month pd df) h else h).
Proof.
  intros Hr. unfold generate_monthly_production, monthly_production_result.
  unfold bind at 1. rewrite (getitem_at _ _ _ DateC Hr).
  unfold require. simpl label.
  destruct (has_column df "Date"); [|reflexivity].
  unfold bind at 1.
  rewrite (setitem_at _ _ df) by (assumption || now rewrite !length_map).
  rewrite map_map, zip_with_set. fold (with_month pd df).
  unfold bind.
  rewrite (groupby_col_at _ _ (with_month pd df) MonthC Units_ProducedC)
    by (eapply at_ref_update; eassumption).
  unfold require. simpl label. rewrite !has_column_with_month. simpl.
  rewrite orb_true_r, orb_false_r.
  destruct (has_column df "Units Produced"); [|reflexivity].
  unfold ret, month_units. simpl cget. unfold with_month. simpl rows.
  rewrite map_map. reflexivity.
Qed.

Lemma bind_lift {A B : Type} (o : outcome A) (f : A -> M B) h :
  bind (lift o) f h =
  match o with
  | Ok a => f a h
  | Raise e => (Raise e, h)
  end.
Proof. unfold bind, lift. now destruct o. Qed.

Lemma generate_avg_cost_summary_run h r df :
  at_ref h r df ->
  generate_avg_cost_summary r h = (avg_cost_summary_result df, h).
Proof.
  intros Hr. unfold generate_avg_cost_summary.
  rewrite (bind_ok _ _ _ _ _ (load_at _ _ _ Hr)).
  unfold bind at 1. rewrite (getitems_at _ _ _ _ Hr).
  unfold avg_cost_summary_result, numeric_costs, cost_columns.
  destruct (has_column df "Material Cost Per Unit") eqn:Em;
    destruct (has_column df "Labour Cost Per Hour") eqn:El;
    cbn [app filter negb]; rewrite ?Em, ?El; cbn [negb];
    rewrite bind_lift; unfold frame_mean; cbn [columns rows];
    match goal with
    | |- context [has_text ?d] => destruct (has_text d)
    end; reflexivity.
Qed.

Lemma generate_energy_vs_production_run h r df :
  at_ref h r df ->
  generate_energy_vs_production r h = (energy_vs_production_result df, h).
Proof.
  intros Hr. unfold generate_energy_vs_production, bind.
  rewrite (getitems_at _ _ _ _ Hr). unfold energy_vs_production_result.
  fold energy_columns.
  now destruct (filter (fun l => negb (has_column df l)) energy_columns).
Qed.

Lemma map_fst_dropna {A K V W : Type} (f : A -> option K) (g : A -> V)
  (g' : A -> W) (l : list A) :
  map fst (dropna (map (fun x => (f x, g x)) l)) =
  map fst (dropna (map (fun x => (f x, g' x)) l)).
Proof.
  induction l as [|x l IH]; simpl; [reflexivity|].
  destruct (f x); simpl; now rewrite ?IH.
Qed.

Lemma lookup_key_map {V : Type} (F : string -> V) (ks : list string) k :
  In k ks -> lookup_key k (map (fun k => (k, F k)) ks) = Some (F k).
Proof.
  induction ks as [|k' ks IH]; simpl; [tauto|].
  intros Hin. destruct (String.eqb_spec k k') as [->|Hne]; [reflexivity|].
  destruct Hin as [->|Hin]; [congruence | now apply IH].
Qed.

Lemma generate_defect_rate_by_product_run h r df :
  at_ref h r df ->
  generate_defect_rate_by_product r h = (defect_rate_by_product_result df, h).
Proof.
  intros Hr. unfold generate_defect_rate_by_product, bind.
  rewrite (groupby_col_at _ _ _ Product_TypeC Units_ProducedC Hr).
  unfold defect_rate_by_product_result, require. simpl label.
  destruct (has_column df "Product Type") eqn:Ep; [|reflexivity].
  destruct (has_column df "Units Produced"); [|reflexivity].
  unfold ret. rewrite (groupby_col_at _ _ _ Product_TypeC DefectsC Hr).
  unfold require. simpl label. rewrite Ep.
  destruct (has_column df "Defects"); [|reflexivity].
  simpl cget. fold (product_units df). fold (product_defects df).
  unfold reset_index, series_mul_int, series_div, agg, groupby.
  cbn [body]. repeat rewrite map_map. cbn [fst snd].
  replace (map fst (dropna (product_defects df)))
    with (map fst (dropna (product_units df))) by apply map_fst_dropna.
  do 3 f_equal. apply map_ext_in. intros k Hk.
  unfold to_cell, ToCell_string, ToCell_float64, defect_rate.
  rewrite (lookup_key_map
             (fun k => sum64 (group_of k (dropna (product_units df)))) _ k Hk).
  reflexivity.
Qed.

Lemma has_column_with_productivity df l :
  has_column (with_productivity df) l =
  has_column df l || String.eqb l "Productivity".
Proof. apply has_column_added. Qed.

Lemma generate_productivity_per_operator_run h r df :
  at_ref h r df ->
  exists d,
    generate_productivity_per_operator r h =
      (productivity_per_operator_result df, h ++ [d]).
Proof.
  intros Hr. unfold generate_productivity_per_operator.
  rewrite (bind_ok _ _ _ _ _ (copy_at _ _ _ Hr)).
  pose proof (at_ref_new h df) as Hc.
  unfold productivity_per_operator_result, require.
  unfold bind at 1. rewrite (getitem_at _ _ _ Units_ProducedC Hc).
  unfold require. simpl label.
  destruct (has_column df "Units Produced"); [|now exists df].
  unfold bind at 1. rewrite (getitem_at _ _ _ Operator_CountC Hc).
  unfold require. simpl label.
  destruct (has_column df "Operator Count"); [|now exists df].
  unfold bind at 1. rewrite (getitem_at _ _ _ Production_Time_HoursC Hc).
  unfold require. simpl label.
  destruct (has_column df "Production Time Hours"); [|now exists df].
  simpl cget. unfold bind at 1.
  rewrite (setitem_at _ _ df)
    by (assumption ||
        (unfold zip_with;
         repeat (rewrite ?length_map, ?length_combine, ?Nat.min_id);
         reflexivity)).
  rewrite !map_map.
  rewrite (zip_with_map PrimFloat.mul
             (fun x => Binary64.of_int64 (Operator_Count x))
             Production_Time_Hours).
  rewrite (zip_with_map PrimFloat.div
             (fun x => Binary64.of_int64 (Units_Produced x))).
  fold productivity_of.
  rewrite (zip_with_set set_Productivity productivity_of).
  fold (with_productivity df).
  exists (with_productivity df).
  assert (Hu : update_nth (List.length h) (with_productivity df) (h ++ [df])
               = h ++ [with_productivity df]).
  { clear. induction h as [|x h IH]; simpl; [reflexivity | now rewrite IH]. }
  rewrite Hu. unfold bind.
  rewrite (getitems_at _ _ (with_productivity df))
    by apply at_ref_new.
  cbn [filter]. rewrite !has_column_with_productivity.
  cbn [String.eqb Ascii.eqb Bool.eqb]. rewrite !orb_false_r, orb_true_r.
  destruct (has_column df "Product Type"), (has_column df "Shift");
    cbn [negb]; try reflexivity.
  unfold ret, group_productivity, with_productivity. cbn [rows].
  rewrite map_map. reflexivity.
Qed.

(* ----------------------------------------------------------------- *)
(** ** The [Month] column does not change the later reports *)

Lemma as_float_set_Month l m r : as_float l (set_Month m r) = as_float l r.
Proof. reflexivity. Qed.

Lemma cost_columns_with_month pd df :
  cost_columns (with_month pd df) = cost_columns df.
Proof.
  unfold cost_columns.
  rewrite !has_column_with_month. cbn [String.eqb Ascii.eqb Bool.eqb].
  now rewrite !orb_false_r.
Qed.

Lemma existsb_rows_with_month (f : Row -> bool) pd df :
  (forall m r, f (set_Month m r) = f r) ->
  existsb f (rows (with_month pd df)) = existsb f (rows df).
Proof.
  intros Hf. unfold with_month. cbn [rows].
  induction (rows df) as [|x l IH]; [reflexivity|].
  cbn [map existsb]. now rewrite Hf, IH.
Qed.

Lemma numeric_costs_with_month pd df :
  numeric_costs (with_month pd df) = numeric_costs df.
Proof.
  unfold numeric_costs, has_text. rewrite cost_columns_with_month.
  cbn [columns rows]. f_equal.
  induction (cost_columns df) as [|l ls IH]; [reflexivity|].
  cbn [existsb]. rewrite IH.
  now rewrite (existsb_rows_with_month (holds_text l)) by reflexivity.
Qed.

Lemma avg_cost_summary_result_with_month pd df :
  avg_cost_summary_result (with_month pd df) = avg_cost_summary_result df.
Proof.
  unfold avg_cost_summary_result.
  rewrite numeric_costs_with_month, cost_columns_with_month.
  destruct (numeric_costs df); [|reflexivity].
  do 2 f_equal. apply map_ext. intros l.
  now rewrite (map_rows_with_month (as_float l) pd df (as_float_set_Month l)).
Qed.

Lemma corr_with_month cols pd df :
  corr (mkDF cols (rows (with_month pd df))) = corr (mkDF cols (rows df)).
Proof.
  unfold corr. cbn [rows columns with_month].
  apply map_ext. intros a. f_equal. apply map_ext. intros b.
  rewrite !map_map. reflexivity.
Qed.

Lemma energy_vs_production_result_with_month pd df :
  energy_vs_production_result (with_month pd df) =
  energy_vs_production_result df.
Proof.
  unfold energy_vs_production_result, energy_columns. cbn [filter].
  rewrite !has_column_with_month. cbn [String.eqb Ascii.eqb Bool.eqb].
  rewrite !orb_false_r. now rewrite corr_with_month.
Qed.

Lemma defect_rate_by_product_result_with_month pd df :
  defect_rate_by_product_result (with_month pd df) =
  defect_rate_by_product_result df.
Proof.
  unfold defect_rate_by_product_result, require.
  rewrite !has_column_with_month. cbn [String.eqb Ascii.eqb Bool.eqb].
  rewrite !orb_false_r.
  unfold product_units, product_defects.
  rewrite !(map_rows_with_month _ pd df) by reflexivity. reflexivity.
Qed.

Lemma productivity_per_operator_result_with_month pd df :
  productivity_per_operator_result (with_month pd df) =
  productivity_per_operator_result df.
Proof.
  unfold productivity_per_operator_result, require. cbn [filter].
  rewrite !has_column_with_month. cbn [String.eqb Ascii.eqb Bool.eqb].
  rewrite !orb_false_r. unfold group_productivity.
  rewrite !(map_rows_with_month _ pd df) by reflexivity. reflexivity.
Qed.

Lemma bind_display {B : Type} (m : M unit) (f : unit -> M B) h :
  m h = (Ok tt, h) -> bind m f h = f tt h.
Proof. apply bind_ok. Qed.

Lemma head_at h r df :
  at_ref h r df ->
  head r h = (Ok (mkDF (columns df) (firstn 5 (rows df))), h).
Proof.
  intros Hr. unfold head. now rewrite (bind_ok _ _ _ _ _ (load_at _ _ _ Hr)).
Qed.

Lemma for_each_ok {A : Type} (l : list A) (body : A -> M unit) h :
  (forall x, body x h = (Ok tt, h)) -> for_each l body h = (Ok tt, h).
Proof.
  intros Hb. induction l as [|x l IH]; [reflexivity|].
  cbn [for_each]. now rewrite (bind_ok _ _ _ _ _ (Hb x)).
Qed.

(** The chart of the productivity report is drawn whatever its rows. *)
Lemma productivity_chart_ok t h :
  headers t = ["Product Type"; "Shift"; "Productivity"] ->
  productivity_chart t h = (Ok tt, h).
Proof.
  intros Ht. unfold productivity_chart. rewrite bind_lift.
  unfold table_getitem at 1. rewrite Ht.
  cbn [column_index String.eqb Ascii.eqb Bool.eqb option_map].
  apply for_each_ok. intros x. rewrite !bind_lift.
  unfold table_getitem, rows_where. cbn [headers]. rewrite Ht.
  cbn [column_index String.eqb Ascii.eqb Bool.eqb option_map].
  reflexivity.
Qed.

Lemma productivity_result_headers df t :
  productivity_per_operator_result df = Ok t ->
  headers t = ["Product Type"; "Shift"; "Productivity"].
Proof.
  unfold productivity_per_operator_result, require.
  destruct (has_column df "Units Produced"); [|discriminate].
  destruct (has_column df "Operator Count"); [|discriminate].
  destruct (has_column df "Production Time Hours"); [|discriminate].
  destruct (filter _ _); [|discriminate].
  now intros [= <-].
Qed.

Lemma to_excel_run t writer sheet_name h :
  to_excel t writer sheet_name h =
  (if fits t then Ok (writer ++ [sheet_of sheet_name t]) else Raise ValueError,
   h).
Proof.
  unfold to_excel, fits.
  now destruct ((max_rows <? _) || (max_cols <? _)).
Qed.

(** The pass computes [main_result]; the heap after it: nothing changed,
    the Month column set, or the Month column set and the copy that the
    last report made. *)
Lemma main_run pd h r df :
  at_ref h r df ->
  exists h',
    main pd r h = (main_result pd df, h') /\
    (h' = h \/ h' = update_nth r (with_month pd df) h \/
     exists d, h' = update_nth r (with_month pd df) h ++ [d]) /\
    (forall out, main_result pd df = Ok out ->
                 exists d, h' = update_nth r (with_month pd df) h ++ [d]).
Proof.
  intros Hr. unfold main, main_result.
  unfold bind at 1. rewrite (getitem_at _ _ _ DateC Hr).
  unfold require. simpl label.
  destruct (has_column df "Date") eqn:Ed;
    [|eexists; split; [reflexivity|]; split; [now left | discriminate]].
  unfold bind at 1.
  rewrite (setitem_at _ _ df) by (assumption || now rewrite !length_map).
  rewrite Ed. simpl cget. rewrite (zip_with_set set_Date Date).
  rewrite (map_ext _ (fun r => r) set_Date_same), map_id.
  replace (mkDF (columns df) (rows df)) with df by now destruct df.
  rewrite (update_nth_same _ _ _ Hr).
  do 2 rewrite bind_display by reflexivity.
  rewrite (bind_ok _ _ _ _ _ (head_at _ _ _ Hr)).
  do 4 rewrite bind_display by reflexivity.
  unfold bind at 1. rewrite (generate_units_by_product_run _ _ _ Hr).
  destruct (units_by_product_result df) as [units|e]; cbn [obind];
    [|eexists; split; [reflexivity|]; split; [now left | discriminate]].
  do 2 rewrite bind_display by reflexivity.
  unfold plot_bar at 1. rewrite bind_lift.
  destruct (bar_chart units _ _) as [[]|e]; cbn [obind];
    [|eexists; split; [reflexivity|]; split; [now left | discriminate]].
  do 2 rewrite bind_display by reflexivity.
  unfold bind at 1. rewrite (generate_avg_defects_by_shift_run _ _ _ Hr).
  destruct (avg_defects_by_shift_result df) as [defects|e]; cbn [obind];
    [|eexists; split; [reflexivity|]; split; [now left | discriminate]].
  do 2 rewrite bind_display by reflexivity.
  unfold plot_bar at 1. rewrite bind_lift.
  destruct (bar_chart defects _ _) as [[]|e]; cbn [obind];
    [|eexists; split; [reflexivity|]; split; [now left | discriminate]].
  do 2 rewrite bind_display by reflexivity.
  unfold bind at 1. rewrite (generate_monthly_production_run _ _ _ _ Hr).
  rewrite Ed.
  destruct (monthly_production_result pd df) as [monthly|e]; cbn [obind];
    [|eexists; split; [reflexivity|]; split; [right; now left | discriminate]].
  pose proof (at_ref_update _ _ _ (with_month pd df) Hr) as Hm.
  do 2 rewrite bind_display by reflexivity.
  unfold plot_line at 1. rewrite bind_lift.
  destruct (line_chart monthly _ _) as [[]|e]; cbn [obind];
    [|eexists; split; [reflexivity|]; split; [right; now left | discriminate]].
  do 2 rewrite bind_display by reflexivity.
  unfold bind at 1. rewrite (generate_avg_cost_summary_run _ _ _ Hm).
  rewrite avg_cost_summary_result_with_month.
  destruct (avg_cost_summary_result df) as [cost|e]; cbn [obind];
    [|eexists; split; [reflexivity|]; split; [right; now left | discriminate]].
  do 2 rewrite bind_display by reflexivity.
  unfold plot_bar at 1. rewrite bind_lift.
  destruct (bar_chart cost _ _) as [[]|e]; cbn [obind];
    [|eexists; split; [reflexivity|]; split; [right; now left | discriminate]].
  do 2 rewrite bind_display by reflexivity.
  unfold bind at 1. rewrite (generate_energy_vs_production_run _ _ _ Hm).
  rewrite energy_vs_production_result_with_month.
  destruct (energy_vs_production_result df) as [energy|e]; cbn [obind];
    [|eexists; split; [reflexivity|]; split; [right; now left | discriminate]].
  do 2 rewrite bind_display by reflexivity.
  unfold bind at 1. rewrite (generate_defect_rate_by_product_run _ _ _ Hm).
  rewrite defect_rate_by_product_result_with_month.
  destruct (defect_rate_by_product_result df) as [rate|e]; cbn [obind];
    [|eexists; split; [reflexivity|]; split; [right; now left | discriminate]].
  do 2 rewrite bind_display by reflexivity.
  unfold plot_bar at 1. rewrite bind_lift.
  destruct (bar_chart rate _ _) as [[]|e]; cbn [obind];
    [|eexists; split; [reflexivity|]; split; [right; now left | discriminate]].
  do 2 rewrite bind_display by reflexivity.
  destruct (generate_productivity_per_operator_run _ _ _ Hm) as [d Hp].
  unfold bind at 1. rewrite Hp.
  rewrite productivity_per_operator_result_with_month.
  destruct (productivity_per_operator_result df) as [productivity|e] eqn:Ep;
    cbn [obind];
    [|eexists; split; [reflexivity|]; split;
      [right; right; now exists d | discriminate]].
  do 2 rewrite bind_display by reflexivity.
  rewrite bind_display
    by (apply productivity_chart_ok; eapply productivity_result_headers;
        eassumption).
  do 6 rewrite bind_display by reflexivity.
  unfold export_result. cbn [forallb].
  cbv zeta.
  repeat (unfold bind at 1; rewrite to_excel_run;
          match goal with
          | |- context [fits ?t] =>
              destruct (fits t); cbn [andb];
              [|eexists; split; [reflexivity|]; split;
                [right; right; now exists d | discriminate]]
          end).
  eexists. split; [reflexivity|].
  split; [right; right; now exists d | intros; now exists d].
Qed.

(* ----------------------------------------------------------------- *)
(** ** Grouping *)

Lemma Zsum_cons (x : Z) (l : list Z) : Zsum (x :: l) = x + Zsum l.
Proof. reflexivity. Qed.

Section GroupByFacts.
Context {K : Type} `{KeyLaws K}.

Lemma keqb_refl (a : K) : keqb a a = true.
Proof. now apply keqb_spec. Qed.

Lemma keqb_neq (a b : K) : keqb a b = false <-> a <> b.
Proof.
  split.
  - intros E Hab. apply keqb_spec in Hab. congruence.
  - intros Hab. destruct (keqb a b) eqn:E; [|reflexivity].
    apply keqb_spec in E. contradiction.
Qed.

Lemma klt_trans (a b c : K) : klt a b -> klt b c -> klt a c.
Proof.
  intros [Hab Nab] [Hbc Nbc]. split.
  - eapply kleb_trans; eassumption.
  - intros ->. apply Nab. now apply kleb_antisym.
Qed.

Lemma klt_irrefl (a : K) : ~ klt a a.
Proof. intros [_ N]. now apply N. Qed.

Lemma klt_asym (a b : K) : klt a b -> ~ klt b a.
Proof. intros Hab Hba. exact (klt_irrefl a (klt_trans _ _ _ Hab Hba)). Qed.

Lemma insert_key_In (k x : K) (ks : list K) :
  In x (insert_key k ks) <-> x = k \/ In x ks.
Proof.
  induction ks as [|k' ks IH]; simpl.
  - intuition.
  - destruct (keqb k k') eqn:E.
    + apply keqb_spec in E. subst k'. simpl. intuition.
    + destruct (kleb k k'); simpl; rewrite ?IH; intuition.
Qed.

Lemma sorted_keys_In (x : K) (l : list K) : In x (sorted_keys l) <-> In x l.
Proof.
  induction l as [|k l IH]; simpl; [tauto|].
  rewrite insert_key_In, IH. intuition.
Qed.

Lemma insert_key_sorted (k : K) (ks : list K) :
  StronglySorted klt ks -> StronglySorted klt (insert_key k ks).
Proof.
  induction 1 as [|k' ks Hs IH Hall]; simpl.
  - repeat constructor.
  - destruct (keqb k k') eqn:E; [now constructor|].
    apply keqb_neq in E.
    destruct (kleb k k') eqn:L.
    + assert (Hk : klt k k') by (split; assumption).
      constructor; [now constructor|].
      constructor; [assumption|].
      eapply Forall_impl; [|exact Hall].
      intros y Hy. eapply klt_trans; eassumption.
    + constructor; [assumption|].
      apply Forall_forall. intros y Hy. apply insert_key_In in Hy.
      destruct Hy as [->|Hy].
      * split; [|congruence].
        destruct (kleb_total k k'); congruence.
      * rewrite Forall_forall in Hall. now apply Hall.
Qed.

Lemma sorted_keys_sorted (l : list K) : StronglySorted klt (sorted_keys l).
Proof.
  induction l as [|k l IH]; simpl; [constructor|].
  now apply insert_key_sorted.
Qed.

Lemma sorted_NoDup (l : list K) : StronglySorted klt l -> NoDup l.
Proof.
  induction 1 as [|k l Hs IH Hall]; constructor; [|assumption].
  intros Hin. rewrite Forall_forall in Hall.
  exact (klt_irrefl k (Hall k Hin)).
Qed.

(** A set of keys has one strictly ascending enumeration. *)
Lemma sorted_unique (l1 l2 : list K) :
  StronglySorted klt l1 -> StronglySorted klt l2 ->
  (forall x, In x l1 <-> In x l2) -> l1 = l2.
Proof.
  intros H1. revert l2.
  induction H1 as [|a l1 Hs1 IH Ha]; intros l2 H2 Hin.
  - destruct l2 as [|b l2]; [reflexivity|].
    exfalso. apply (proj2 (Hin b)). now left.
  - destruct H2 as [|b l2 Hs2 Hb].
    + exfalso. apply (proj1 (Hin a)). now left.
    + rewrite Forall_forall in Ha, Hb.
      assert (Eab : a = b).
      { destruct (proj1 (Hin a) (or_introl eq_refl)) as [E|Hal2];
          [now symmetry|].
        destruct (proj2 (Hin b) (or_introl eq_refl)) as [E|Hbl1];
          [assumption|].
        exfalso. exact (klt_asym _ _ (Ha b Hbl1) (Hb a Hal2)). }
      subst b. f_equal. apply IH; [assumption|].
      intros x. split; intros Hx.
      * destruct (proj1 (Hin x) (or_intror Hx)) as [E|Hx2]; [|assumption].
        subst x. exfalso. exact (klt_irrefl a (Ha a Hx)).
      * destruct (proj2 (Hin x) (or_intror Hx)) as [E|Hx1]; [|assumption].
        subst x. exfalso. exact (klt_irrefl a (Hb a Hx)).
Qed.

Lemma sorted_keys_ext (l l' : list K) :
  (forall x, In x l <-> In x l') -> sorted_keys l = sorted_keys l'.
Proof.
  intros Hin. apply sorted_unique; try apply sorted_keys_sorted.
  intros x. now rewrite !sorted_keys_In.
Qed.

Lemma sorted_keys_NoDup (l : list K) : NoDup (sorted_keys l).
Proof. apply sorted_NoDup, sorted_keys_sorted. Qed.

Lemma group_of_cons {V : Type} (k k0 : K) (v : V) (rs : list (K * V)) :
  group_of k ((k0, v) :: rs) =
  if keqb k0 k then v :: group_of k rs else group_of k rs.
Proof. unfold group_of. simpl. now destruct (keqb k0 k). Qed.

(** Every row with a key is in exactly one group: summing the groups'
    sums gives the sum over the rows. *)
Lemma Zsum_groups (ks : list K) (rs : list (K * Z)) :
  NoDup ks -> (forall r, In r rs -> In (fst r) ks) ->
  Zsum (map (fun k => Zsum (group_of k rs)) ks) = Zsum (map snd rs).
Proof.
  intros Hnd. induction rs as [|[k0 v] rs IH]; intros Hin.
  - clear. induction ks as [|k ks IH]; [reflexivity|].
    cbn [map]. rewrite Zsum_cons, IH. reflexivity.
  - cbn [map snd]. rewrite Zsum_cons.
    rewrite <- IH by (intros r Hr; apply Hin; now right).
    assert (Hk0 : In k0 ks) by (apply (Hin (k0, v)); now left).
    clear IH Hin. revert Hk0.
    induction Hnd as [|k ks Hnot Hnd IHks]; intros Hk0; [contradiction|].
    cbn [map]. rewrite !Zsum_cons, group_of_cons.
    destruct (keqb k0 k) eqn:E.
    + apply keqb_spec in E. subst k0.
      assert (Hrest : map (fun k' => Zsum (group_of k' ((k, v) :: rs))) ks
                      = map (fun k' => Zsum (group_of k' rs)) ks).
      { apply map_ext_in. intros k' Hk'. rewrite group_of_cons.
        destruct (keqb k k') eqn:E'; [|reflexivity].
        apply keqb_spec in E'. subst k'. contradiction. }
      rewrite Hrest, Zsum_cons. lia.
    + apply keqb_neq in E. destruct Hk0 as [->|Hk0]; [congruence|].
      rewrite (IHks Hk0). lia.
Qed.

End GroupByFacts.

(* ----------------------------------------------------------------- *)
(** ** The order on keys *)

Lemma string_compare_lt_trans (a b c : string) :
  String.compare a b = Lt -> String.compare b c = Lt ->
  String.compare a c = Lt.
Proof.
  revert b c. induction a as [|x a IH]; intros [|y b] [|z c]; simpl;
    try congruence.
  unfold Ascii.compare.
  destruct (N.compare_spec (N_of_ascii x) (N_of_ascii y)),
    (N.compare_spec (N_of_ascii y) (N_of_ascii z)),
    (N.compare_spec (N_of_ascii x) (N_of_ascii z));
    try congruence; try lia; eauto.
Qed.

Lemma string_leb_cases (a b : string) :
  String.leb a b = true <-> String.compare a b = Lt \/ a = b.
Proof.
  unfold String.leb. split.
  - destruct (String.compare a b) eqn:E; try discriminate; intros _.
    + right. now apply String.compare_eq_iff.
    + now left.
  - intros [-> | ->]; [reflexivity|].
    destruct (String.compare b b) eqn:E; try reflexivity.
    pose proof (String.compare_antisym b b) as Ha. rewrite E in Ha.
    discriminate.
Qed.

#[export] Instance KeyLaws_string : KeyLaws string.
Proof.
  split; simpl.
  - apply String.eqb_eq.
  - apply String.leb_total.
  - apply String.leb_antisym.
  - intros a b c Hab Hbc. apply string_leb_cases in Hab, Hbc.
    apply string_leb_cases.
    destruct Hab as [Hab| ->]; [|assumption].
    destruct Hbc as [Hbc| <-]; [|now left].
    left. eapply string_compare_lt_trans; eassumption.
Qed.

#[export] Instance KeyLaws_prod (A B : Type) `{KeyLaws A} `{KeyLaws B} :
  KeyLaws (A * B).
Proof.
  split; simpl.
  - intros [a b] [a' b']. simpl. rewrite andb_true_iff, !keqb_spec.
    split; [intros [-> ->]; reflexivity | intros [= -> ->]; now split].
  - intros [a b] [a' b']. simpl.
    destruct (keqb a a') eqn:E.
    + apply keqb_spec in E. subst a'. rewrite keqb_refl. apply kleb_total.
    + apply keqb_neq in E.
      assert (E' : keqb a' a = false) by (apply keqb_neq; congruence).
      rewrite E'. apply kleb_total.
  - intros [a b] [a' b']. simpl.
    destruct (keqb a a') eqn:E.
    + apply keqb_spec in E. subst a'. rewrite keqb_refl.
      intros Hle1 Hle2. f_equal. now apply kleb_antisym.
    + apply keqb_neq in E.
      assert (E' : keqb a' a = false) by (apply keqb_neq; congruence).
      rewrite E'. intros Hle1 Hle2. exfalso. apply E. now apply kleb_antisym.
  - intros [a b] [a' b'] [a'' b'']. simpl.
    destruct (keqb a a') eqn:E1.
    + apply keqb_spec in E1. subst a'.
      destruct (keqb a a''); [apply kleb_trans | auto].
    + apply keqb_neq in E1.
      destruct (keqb a' a'') eqn:E2.
      * apply keqb_spec in E2. subst a''.
        assert (E3 : keqb a a' = false) by now apply keqb_neq.
        rewrite E3. auto.
      * apply keqb_neq in E2. intros Hle1 Hle2.
        destruct (keqb a a'') eqn:E3.
        -- apply keqb_spec in E3. subst a''. exfalso. apply E1.
           now apply kleb_antisym.
        -- eapply kleb_trans; eassumption.
Qed.

(* ----------------------------------------------------------------- *)
(** ** 64-bit sums *)

Lemma wrap64_mod (z : Z) : wrap64 z mod 2 ^ 64 = z mod 2 ^ 64.
Proof.
  unfold wrap64.
  rewrite Zminus_mod, Zmod_mod, <- Zminus_mod.
  f_equal. lia.
Qed.

Lemma wrap64_congr (a b : Z) :
  a mod 2 ^ 64 = b mod 2 ^ 64 -> wrap64 a = wrap64 b.
Proof.
  intros E. unfold wrap64. f_equal.
  rewrite (Zplus_mod a), (Zplus_mod b), E. reflexivity.
Qed.

Lemma wrap64_add_r (a b : Z) : wrap64 (a + wrap64 b) = wrap64 (a + b).
Proof.
  apply wrap64_congr.
  rewrite (Zplus_mod a (wrap64 b)), wrap64_mod, <- Zplus_mod. reflexivity.
Qed.

Lemma wrap64_add_l (a b : Z) : wrap64 (wrap64 a + b) = wrap64 (a + b).
Proof. rewrite Z.add_comm, wrap64_add_r. f_equal. lia. Qed.

Lemma wrap64_small (z : Z) : - 2 ^ 63 <= z < 2 ^ 63 -> wrap64 z = z.
Proof.
  intros Hz. unfold wrap64. rewrite Z.mod_small; lia.
Qed.

Lemma sum64_from (l : list Z) (a : Z) :
  fold_left (fun acc x => wrap64 (acc + x)) l (wrap64 a) =
  wrap64 (a + Zsum l).
Proof.
  revert a. induction l as [|x l IH]; intros a; cbn [fold_left].
  - f_equal. unfold Zsum. simpl. lia.
  - rewrite wrap64_add_l, IH, Zsum_cons. f_equal. lia.
Qed.

Lemma sum64_spec (l : list Z) : sum64 l = wrap64 (Zsum l).
Proof.
  unfold sum64. change 0 with (wrap64 0) at 1. now rewrite sum64_from.
Qed.

Lemma wrap64_Zsum_map (l : list Z) :
  wrap64 (Zsum (map wrap64 l)) = wrap64 (Zsum l).
Proof.
  induction l as [|x l IH]; [reflexivity|].
  cbn [map]. rewrite !Zsum_cons.
  rewrite wrap64_add_l, <- wrap64_add_r, IH, wrap64_add_r. reflexivity.
Qed.

Lemma Zsum_nonneg (l : list Z) : (forall x, In x l -> 0 <= x) -> 0 <= Zsum l.
Proof.
  induction l as [|x l IH]; intros Hl; [unfold Zsum; simpl; lia|].
  rewrite Zsum_cons.
  assert (0 <= x) by (apply Hl; now left).
  assert (0 <= Zsum l) by (apply IH; intros y Hy; apply Hl; now right).
  lia.
Qed.

Lemma Zsum_nonneg_le (l : list Z) (x : Z) :
  (forall y, In y l -> 0 <= y) -> In x l -> x <= Zsum l.
Proof.
  induction l as [|y l IH]; intros Hl Hin; [contradiction|].
  rewrite Zsum_cons.
  assert (0 <= y) by (apply Hl; now left).
  assert (Hrest : forall z, In z l -> 0 <= z) by (intros z Hz; apply Hl; now right).
  destruct Hin as [->|Hin].
  - pose proof (Zsum_nonneg l Hrest). lia.
  - specialize (IH Hrest Hin). lia.
Qed.

Section GroupSums.
Context {K : Type} `{KeyLaws K}.

Lemma group_of_incl {V : Type} (k : K) (rs : list (K * V)) (v : V) :
  In v (group_of k rs) -> In v (map snd rs).
Proof.
  unfold group_of. rewrite !in_map_iff.
  intros [r [E Hr]]. apply filter_In in Hr. exists r. tauto.
Qed.

Lemma agg_sum64_snd (rs : list (option K * Z)) :
  map snd (agg sum64 (groupby rs)) =
  map wrap64
    (map (fun k => Zsum (group_of k (dropna rs)))
       (sorted_keys (map fst (dropna rs)))).
Proof.
  unfold agg, groupby. rewrite !map_map. apply map_ext. intros k.
  cbn [snd]. apply sum64_spec.
Qed.

Lemma Zsum_groupby (rs : list (option K * Z)) :
  Zsum (map (fun k => Zsum (group_of k (dropna rs)))
          (sorted_keys (map fst (dropna rs)))) =
  Zsum (map snd (dropna rs)).
Proof.
  apply Zsum_groups; [apply sorted_keys_NoDup|].
  intros r Hr. apply sorted_keys_In. now apply in_map.
Qed.

(** The group totals add up to the total over the rows that have a key:
    always modulo 2^64, and exactly when nothing overflows. *)
Lemma group_sums_total (rs : list (option K * Z)) :
  wrap64 (Zsum (map snd (agg sum64 (groupby rs)))) =
    wrap64 (Zsum (map snd (dropna rs))) /\
  ((forall u, In u (map snd (dropna rs)) -> 0 <= u) ->
   Zsum (map snd (dropna rs)) < 2 ^ 63 ->
   Zsum (map snd (agg sum64 (groupby rs))) = Zsum (map snd (dropna rs))).
Proof.
  rewrite agg_sum64_snd. split.
  - now rewrite wrap64_Zsum_map, Zsum_groupby.
  - intros Hpos Hmax.
    pose proof (Zsum_groupby rs) as Htot.
    set (gs := map (fun k => Zsum (group_of k (dropna rs)))
                 (sorted_keys (map fst (dropna rs)))) in *.
    assert (Hgs : forall g, In g gs -> 0 <= g).
    { intros g Hg. unfold gs in Hg. apply in_map_iff in Hg.
      destruct Hg as [k [<- _]]. apply Zsum_nonneg.
      intros v Hv. apply Hpos. eapply group_of_incl; eassumption. }
    assert (Hid : map wrap64 gs = gs).
    { rewrite <- (map_id gs) at 2. apply map_ext_in. intros g Hg.
      apply wrap64_small. pose proof (Hgs g Hg).
      pose proof (Zsum_nonneg_le gs g Hgs Hg). lia. }
    now rewrite Hid.
Qed.

End GroupSums.

Lemma dropna_snd {A K V : Type} (f : A -> option K) (g : A -> V)
  (l : list A) :
  map snd (dropna (map (fun x => (f x, g x)) l)) =
  map g (filter (fun x => is_some (f x)) l).
Proof.
  induction l as [|x l IH]; simpl; [reflexivity|].
  destruct (f x); simpl; now rewrite IH.
Qed.

Lemma int_column_units_reset_index (iname : string) (s : list (string * Z)) :
  String.eqb iname "Units Produced" = false ->
  int_column "Units Produced" (reset_index iname "Units Produced" s) =
  map snd s.
Proof.
  intros E. unfold int_column, table_column, reset_index.
  cbn [headers body column_index]. rewrite E. cbn.
  rewrite !map_map. apply map_ext. reflexivity.
Qed.

(* ----------------------------------------------------------------- *)
(** ** Units by product *)

Lemma present_units_all df :
  (forall r, In r (rows df) -> Product_Type r <> None) ->
  present_units df = map Units_Produced (rows df).
Proof.
  intros Hall. unfold present_units. f_equal.
  induction (rows df) as [|r l IH]; [reflexivity|].
  cbn [filter]. destruct (Product_Type r) eqn:E.
  - cbn [is_some]. f_equal. apply IH. intros x Hx. apply Hall. now right.
  - exfalso. apply (Hall r); [now left | assumption].
Qed.

(** C1 (amended).  For every input table with the columns Product Type and
    Units Produced, the per-product totals returned by
    [generate_units_by_product] add up to the sum of Units Produced over the
    rows that have a Product Type (the rows whose Product Type is missing
    are in no group): the two sums agree as 64-bit sums, and exactly when
    the units are non-negative and their total is below 2^63.  For the
    products "A" (units 10, 20) and "B" (units 5) the result is
    A: 30, B: 5. *)
Theorem units_by_product_total :
  (forall h r df,
      at_ref h r df ->
      has_column df "Product Type" = true ->
      has_column df "Units Produced" = true ->
      exists t,
        generate_units_by_product r h = (Ok t, h) /\
        wrap64 (Zsum (int_column "Units Produced" t)) =
          wrap64 (Zsum (present_units df)) /\
        ((forall u, In u (present_units df) -> 0 <= u) ->
         Zsum (present_units df) < 2 ^ 63 ->
         Zsum (int_column "Units Produced" t) = Zsum (present_units df))) /\
  generate_units_by_product 0%nat [scenario_AB] =
    (Ok (mkTable ["Product Type"; "Units Produced"]
           [[VStr "A"; VInt 30]; [VStr "B"; VInt 5]]),
     [scenario_AB]).
Proof.
  split; [|reflexivity].
  intros h r df Hr Hp Hu.
  rewrite (generate_units_by_product_run _ _ _ Hr).
  unfold units_by_product_result, require. rewrite Hp, Hu.
  eexists. split; [reflexivity|].
  rewrite int_column_units_reset_index by reflexivity.
  unfold present_units.
  rewrite <- (dropna_snd Product_Type Units_Produced).
  apply group_sums_total.
Qed.

Lemma units_by_product_total_witness :
  exists t,
    generate_units_by_product 0%nat [missing_product_table] =
      (Ok t, [missing_product_table]) /\
    wrap64 (Zsum (int_column "Units Produced" t)) =
      wrap64 (Zsum (present_units missing_product_table)) /\
    ((forall u, In u (present_units missing_product_table) -> 0 <= u) ->
     Zsum (present_units missing_product_table) < 2 ^ 63 ->
     Zsum (int_column "Units Produced" t) =
       Zsum (present_units missing_product_table)).
Proof.
  apply (proj1 units_by_product_total [missing_product_table] 0%nat
           missing_product_table); reflexivity.
Defined.

(** C1 as stated fails: a row without a Product Type is counted in the
    total of the table (17) and in no product (10). *)
Lemma units_by_product_drops_missing_product :
  has_column missing_product_table "Product Type" = true /\
  has_column missing_product_table "Units Produced" = true /\
  ~ units_total_claim missing_product_table.
Proof.
  split; [reflexivity|]. split; [reflexivity|].
  intros Hclaim.
  specialize (Hclaim [missing_product_table] 0%nat _ eq_refl eq_refl).
  vm_compute in Hclaim. discriminate.
Qed.

(* ----------------------------------------------------------------- *)
(** ** Means *)

Lemma qsign_of_int (z : Z) : qsign (Q2Qc (inject_Z z)) = (z ?= 0).
Proof.
  unfold qsign, Qc0, Qccompare. cbn [this Q2Qc].
  rewrite <- Qred_compare. unfold Qcompare, inject_Z. simpl.
  now rewrite Z.mul_1_r.
Qed.




(* ----------------------------------------------------------------- *)
(** ** Binary64 sums of integers *)

Lemma Pos_iter_xO (m p : positive) : Pos.iter xO m p = shl m (Pos.to_nat p).
Proof. unfold shl. now rewrite Pos2Nat.inj_iter. Qed.

Lemma digits_shl (m : positive) (n : nat) :
  Zpos (digits2_pos (shl m n)) = Zpos (digits2_pos m) + Z.of_nat n.
Proof.
  induction n as [|n IH]; [cbn; lia|].
  change (shl m (S n)) with (xO (shl m n)). cbn [digits2_pos].
  rewrite Pos2Z.inj_succ, IH. lia.
Qed.

Lemma shl_add (m : positive) (a b : nat) : shl (shl m a) b = shl m (a + b).
Proof.
  unfold shl. rewrite Nat.add_comm. symmetry. apply Nat.iter_add.
Qed.

Lemma Zpos_shl (m : positive) (n : nat) :
  Zpos (shl m n) = Zpos m * 2 ^ Z.of_nat n.
Proof.
  induction n as [|n IH]; [cbn; lia|].
  change (shl m (S n)) with (xO (shl m n)).
  rewrite Pos2Z.inj_xO, IH, Nat2Z.inj_succ, Z.pow_succ_r by lia. lia.
Qed.

Lemma iter_pos_nat {A : Type} (f : A -> A) (p : positive) (x : A) :
  SpecFloat.iter_pos f p x = Nat.iter (Pos.to_nat p) f x.
Proof.
  revert x. induction p as [p IH|p IH|]; intros x; cbn [SpecFloat.iter_pos].
  - rewrite !IH, Pos2Nat.inj_xI.
    replace (S (2 * Pos.to_nat p)) with (Pos.to_nat p + S (Pos.to_nat p))%nat
      by lia.
    now rewrite Nat.iter_add, Nat.iter_succ_r.
  - rewrite !IH, Pos2Nat.inj_xO. cbn [Nat.mul]. rewrite Nat.add_0_r.
    now rewrite Nat.iter_add.
  - reflexivity.
Qed.

Lemma shr_shl (m : positive) (n : nat) :
  Nat.iter n shr_1 (Build_shr_record (Zpos (shl m n)) false false) =
  Build_shr_record (Zpos m) false false.
Proof.
  induction n as [|n IH]; [reflexivity|].
  rewrite Nat.iter_succ_r. change (shl m (S n)) with (xO (shl m n)).
  cbn [shr_1 orb]. exact IH.
Qed.

Lemma binary_round_aux_canonical (sx : bool) (M : positive) (E : Z) :
  Zpos (digits2_pos M) = 53 -> -1074 <= E <= 971 ->
  binary_round_aux prec emax sx (Zpos M) E loc_Exact = S754_finite sx M E.
Proof.
  intros Hd HE. unfold binary_round_aux, shr_fexp, Zdigits2.
  rewrite Hd. unfold fexp, emin, prec, emax.
  replace (Z.max (53 + E - 53) (3 - 1024 - 53) - E) with 0 by lia.
  cbn [shr shr_record_of_loc shr_m loc_of_shr_record round_nearest_even].
  rewrite Hd.
  replace (Z.max (53 + E - 53) (3 - 1024 - 53) - E) with 0 by lia.
  cbn [shr shr_record_of_loc shr_m].
  replace (E <=? 1024 - 53) with true by (symmetry; apply Z.leb_le; lia).
  reflexivity.
Qed.

Lemma binary_round_shifted (sx : bool) (m : positive) (k : nat) :
  Zpos (digits2_pos m) <= 53 ->
  binary_round prec emax sx (shl m k) (- Z.of_nat k) = canonical sx m.
Proof.
  intros Hd. unfold binary_round, canonical.
  set (d := Zpos (digits2_pos m)) in *.
  assert (Hd1 : 1 <= d) by (subst d; lia).
  rewrite digits_shl. fold d.
  unfold fexp, emin, prec, emax.
  replace (Z.max (d + Z.of_nat k + - Z.of_nat k - 53) (3 - 1024 - 53))
    with (d - 53) by lia.
  assert (HM : Zpos (digits2_pos (shl m (Z.to_nat (53 - d)))) = 53).
  { rewrite digits_shl. fold d. lia. }
  unfold shl_align.
  destruct (d - 53 - - Z.of_nat k) as [|p|p] eqn:Ediff.
  - (* the mantissa has 53 digits already *)
    replace (Z.to_nat (53 - d)) with k in * by lia.
    replace (d - 53) with (- Z.of_nat k) by lia.
    apply binary_round_aux_canonical; [assumption | lia].
  - (* more than 53 digits: the low digits are zero and are shifted out *)
    unfold binary_round_aux, shr_fexp, Zdigits2.
    rewrite digits_shl. fold d. unfold fexp, emin, prec, emax.
    replace (Z.max (d + Z.of_nat k + - Z.of_nat k - 53) (3 - 1024 - 53)
             - - Z.of_nat k) with (Zpos p) by lia.
    cbn [shr shr_record_of_loc]. rewrite iter_pos_nat.
    replace k with (Z.to_nat (53 - d) + Pos.to_nat p)%nat by lia.
    rewrite <- shl_add, shr_shl.
    cbn [shr_m loc_of_shr_record round_nearest_even].
    rewrite HM.
    replace (Z.max (53 + (- Z.of_nat (Z.to_nat (53 - d) + Pos.to_nat p) + Zpos p) - 53)
               (3 - 1024 - 53)
             - (- Z.of_nat (Z.to_nat (53 - d) + Pos.to_nat p) + Zpos p))
      with 0 by lia.
    cbn [shr shr_record_of_loc shr_m].
    replace (- Z.of_nat (Z.to_nat (53 - d) + Pos.to_nat p) + Zpos p
             <=? 1024 - 53) with true by (symmetry; apply Z.leb_le; lia).
    f_equal. lia.
  - (* fewer than 53 digits: the mantissa is shifted to the left *)
    rewrite Pos_iter_xO, shl_add.
    replace (k + Pos.to_nat p)%nat with (Z.to_nat (53 - d)) by lia.
    apply binary_round_aux_canonical; [assumption | lia].
Qed.

Lemma digits_le (m : positive) (n : nat) :
  Zpos m < 2 ^ Z.of_nat n -> Zpos (digits2_pos m) <= Z.of_nat n.
Proof.
  revert n. induction m as [m IH|m IH|]; intros n Hm.
  - destruct n as [|n]; [cbn in Hm; lia|].
    rewrite Nat2Z.inj_succ, Z.pow_succ_r in Hm by lia.
    cbn [digits2_pos]. rewrite Pos2Z.inj_succ.
    specialize (IH n). rewrite Pos2Z.inj_xI in Hm. lia.
  - destruct n as [|n]; [cbn in Hm; lia|].
    rewrite Nat2Z.inj_succ, Z.pow_succ_r in Hm by lia.
    cbn [digits2_pos]. rewrite Pos2Z.inj_succ.
    specialize (IH n). rewrite Pos2Z.inj_xO in Hm. lia.
  - destruct n as [|n]; [cbn in Hm; lia|]. cbn [digits2_pos]. lia.
Qed.

Lemma digits_53 (m : positive) :
  Zpos m < 2 ^ 53 -> Zpos (digits2_pos m) <= 53.
Proof. exact (digits_le m 53). Qed.

Lemma binary_normalize_shifted (z : Z) (k : nat) :
  Z.abs z < 2 ^ 53 ->
  binary_normalize prec emax (z * 2 ^ Z.of_nat k) (- Z.of_nat k) false
  = SFZ z.
Proof.
  intros Hz. destruct z as [|m|m]; [reflexivity| |].
  - rewrite <- Zpos_shl. cbn [binary_normalize SFZ].
    apply binary_round_shifted, digits_53. exact Hz.
  - change (Zneg m) with (- Zpos m). rewrite Z.mul_opp_l, <- Zpos_shl.
    cbn [Z.opp binary_normalize SFZ].
    apply binary_round_shifted, digits_53. exact Hz.
Qed.

Lemma aligned (m : positive) (ez : Z) :
  Zpos (digits2_pos m) <= 53 ->
  ez <= Zpos (digits2_pos m) - 53 ->
  fst (shl_align (shl m (Z.to_nat (53 - Zpos (digits2_pos m))))
         (Zpos (digits2_pos m) - 53) ez)
  = shl m (Z.to_nat (- ez)).
Proof.
  intros Hd He. unfold shl_align.
  destruct (ez - (Zpos (digits2_pos m) - 53)) as [|p|p] eqn:E; cbn [fst].
  - f_equal. lia.
  - lia.
  - rewrite Pos_iter_xO, shl_add. f_equal. lia.
Qed.

Lemma signed_shl (s : bool) (m : positive) (k : nat) :
  cond_Zopp s (Zpos (shl m k)) = signed s m * 2 ^ Z.of_nat k.
Proof.
  unfold signed. destruct s; cbn [cond_Zopp]; rewrite Zpos_shl; lia.
Qed.

Lemma SFZ_signed (s : bool) (m : positive) : SFZ (signed s m) = canonical s m.
Proof. now destruct s. Qed.

Lemma abs_signed (s : bool) (m : positive) : Z.abs (signed s m) = Zpos m.
Proof. destruct s; reflexivity. Qed.

Lemma SFadd_canonical (sa sb : bool) (ma mb : positive) :
  Zpos ma < 2 ^ 53 -> Zpos mb < 2 ^ 53 ->
  Z.abs (signed sa ma + signed sb mb) < 2 ^ 53 ->
  SFadd prec emax (canonical sa ma) (canonical sb mb)
  = SFZ (signed sa ma + signed sb mb).
Proof.
  intros Ha Hb Hab. apply digits_53 in Ha, Hb.
  unfold canonical, SFadd.
  set (ez := Z.min (Zpos (digits2_pos ma) - 53) (Zpos (digits2_pos mb) - 53)).
  rewrite !aligned by (assumption || (subst ez; lia)).
  rewrite !signed_shl, <- Z.mul_add_distr_r.
  set (k := Z.to_nat (- ez)).
  replace ez with (- Z.of_nat k) by (subst k ez; lia).
  now apply binary_normalize_shifted.
Qed.

Lemma SFsub_canonical (sa sb : bool) (ma mb : positive) :
  Zpos ma < 2 ^ 53 -> Zpos mb < 2 ^ 53 ->
  Z.abs (signed sa ma - signed sb mb) < 2 ^ 53 ->
  SFsub prec emax (canonical sa ma) (canonical sb mb)
  = SFZ (signed sa ma - signed sb mb).
Proof.
  intros Ha Hb Hab. apply digits_53 in Ha, Hb.
  unfold canonical, SFsub.
  set (ez := Z.min (Zpos (digits2_pos ma) - 53) (Zpos (digits2_pos mb) - 53)).
  rewrite !aligned by (assumption || (subst ez; lia)).
  rewrite !signed_shl, <- Z.mul_sub_distr_r.
  set (k := Z.to_nat (- ez)).
  replace ez with (- Z.of_nat k) by (subst k ez; lia).
  now apply binary_normalize_shifted.
Qed.

Lemma SFZ_cases (z : Z) :
  z = 0 \/ exists s m, z = signed s m.
Proof.
  destruct z as [|m|m]; [now left | right; now exists false, m |
                         right; now exists true, m].
Qed.

Lemma SFadd_SFZ (a b : Z) :
  Z.abs a < 2 ^ 53 -> Z.abs b < 2 ^ 53 -> Z.abs (a + b) < 2 ^ 53 ->
  SFadd prec emax (SFZ a) (SFZ b) = SFZ (a + b).
Proof.
  intros Ha Hb Hab.
  destruct (SFZ_cases a) as [->|[sa [ma ->]]],
           (SFZ_cases b) as [->|[sb [mb ->]]].
  - reflexivity.
  - rewrite Z.add_0_l, SFZ_signed. reflexivity.
  - rewrite Z.add_0_r, SFZ_signed. reflexivity.
  - rewrite abs_signed in Ha, Hb. rewrite !SFZ_signed.
    now apply SFadd_canonical.
Qed.

Lemma signed_opp (s : bool) (m : positive) :
  - signed s m = signed (negb s) m.
Proof. now destruct s. Qed.

Lemma SFsub_SFZ (a b : Z) :
  Z.abs a < 2 ^ 53 -> Z.abs b < 2 ^ 53 -> Z.abs (a - b) < 2 ^ 53 ->
  SFsub prec emax (SFZ a) (SFZ b) = SFZ (a - b).
Proof.
  intros Ha Hb Hab.
  destruct (SFZ_cases a) as [->|[sa [ma ->]]],
           (SFZ_cases b) as [->|[sb [mb ->]]].
  - reflexivity.
  - rewrite Z.sub_0_l, signed_opp, !SFZ_signed. reflexivity.
  - rewrite Z.sub_0_r, SFZ_signed. reflexivity.
  - rewrite abs_signed in Ha, Hb. rewrite !SFZ_signed.
    now apply SFsub_canonical.
Qed.

Lemma Prim2SF_of_uint63 (m : positive) :
  Zpos m < 2 ^ 53 ->
  Prim2SF (PrimFloat.of_uint63 (Uint63.of_Z (Zpos m))) = canonical false m.
Proof.
  intros Hm. rewrite FloatAxioms.of_uint63_spec, Uint63.of_Z_spec.
  rewrite Z.mod_small
    by (split; [lia|]; apply Z.lt_trans with (2 ^ 53); [assumption|];
        reflexivity).
  cbn [binary_normalize].
  apply (binary_round_shifted false m 0), digits_53. exact Hm.
Qed.

Lemma Prim2SF_of_int64 (z : Z) :
  Z.abs z < 2 ^ 53 -> Prim2SF (Binary64.of_int64 z) = SFZ z.
Proof.
  intros Hz. destruct z as [|m|m]; cbn [Binary64.of_int64 SFZ].
  - reflexivity.
  - now apply Prim2SF_of_uint63.
  - replace (Zneg m =? - 2 ^ 63) with false
      by (symmetry; apply Z.eqb_neq; intros E; rewrite E in Hz;
          vm_compute in Hz; discriminate).
    rewrite FloatAxioms.opp_spec. cbn [Z.opp]. rewrite Prim2SF_of_uint63 by exact Hz.
    reflexivity.
Qed.

Lemma add_of_int64 (a b : Z) :
  Z.abs a < 2 ^ 53 -> Z.abs b < 2 ^ 53 -> Z.abs (a + b) < 2 ^ 53 ->
  PrimFloat.add (Binary64.of_int64 a) (Binary64.of_int64 b)
  = Binary64.of_int64 (a + b).
Proof.
  intros Ha Hb Hab. apply Prim2SF_inj.
  rewrite FloatAxioms.add_spec, !Prim2SF_of_int64 by assumption.
  now apply SFadd_SFZ.
Qed.

Lemma sub_of_int64 (a b : Z) :
  Z.abs a < 2 ^ 53 -> Z.abs b < 2 ^ 53 -> Z.abs (a - b) < 2 ^ 53 ->
  PrimFloat.sub (Binary64.of_int64 a) (Binary64.of_int64 b)
  = Binary64.of_int64 (a - b).
Proof.
  intros Ha Hb Hab. apply Prim2SF_inj.
  rewrite FloatAxioms.sub_spec, !Prim2SF_of_int64 by assumption.
  now apply SFsub_SFZ.
Qed.

Lemma is_nan_of_int64 (z : Z) :
  Z.abs z < 2 ^ 53 -> PrimFloat.is_nan (Binary64.of_int64 z) = false.
Proof.
  intros Hz. unfold PrimFloat.is_nan.
  rewrite FloatAxioms.eqb_spec, Prim2SF_of_int64 by assumption.
  destruct z as [|m|m]; cbn [SFZ]; unfold canonical, SFeqb, SFcompare;
    rewrite ?Z.compare_refl, ?Pos.compare_cont_refl; reflexivity.
Qed.

Lemma kahan_add_of_int64 (s v : Z) :
  Z.abs s < 2 ^ 53 -> Z.abs v < 2 ^ 53 -> Z.abs (s + v) < 2 ^ 53 ->
  Binary64.kahan_add (Binary64.of_int64 s, PrimFloat.zero)
    (Binary64.of_int64 v)
  = (Binary64.of_int64 (s + v), PrimFloat.zero).
Proof.
  intros Hs Hv Hsv.
  assert (H0 : Z.abs 0 < 2 ^ 53) by reflexivity.
  unfold Binary64.kahan_add.
  change PrimFloat.zero with (Binary64.of_int64 0).
  rewrite (sub_of_int64 v 0) by (rewrite ?Z.sub_0_r; assumption).
  rewrite Z.sub_0_r.
  rewrite (add_of_int64 s v) by assumption.
  replace (PrimFloat.sub (Binary64.of_int64 (s + v)) (Binary64.of_int64 s))
    with (Binary64.of_int64 v).
  2:{ rewrite (sub_of_int64 (s + v) s);
        replace (s + v - s) with v by lia; trivial. }
  rewrite (sub_of_int64 v v) by (rewrite ?Z.sub_diag; assumption).
  rewrite Z.sub_diag. reflexivity.
Qed.

Lemma Zsum_abs_nonneg (l : list Z) : 0 <= Zsum (map Z.abs l).
Proof.
  unfold Zsum. induction l as [|x l IH]; cbn [map fold_right]; lia.
Qed.

Lemma kahan_fold_of_int64 (l : list Z) (s : Z) :
  Z.abs s + Zsum (map Z.abs l) < 2 ^ 53 ->
  fold_left Binary64.kahan_add (map Binary64.of_int64 l)
    (Binary64.of_int64 s, PrimFloat.zero)
  = (Binary64.of_int64 (s + Zsum l), PrimFloat.zero).
Proof.
  revert s. induction l as [|v l IH]; intros s Hb.
  - cbn. now rewrite Z.add_0_r.
  - pose proof (Zsum_abs_nonneg l) as Hl.
    unfold Zsum in *. cbn [map fold_left fold_right] in *.
    rewrite kahan_add_of_int64 by lia.
    rewrite IH by lia. do 2 f_equal. lia.
Qed.

Lemma filter_present_of_int64 (l : list Z) :
  Zsum (map Z.abs l) < 2 ^ 53 ->
  filter (fun v => negb (PrimFloat.is_nan v)) (map Binary64.of_int64 l)
  = map Binary64.of_int64 l.
Proof.
  induction l as [|x l IH]; intros Hb; [reflexivity|].
  pose proof (Zsum_abs_nonneg l) as Hl.
  unfold Zsum in *. cbn [map filter fold_right] in *.
  rewrite is_nan_of_int64 by lia. cbn [negb]. f_equal. apply IH. lia.
Qed.

(** The mean of integers whose absolute values add up to less than 2^53
    is the quotient, in binary64, of their exact sum by their number: the
    sum is exact, and the only rounding is that of the division. *)
Lemma group_mean_of_int64 (l : list Z) :
  l <> [] ->
  Zsum (map Z.abs l) < 2 ^ 53 ->
  Binary64.group_mean (map Binary64.of_int64 l)
  = PrimFloat.div (Binary64.of_int64 (Zsum l))
      (Binary64.of_int64 (Z.of_nat (List.length l))).
Proof.
  intros Hl Hb. unfold Binary64.group_mean.
  rewrite filter_present_of_int64 by assumption.
  destruct l as [|x l]; [contradiction|].
  set (xs := x :: l) in *. 
  assert (E : map Binary64.of_int64 xs
              = Binary64.of_int64 x :: map Binary64.of_int64 l)
    by reflexivity.
  rewrite E at 1. rewrite length_map.
  unfold Binary64.kahan_sum.
  change PrimFloat.zero with (Binary64.of_int64 0) at 1.
  rewrite kahan_fold_of_int64 by (cbn [Z.abs]; lia).
  reflexivity.
Qed.

(* ----------------------------------------------------------------- *)
(** ** Average defects by shift *)

Lemma find_row_map (F : string -> cell) (ks : list string) (s : string) :
  In s ks ->
  find_row s (map (fun k => [VStr k; F k]) ks) = Some [VStr s; F s].
Proof.
  induction ks as [|k ks IH]; [contradiction|].
  intros Hin. cbn [map find_row].
  destruct (String.eqb_spec k s) as [->|Hne]; [reflexivity|].
  destruct Hin as [->|Hin]; [congruence | now apply IH].
Qed.

Lemma group_of_dropna {A V : Type} (f : A -> option string) (g : A -> V)
  (s : string) (l : list A) :
  group_of s (dropna (map (fun x => (f x, g x)) l)) =
  map g (filter (fun x => is_key s (f x)) l).
Proof.
  induction l as [|x l IH]; [reflexivity|].
  cbn [map dropna filter]. destruct (f x) as [k|]; cbn [is_key].
  - rewrite group_of_cons. cbn [keqb Key_string].
    destruct (String.eqb k s); cbn [map]; now rewrite IH.
  - apply IH.
Qed.

Lemma In_dropna_fst {A K V : Type} (f : A -> option K) (g : A -> V)
  (k : K) (l : list A) :
  In (Some k) (map f l) ->
  In k (map fst (dropna (map (fun x => (f x, g x)) l))).
Proof.
  induction l as [|x l IH]; [contradiction|].
  cbn [map dropna]. intros [E|Hin].
  - rewrite E. now left.
  - destruct (f x); [right|]; now apply IH.
Qed.

Lemma In_dropna_fst_inv {A K V : Type} (f : A -> option K) (g : A -> V)
  (k : K) (l : list A) :
  In k (map fst (dropna (map (fun x => (f x, g x)) l))) ->
  In (Some k) (map f l).
Proof.
  induction l as [|x l IH]; [contradiction|].
  cbn [map dropna]. destruct (f x) as [k'|] eqn:E.
  - cbn [map fst]. intros [->|Hin]; [now left | right; now apply IH].
  - intros Hin. right. now apply IH.
Qed.

Lemma groupby_keys {K V : Type} `{Key K} (rs : list (option K * V)) :
  map fst (groupby rs) = sorted_keys (map fst (dropna rs)).
Proof. unfold groupby. rewrite map_map. cbn [fst]. apply map_id. Qed.

Lemma agg_keys {K V R : Type} (f : list V -> R) (g : list (K * list V)) :
  map fst (agg f g) = map fst g.
Proof. unfold agg. rewrite map_map. reflexivity. Qed.

Lemma str_column_shift_reset_index {V : Type} `{ToCell V}
  (s : list (string * V)) :
  str_column "Shift" (reset_index "Shift" "Defects" s) = map fst s.
Proof.
  unfold str_column, table_column, reset_index. cbn.
  rewrite !map_map. apply map_ext. reflexivity.
Qed.

(** C5 (amended).  For every input table with the columns Shift and
    Defects and every shift value [s] occurring in it, the result of
    [generate_avg_defects_by_shift] has exactly one row for [s]; its value
    is the binary64 mean of the Defects of exactly the rows whose Shift is
    [s]: their values converted to binary64, added up in row order (with
    compensation) and divided by their number.  When the absolute values
    of these Defects add up to less than 2^53 the sum is exact, and the
    value is the binary64 quotient of their sum by their number: the
    arithmetic mean rounded to binary64, not the arithmetic mean. *)
Theorem avg_defects_by_shift_binary64_mean :
  forall h r df s,
    at_ref h r df ->
    has_column df "Shift" = true ->
    has_column df "Defects" = true ->
    In (Some s) (map Shift (rows df)) ->
    exists t,
      generate_avg_defects_by_shift r h = (Ok t, h) /\
      defects_of_shift s df <> [] /\
      find_row s (body t) =
        Some [VStr s;
              VDouble (Binary64.group_mean
                         (map Binary64.of_int64 (defects_of_shift s df)))] /\
      NoDup (str_column "Shift" t) /\
      (Zsum (map Z.abs (defects_of_shift s df)) < 2 ^ 53 ->
       find_row s (body t) =
         Some [VStr s;
               VDouble (PrimFloat.div
                          (Binary64.of_int64 (Zsum (defects_of_shift s df)))
                          (Binary64.of_int64
                             (Z.of_nat
                                (List.length (defects_of_shift s df)))))]).
Proof.
  intros h r df s Hr Hs Hd Hin.
  rewrite (generate_avg_defects_by_shift_run _ _ _ Hr).
  unfold avg_defects_by_shift_result, require. rewrite Hs, Hd.
  assert (Hne : defects_of_shift s df <> []).
  { unfold defects_of_shift. apply in_map_iff in Hin.
    destruct Hin as [x [Ex Hx]].
    assert (Hf : In x (filter (fun r => is_key s (Shift r)) (rows df))).
    { apply filter_In. split; [assumption|]. rewrite Ex. apply String.eqb_refl. }
    destruct (filter _ (rows df)); [contradiction | discriminate]. }
  assert (Hrow : find_row s
            (body (reset_index "Shift" "Defects"
                     (agg (fun l => Binary64.group_mean
                                      (map Binary64.of_int64 l))
                        (groupby (shift_defects df))))) =
            Some [VStr s;
                  VDouble (Binary64.group_mean
                             (map Binary64.of_int64
                                (defects_of_shift s df)))]).
  { unfold reset_index, agg, groupby.
    cbn [body]. rewrite !map_map. cbn [fst snd].
    unfold to_cell, ToCell_string, ToCell_double.
    rewrite (find_row_map
               (fun k => VDouble
                           (Binary64.group_mean
                              (map Binary64.of_int64
                                 (group_of k (dropna (shift_defects df)))))))
      by (apply sorted_keys_In; unfold shift_defects;
          now apply In_dropna_fst).
    unfold shift_defects. now rewrite group_of_dropna. }
  eexists. split; [reflexivity|]. split; [exact Hne|].
  split; [exact Hrow|]. split.
  - rewrite str_column_shift_reset_index. unfold agg, groupby.
    rewrite !map_map. cbn [fst]. rewrite map_id. apply sorted_keys_NoDup.
  - intros Hsmall. rewrite Hrow.
    now rewrite (group_mean_of_int64 _ Hne Hsmall).
Qed.

Lemma avg_defects_by_shift_binary64_mean_witness :
  exists t,
    generate_avg_defects_by_shift 0%nat [defects_1_1_2]
      = (Ok t, [defects_1_1_2]) /\
    defects_of_shift "Day" defects_1_1_2 <> [] /\
    find_row "Day" (body t) =
      Some [VStr "Day";
            VDouble (Binary64.group_mean
                       (map Binary64.of_int64
                          (defects_of_shift "Day" defects_1_1_2)))] /\
    NoDup (str_column "Shift" t) /\
    (Zsum (map Z.abs (defects_of_shift "Day" defects_1_1_2)) < 2 ^ 53 ->
     find_row "Day" (body t) =
       Some [VStr "Day";
             VDouble (PrimFloat.div
                        (Binary64.of_int64
                           (Zsum (defects_of_shift "Day" defects_1_1_2)))
                        (Binary64.of_int64
                           (Z.of_nat
                              (List.length
                                 (defects_of_shift "Day" defects_1_1_2)))))]).
Proof.
  apply (avg_defects_by_shift_binary64_mean [defects_1_1_2] 0%nat
           defects_1_1_2 "Day"); try reflexivity.
  cbn. auto.
Defined.

(** C5 as stated fails: for the defects 1, 1 and 2 the report holds
    1.3333333333333333, the binary64 number 6004799503160661 / 2^52, and
    the arithmetic mean is 4/3. *)
Lemma mean_of_1_1_2_is_rounded :
  generate_avg_defects_by_shift 0%nat [defects_1_1_2] =
    (Ok (mkTable ["Shift"; "Defects"]
           [[VStr "Day"; VDouble 0x1.5555555555555p+0%float]]),
     [defects_1_1_2]) /\
  Binary64.to_float64 0x1.5555555555555p+0%float =
    Fin (Q2Qc (6004799503160661 # 4503599627370496)) /\
  arithmetic_mean (defects_of_shift "Day" defects_1_1_2) = Q2Qc (4 # 3) /\
  ~ arithmetic_mean_claim defects_1_1_2.
Proof.
  assert (Hrun : generate_avg_defects_by_shift 0%nat [defects_1_1_2] =
            (Ok (mkTable ["Shift"; "Defects"]
                   [[VStr "Day"; VDouble 0x1.5555555555555p+0%float]]),
             [defects_1_1_2]))
    by (vm_compute; reflexivity).
  assert (Hval : Binary64.to_float64 0x1.5555555555555p+0%float =
                 Fin (Q2Qc (6004799503160661 # 4503599627370496))).
  { unfold Binary64.to_float64.
    replace (Prim2SF 0x1.5555555555555p+0%float)
      with (S754_finite false 6004799503160661 (-52))
      by (vm_compute; reflexivity).
    reflexivity. }
  assert (Hmean : arithmetic_mean (defects_of_shift "Day" defects_1_1_2) =
                  Q2Qc (4 # 3)).
  { apply Qc_is_canon. vm_compute. reflexivity. }
  repeat split; try assumption.
  intros Hclaim.
  destruct (Hclaim [defects_1_1_2] 0%nat "Day" eq_refl) as [t [x [Ht [Hx Hv]]]];
    [cbn; auto|].
  rewrite Hrun in Ht. injection Ht as <-. cbn in Hx. injection Hx as <-.
  rewrite Hval, Hmean in Hv. discriminate Hv.
Qed.

(* ----------------------------------------------------------------- *)
(** ** Defect rate by product *)


Lemma defect_rate_finite (d u : Z) :
  u <> 0 ->
  defect_rate d u = Fin (Q2Qc (inject_Z d / inject_Z u * inject_Z 100)).
Proof.
  intros Hu. unfold defect_rate, of_int, fdiv. rewrite qsign_of_int.
  assert (Hc : (u ?= 0) <> Eq) by (rewrite Z.compare_eq_iff; assumption).
  destruct (u ?= 0); try contradiction; cbn [fmul]; f_equal;
    apply Qc_is_canon; unfold Qcmult, Qcdiv, Qcmult, Qcinv;
    cbn [this Q2Qc]; rewrite !Qred_correct; reflexivity.
Qed.



(** In binary64 the rates of the scenario are exactly 10.0 and 20.0, and a
    division by zero gives an infinity or NaN without raising. *)
Example defect_rate_binary64_scenario :
  PrimFloat.eqb (defect_rate_binary64 3%float 30%float) 10%float = true /\
  PrimFloat.eqb (defect_rate_binary64 1%float 5%float) 20%float = true.
Proof. split; vm_compute; reflexivity. Qed.

Example defect_rate_binary64_zero_units :
  PrimFloat.eqb (defect_rate_binary64 1%float 0%float) PrimFloat.infinity
    = true /\
  PrimFloat.is_nan (defect_rate_binary64 0%float 0%float) = true.
Proof. split; vm_compute; reflexivity. Qed.


(* ----------------------------------------------------------------- *)
(** ** Average cost summary *)





(* ----------------------------------------------------------------- *)
(** ** Row order *)

Lemma filter_perm {A : Type} (f : A -> bool) (l l' : list A) :
  Permutation l l' -> Permutation (filter f l) (filter f l').
Proof.
  induction 1 as [|x l l' _ IH|x y l|l l' l'' _ IH1 _ IH2]; cbn [filter].
  - constructor.
  - destruct (f x); [now constructor | assumption].
  - destruct (f x), (f y); try reflexivity. constructor.
  - eapply Permutation_trans; eassumption.
Qed.

Lemma dropna_perm {K V : Type} (rs rs' : list (option K * V)) :
  Permutation rs rs' -> Permutation (dropna rs) (dropna rs').
Proof.
  induction 1 as [|[[k|] v] l l' _ IH|[[k|] v] [[k'|] v'] l|l l' l'' _ IH1 _ IH2];
    cbn [dropna]; try reflexivity; try assumption.
  - now constructor.
  - constructor.
  - eapply Permutation_trans; eassumption.
Qed.

Section GroupOrder.
Context {K : Type} `{KeyLaws K}.

Lemma sorted_keys_perm (l l' : list K) :
  Permutation l l' -> sorted_keys l = sorted_keys l'.
Proof.
  intros Hp. apply sorted_keys_ext. intros x. split; apply Permutation_in;
    [assumption | now apply Permutation_sym].
Qed.

Lemma group_of_perm {V : Type} (k : K) (rs rs' : list (K * V)) :
  Permutation rs rs' -> Permutation (group_of k rs) (group_of k rs').
Proof.
  intros Hp. unfold group_of. now apply Permutation_map, filter_perm.
Qed.

End GroupOrder.

Lemma has_column_columns df df' l :
  columns df' = columns df -> has_column df' l = has_column df l.
Proof. unfold has_column. now intros ->. Qed.

(* ----------------------------------------------------------------- *)
(** ** Productivity per operator *)

Lemma group_of_dropna2 {A V : Type} (f1 f2 : A -> option string) (g : A -> V)
  (p s : string) (l : list A) :
  group_of (p, s) (dropna (map (fun x => (key2 (f1 x) (f2 x), g x)) l)) =
  map g (filter (fun x => is_key p (f1 x) && is_key s (f2 x)) l).
Proof.
  induction l as [|x l IH]; [reflexivity|].
  cbn [map dropna filter].
  destruct (f1 x) as [a|], (f2 x) as [b|]; cbn [key2 is_key andb];
    rewrite ?andb_false_r; try apply IH.
  rewrite group_of_cons. cbn [keqb Key_prod Key_string fst snd].
  destruct (String.eqb a p && String.eqb b s); cbn [map]; now rewrite IH.
Qed.

Lemma In_key2 {A : Type} (f1 f2 : A -> option string) (p s : string)
  (l : list A) :
  In (Some (p, s)) (map (fun x => key2 (f1 x) (f2 x)) l) <->
  exists x, In x l /\ f1 x = Some p /\ f2 x = Some s.
Proof.
  rewrite in_map_iff. split.
  - intros [x [E Hx]]. exists x. split; [assumption|].
    destruct (f1 x), (f2 x); try discriminate. now injection E as -> ->.
  - intros [x [Hx [E1 E2]]]. exists x. now rewrite E1, E2.
Qed.

Lemma find_row2_map (F : string * string -> cell)
  (ks : list (string * string)) (p s : string) :
  In (p, s) ks ->
  find_row2 p s (map (fun k => [VStr (fst k); VStr (snd k); F k]) ks) =
  Some [VStr p; VStr s; F (p, s)].
Proof.
  induction ks as [|[a b] ks IH]; [contradiction|].
  intros Hin. cbn [map find_row2 fst snd].
  destruct (String.eqb_spec a p) as [->|Hne]; cbn [andb].
  - destruct (String.eqb_spec b s) as [->|Hne]; [reflexivity|].
    destruct Hin as [E|Hin]; [congruence | now apply IH].
  - destruct Hin as [E|Hin]; [congruence | now apply IH].
Qed.

Lemma key_column2_reset_index2 {V : Type} `{ToCell V}
  (s : list (string * string * V)) :
  key_column2 (reset_index2 "Product Type" "Shift" "Productivity" s) =
  map fst s.
Proof.
  unfold key_column2, reset_index2. cbn [body]. rewrite map_map.
  apply map_ext. now intros [[a b] v].
Qed.

Lemma productivity_result_when_present df :
  Forall (fun l => has_column df l = true) productivity_columns ->
  productivity_per_operator_result df =
    Ok (reset_index2 "Product Type" "Shift" "Productivity"
          (agg Binary64.group_mean (groupby (group_productivity df)))).
Proof.
  intros Hall. unfold productivity_columns in Hall.
  repeat match goal with
         | Hf : Forall _ (_ :: _) |- _ =>
             let E := fresh "E" in
             apply Forall_cons_iff in Hf; destruct Hf as [E Hf]
         end.
  unfold productivity_per_operator_result, require. cbn [filter].
  repeat match goal with
         | E : has_column df _ = true |- _ => rewrite E; clear E
         end.
  reflexivity.
Qed.

Lemma productivity_keys df :
  key_column2
    (reset_index2 "Product Type" "Shift" "Productivity"
       (agg Binary64.group_mean (groupby (group_productivity df)))) =
  sorted_keys (map fst (dropna (group_productivity df))).
Proof. now rewrite key_column2_reset_index2, agg_keys, groupby_keys. Qed.

Lemma productivity_key_In df p s :
  In (p, s) (sorted_keys (map fst (dropna (group_productivity df)))) <->
  exists x, In x (rows df) /\ Product_Type x = Some p /\ Shift x = Some s.
Proof.
  rewrite sorted_keys_In, <- (In_key2 Product_Type Shift).
  unfold group_productivity. split.
  - apply (In_dropna_fst_inv
             (fun x => key2 (Product_Type x) (Shift x)) productivity_of).
  - apply (In_dropna_fst
             (fun x => key2 (Product_Type x) (Shift x)) productivity_of).
Qed.

Lemma productivity_body df :
  body (reset_index2 "Product Type" "Shift" "Productivity"
          (agg Binary64.group_mean (groupby (group_productivity df)))) =
  map (fun k => [VStr (fst k); VStr (snd k);
                 VDouble (Binary64.group_mean
                            (productivity_of_group (fst k) (snd k) df))])
    (sorted_keys (map fst (dropna (group_productivity df)))).
Proof.
  unfold reset_index2, agg, groupby. cbn [body]. rewrite !map_map.
  cbn [fst snd]. unfold to_cell, ToCell_string, ToCell_double.
  apply map_ext. intros [p s]. cbn [fst snd].
  unfold group_productivity.
  rewrite (group_of_dropna2 Product_Type Shift productivity_of).
  reflexivity.
Qed.

Lemma find_row2_map_ext (F G : string * string -> cell)
  (ks : list (string * string)) (p s : string) :
  F (p, s) = G (p, s) ->
  find_row2 p s (map (fun k => [VStr (fst k); VStr (snd k); F k]) ks) =
  find_row2 p s (map (fun k => [VStr (fst k); VStr (snd k); G k]) ks).
Proof.
  intros E. induction ks as [|[a b] ks IH]; [reflexivity|].
  cbn [map find_row2 fst snd].
  destruct (String.eqb a p && String.eqb b s) eqn:Eab; [|exact IH].
  apply andb_prop in Eab. destruct Eab as [Ea Eb].
  apply String.eqb_eq in Ea, Eb. subst a b. now rewrite E.
Qed.

Lemma productivity_keys_perm df df' :
  Permutation (rows df) (rows df') ->
  sorted_keys (map fst (dropna (group_productivity df'))) =
  sorted_keys (map fst (dropna (group_productivity df))).
Proof.
  intros Hp. apply sorted_keys_perm.
  apply Permutation_map, dropna_perm. unfold group_productivity.
  now apply Permutation_map, Permutation_sym.
Qed.

Lemma ReportTable_eq (t t' : ReportTable) :
  headers t = headers t' -> body t = body t' -> t = t'.
Proof. destruct t, t'. cbn. now intros -> ->. Qed.

(** C6 (amended).  Putting the rows of an input table that has the
    columns Product Type, Shift, Units Produced, Operator Count and
    Production Time Hours in another order leaves the (Product Type,
    Shift) pairs of the result of [generate_productivity_per_operator] as
    they are, and leaves the value of every pair whose rows keep their
    order as it is; the whole result is the same when the rows of every
    pair keep their order.  The value of a pair is a sum in row order on
    binary64 numbers, which another order of its rows can change. *)
Theorem productivity_per_operator_binary64_row_order :
  forall h r df h' r' df',
    at_ref h r df ->
    at_ref h' r' df' ->
    columns df' = columns df ->
    Permutation (rows df) (rows df') ->
    Forall (fun l => has_column df l = true) productivity_columns ->
    exists t t',
      fst (generate_productivity_per_operator r h) = Ok t /\
      fst (generate_productivity_per_operator r' h') = Ok t' /\
      key_column2 t' = key_column2 t /\
      (forall p s,
          productivity_of_group p s df' = productivity_of_group p s df ->
          find_row2 p s (body t') = find_row2 p s (body t)) /\
      ((forall p s,
           productivity_of_group p s df' = productivity_of_group p s df) ->
       t' = t).
Proof.
  intros h r df h' r' df' Hr Hr' Hc Hp Hall.
  assert (Hall' : Forall (fun l => has_column df' l = true)
                    productivity_columns).
  { eapply Forall_impl; [|exact Hall]. cbn beta. intros l Hl.
    now rewrite (has_column_columns df df'). }
  destruct (generate_productivity_per_operator_run _ _ _ Hr) as [d ->].
  destruct (generate_productivity_per_operator_run _ _ _ Hr') as [d' ->].
  cbn [fst].
  rewrite (productivity_result_when_present df Hall),
    (productivity_result_when_present df' Hall').
  do 2 eexists. split; [reflexivity|]. split; [reflexivity|].
  pose proof (productivity_keys_perm df df' Hp) as Hkeys.
  split; [now rewrite !productivity_keys|]. split.
  - intros p s Hsame. rewrite !productivity_body, Hkeys.
    apply find_row2_map_ext. cbn [fst snd]. now rewrite Hsame.
  - intros Hsame. apply ReportTable_eq; [reflexivity|].
    rewrite !productivity_body, Hkeys.
    apply map_ext. intros [p s]. cbn [fst snd]. now rewrite Hsame.
Qed.

Lemma productivity_per_operator_binary64_row_order_witness :
  exists t t',
    fst (generate_productivity_per_operator 0%nat [one_group]) = Ok t /\
    fst (generate_productivity_per_operator 0%nat [one_group_reversed])
      = Ok t' /\
    key_column2 t' = key_column2 t /\
    (forall p s,
        productivity_of_group p s one_group_reversed
        = productivity_of_group p s one_group ->
        find_row2 p s (body t') = find_row2 p s (body t)) /\
    ((forall p s,
         productivity_of_group p s one_group_reversed
         = productivity_of_group p s one_group) ->
     t' = t).
Proof.
  apply (productivity_per_operator_binary64_row_order
           [one_group] 0%nat one_group
           [one_group_reversed] 0%nat one_group_reversed);
    try reflexivity.
  - apply Permutation_rev.
  - repeat (apply Forall_cons; [reflexivity|]). apply Forall_nil.
Defined.

(** C6 as stated fails: the same three records in two orders give
    1.6111111111111114 and 1.611111111111111, which differ in the last
    bit. *)
Lemma productivity_mean_depends_on_row_order :
  Permutation (rows one_group) (rows one_group_reversed) /\
  fst (generate_productivity_per_operator 0%nat [one_group]) =
    Ok (mkTable ["Product Type"; "Shift"; "Productivity"]
          [[VStr "A"; VStr "Day"; VDouble 0x1.9c71c71c71c73p+0%float]]) /\
  fst (generate_productivity_per_operator 0%nat [one_group_reversed]) =
    Ok (mkTable ["Product Type"; "Shift"; "Productivity"]
          [[VStr "A"; VStr "Day"; VDouble 0x1.9c71c71c71c71p+0%float]]) /\
  ~ row_order_claim one_group one_group_reversed.
Proof.
  split; [apply Permutation_rev|].
  split; [vm_compute; reflexivity|].
  split; [vm_compute; reflexivity|].
  intros Hclaim.
  specialize (Hclaim [one_group] 0%nat [one_group_reversed] 0%nat
                eq_refl eq_refl eq_refl (Permutation_rev _)).
  apply (f_equal
           (fun o => match o with
                     | Ok t =>
                         match body t with
                         | [[_; _; VDouble x]] =>
                             PrimFloat.eqb x 0x1.9c71c71c71c73p+0%float
                         | _ => false
                         end
                     | Raise _ => false
                     end)) in Hclaim.
  vm_compute in Hclaim. discriminate Hclaim.
Qed.

(* ----------------------------------------------------------------- *)
(** ** Export *)

(** When the pass returns, every report was computed and drawn, and the
    workbook holds their seven tables. *)
Lemma main_result_Ok pd df out :
  main_result pd df = Ok out ->
  exists units defects monthly cost energy rate productivity,
    units_by_product_result df = Ok units /\
    avg_defects_by_shift_result df = Ok defects /\
    monthly_production_result pd df = Ok monthly /\
    avg_cost_summary_result df = Ok cost /\
    energy_vs_production_result df = Ok energy /\
    defect_rate_by_product_result df = Ok rate /\
    productivity_per_operator_result df = Ok productivity /\
    out = mkDownload
            [sheet_of "Units by Product" units;
             sheet_of "Defects by Shift" defects;
             sheet_of "Monthly Production" monthly;
             sheet_of "Cost Summary" cost;
             sheet_of "Energy vs Prod" energy;
             sheet_of "Defect Rate (%)" rate;
             sheet_of "Productivity" productivity]
            "agentic_report.xlsx" xlsx_mime.
Proof.
  unfold main_result, require.
  destruct (has_column df "Date"); [|discriminate].
  destruct (units_by_product_result df) as [units|]; [|discriminate].
  cbn [obind].
  destruct (bar_chart units _ _) as [[]|]; [|discriminate]. cbn [obind].
  destruct (avg_defects_by_shift_result df) as [defects|]; [|discriminate].
  cbn [obind].
  destruct (bar_chart defects _ _) as [[]|]; [|discriminate]. cbn [obind].
  destruct (monthly_production_result pd df) as [monthly|]; [|discriminate].
  cbn [obind].
  destruct (line_chart monthly _ _) as [[]|]; [|discriminate]. cbn [obind].
  destruct (avg_cost_summary_result df) as [cost|]; [|discriminate].
  cbn [obind].
  destruct (bar_chart cost _ _) as [[]|]; [|discriminate]. cbn [obind].
  destruct (energy_vs_production_result df) as [energy|]; [|discriminate].
  cbn [obind].
  destruct (defect_rate_by_product_result df) as [rate|]; [|discriminate].
  cbn [obind].
  destruct (bar_chart rate _ _) as [[]|]; [|discriminate]. cbn [obind].
  destruct (productivity_per_operator_result df) as [productivity|];
    [|discriminate].
  cbn [obind]. unfold export_result.
  destruct (forallb fits _); [|discriminate].
  intros [= <-]. do 7 eexists. repeat split; reflexivity.
Qed.




(* ----------------------------------------------------------------- *)
(** ** Missing columns *)

Ltac required_columns :=
  unfold respects_required, names_missing, require; cbn [filter];
  repeat match goal with
         | |- context [has_column ?d ?l] =>
             let E := fresh "E" in destruct (has_column d l) eqn:E
         end;
  cbn [negb];
  first
    [ repeat (apply Forall_cons; [assumption|]); apply Forall_nil
    | eexists; (split; [reflexivity|]); (split; [discriminate|]);
      repeat (apply Forall_cons; [split; [cbn [In]; auto 10 | assumption]|]);
      apply Forall_nil ].

Lemma units_by_product_result_required df :
  respects_required df ["Product Type"; "Units Produced"]
    (units_by_product_result df).
Proof. unfold units_by_product_result. required_columns. Qed.

Lemma avg_defects_by_shift_result_required df :
  respects_required df ["Shift"; "Defects"] (avg_defects_by_shift_result df).
Proof. unfold avg_defects_by_shift_result. required_columns. Qed.

Lemma monthly_production_result_required pd df :
  respects_required df ["Date"; "Units Produced"]
    (monthly_production_result pd df).
Proof. unfold monthly_production_result. required_columns. Qed.

Lemma energy_vs_production_result_required df :
  respects_required df ["Energy Consumption kWh"; "Units Produced"]
    (energy_vs_production_result df).
Proof. unfold energy_vs_production_result, energy_columns. required_columns. Qed.

Lemma defect_rate_by_product_result_required df :
  respects_required df ["Product Type"; "Units Produced"; "Defects"]
    (defect_rate_by_product_result df).
Proof. unfold defect_rate_by_product_result. required_columns. Qed.

Lemma productivity_per_operator_result_required df :
  respects_required df
    ["Product Type"; "Shift"; "Units Produced"; "Operator Count";
     "Production Time Hours"]
    (productivity_per_operator_result df).
Proof. unfold productivity_per_operator_result. required_columns. Qed.

Lemma respects_required_missing df req o c :
  respects_required df req o -> In c req -> has_column df c = false ->
  exists e, o = Raise e /\ names_missing df req e.
Proof.
  intros Hresp Hc Hno. destruct o as [t|e]; cbn in Hresp.
  - rewrite Forall_forall in Hresp. specialize (Hresp c Hc). congruence.
  - now exists e.
Qed.

Lemma names_missing_key_error df req e :
  names_missing df req e ->
  exists cs, e = KeyError cs /\ cs <> [] /\
             Forall (fun c => has_column df c = false) cs.
Proof.
  intros [cs [-> [Hne Hall]]]. exists cs. repeat split; try assumption.
  eapply Forall_impl; [|exact Hall]. now intros c [_ Hc].
Qed.

(** The pass raises as soon as one report function does. *)
Lemma main_result_aborts pd df :
  (exists e, units_by_product_result df = Raise e) \/
  (exists e, avg_defects_by_shift_result df = Raise e) \/
  (exists e, monthly_production_result pd df = Raise e) \/
  (exists e, energy_vs_production_result df = Raise e) \/
  (exists e, defect_rate_by_product_result df = Raise e) \/
  (exists e, productivity_per_operator_result df = Raise e) ->
  exists e, main_result pd df = Raise e.
Proof.
  intros Hsome.
  destruct (main_result pd df) as [out|e] eqn:E; [|now exists e].
  destruct (main_result_Ok _ _ _ E)
    as [units [defects [monthly [cost [energy [rate [productivity
       [E1 [E2 [E3 [E4 [E5 [E6 [E7 _]]]]]]]]]]]]]].
  exfalso. rewrite E1, E2, E3, E5, E6, E7 in Hsome.
  decompose [or ex] Hsome; discriminate.
Qed.

(** C4 (amended).  When a required column of a report function is absent
    from the input table, that function raises a KeyError that names the
    missing column or columns (and not the function), and the sequential
    report pass does not complete: it raises at its first failing step
    and returns no result at all. *)
Theorem missing_column_aborts_pass :
  forall pd h r df name req f c,
    at_ref h r df ->
    In (name, req, f) (aggregations pd) ->
    In c req ->
    has_column df c = false ->
    (exists e h', f r h = (Raise e, h') /\ names_missing df req e) /\
    (exists e h', main pd r h = (Raise e, h')).
Proof.
  intros pd h r df name req f c Hr Hagg Hc Hno.
  assert (Hf : exists o h', f r h = (o, h') /\ respects_required df req o /\
                            (o = units_by_product_result df \/
                             o = avg_defects_by_shift_result df \/
                             o = monthly_production_result pd df \/
                             o = energy_vs_production_result df \/
                             o = defect_rate_by_product_result df \/
                             o = productivity_per_operator_result df)).
  { unfold aggregations in Hagg. cbn [In] in Hagg.
    decompose [or] Hagg; clear Hagg;
      match goal with
      | E : (_, _, _) = (_, _, _) |- _ => injection E as <- <- <-
      | F : False |- _ => contradiction
      end.
    - rewrite (generate_units_by_product_run _ _ _ Hr). do 2 eexists.
      split; [reflexivity|]. split; [apply units_by_product_result_required|].
      tauto.
    - rewrite (generate_avg_defects_by_shift_run _ _ _ Hr). do 2 eexists.
      split; [reflexivity|].
      split; [apply avg_defects_by_shift_result_required|]. tauto.
    - rewrite (generate_monthly_production_run _ _ _ _ Hr). do 2 eexists.
      split; [reflexivity|].
      split; [apply monthly_production_result_required|]. tauto.
    - contradiction.
    - rewrite (generate_energy_vs_production_run _ _ _ Hr). do 2 eexists.
      split; [reflexivity|].
      split; [apply energy_vs_production_result_required|]. tauto.
    - rewrite (generate_defect_rate_by_product_run _ _ _ Hr). do 2 eexists.
      split; [reflexivity|].
      split; [apply defect_rate_by_product_result_required|]. tauto.
    - destruct (generate_productivity_per_operator_run _ _ _ Hr) as [d ->].
      do 2 eexists. split; [reflexivity|].
      split; [apply productivity_per_operator_result_required|]. tauto. }
  destruct Hf as [o [h' [Hf [Hresp Hwhich]]]].
  destruct (respects_required_missing _ _ _ _ Hresp Hc Hno) as [e [-> Hmiss]].
  split.
  - now exists e, h'.
  - destruct (main_run pd _ _ _ Hr) as [h'' [-> _]].
    destruct (main_result_aborts pd df) as [e' ->].
    + decompose [or] Hwhich; eauto 10.
    + now exists e', h''.
Qed.

Lemma missing_column_aborts_pass_witness :
  (exists e h',
      generate_avg_defects_by_shift 0%nat [table_without_shift] = (Raise e, h') /\
      names_missing table_without_shift ["Shift"; "Defects"] e) /\
  (exists e h', main pandas3 0%nat [table_without_shift] = (Raise e, h')).
Proof.
  apply (missing_column_aborts_pass pandas3 [table_without_shift] 0%nat
           table_without_shift "generate_avg_defects_by_shift"
           ["Shift"; "Defects"] generate_avg_defects_by_shift "Shift").
  - reflexivity.
  - cbn. auto.
  - cbn. auto.
  - reflexivity.
Defined.

(** C4 as stated fails: without the Shift column the pass does not
    complete; it raises [KeyError] at the second report and returns
    nothing, whatever the pandas release. *)
Lemma missing_shift_aborts_pass :
  fst (main pandas2 0%nat [table_without_shift]) = Raise (KeyError ["Shift"]) /\
  fst (main pandas3 0%nat [table_without_shift]) = Raise (KeyError ["Shift"]) /\
  ~ pass_completes_claim pandas2 table_without_shift /\
  ~ pass_completes_claim pandas3 table_without_shift.
Proof.
  destruct (main_run pandas2 [table_without_shift] 0%nat table_without_shift
              eq_refl) as [h2 [Hrun2 _]].
  destruct (main_run pandas3 [table_without_shift] 0%nat table_without_shift
              eq_refl) as [h3 [Hrun3 _]].
  assert (E2 : main_result pandas2 table_without_shift
               = Raise (KeyError ["Shift"])) by (vm_compute; reflexivity).
  assert (E3 : main_result pandas3 table_without_shift
               = Raise (KeyError ["Shift"])) by (vm_compute; reflexivity).
  rewrite E2 in Hrun2. rewrite E3 in Hrun3.
  split; [now rewrite Hrun2|]. split; [now rewrite Hrun3|].
  split; intros Hclaim;
    destruct (Hclaim [table_without_shift] 0%nat eq_refl) as [out [h' Hmain]];
    congruence.
Qed.

(* ----------------------------------------------------------------- *)
(** ** What the report functions change *)

Lemma field_set_Month lbl m r :
  lbl <> "Month" -> field lbl (set_Month m r) = field lbl r.
Proof.
  intros Hne. unfold field.
  repeat match goal with
         | |- context [String.eqb lbl ?s] =>
             destruct (String.eqb_spec lbl s); [try reflexivity; try contradiction|]
         end.
  reflexivity.
Qed.

Lemma column_values_with_month pd df lbl :
  lbl <> "Month" ->
  column_values (with_month pd df) lbl = column_values df lbl.
Proof.
  intros Hne. unfold column_values. rewrite has_column_with_month.
  destruct (String.eqb_spec lbl "Month"); [contradiction|].
  rewrite orb_false_r. destruct (has_column df lbl); [|reflexivity].
  f_equal. unfold with_month. cbn [rows]. rewrite map_map.
  apply map_ext. intros r. now apply field_set_Month.
Qed.

Lemma column_values_month pd df :
  column_values (with_month pd df) "Month" =
  Some (map (fun r => ObjectV (astype_str pd (Date r))) (rows df)).
Proof.
  unfold column_values. rewrite has_column_with_month. cbn [String.eqb Ascii.eqb Bool.eqb].
  rewrite orb_true_r. f_equal. unfold with_month. cbn [rows].
  rewrite map_map. reflexivity.
Qed.

(** C10 (amended).  The six report functions other than
    [generate_monthly_production] leave every table of the heap as it is,
    the input table included ([generate_productivity_per_operator] works
    on a copy and adds no column to the input).
    [generate_monthly_production] changes the input table only in its
    Month column: it sets it to the month labels of the dates (appending
    it when the table has no such column, overwriting it when it has one),
    keeps the rows in number and every other column in content, and leaves
    the other tables alone; when the Date column is absent it changes
    nothing.  So the existing columns are all unchanged as long as the
    input has no column called Month.  This holds for either pandas
    release. *)
Theorem only_month_column_is_set :
  forall pd h r df,
    at_ref h r df ->
    (forall f o h',
        In f read_only_aggregations ->
        f r h = (o, h') ->
        forall r0 d0, at_ref h r0 d0 -> at_ref h' r0 d0) /\
    (forall o h',
        generate_monthly_production pd r h = (o, h') ->
        exists df',
          at_ref h' r df' /\
          (forall r0 d0, r0 <> r -> at_ref h r0 d0 -> at_ref h' r0 d0) /\
          (forall lbl, lbl <> "Month" ->
                       column_values df' lbl = column_values df lbl) /\
          List.length (rows df') = List.length (rows df) /\
          (if has_column df "Date"
           then column_values df' "Month" =
                  Some (map (fun x => ObjectV (astype_str pd (Date x)))
                          (rows df))
           else df' = df) /\
          (has_column df "Month" = false ->
           existing_columns_unchanged df df')).
Proof.
  intros pd h r df Hr. split.
  - intros f o h' Hf Hrun r0 d0 Hr0.
    unfold read_only_aggregations in Hf. cbn [In] in Hf.
    decompose [or] Hf; clear Hf; try contradiction; subst.
    + rewrite (generate_units_by_product_run _ _ _ Hr) in Hrun.
      now injection Hrun as _ <-.
    + rewrite (generate_avg_defects_by_shift_run _ _ _ Hr) in Hrun.
      now injection Hrun as _ <-.
    + rewrite (generate_avg_cost_summary_run _ _ _ Hr) in Hrun.
      now injection Hrun as _ <-.
    + rewrite (generate_energy_vs_production_run _ _ _ Hr) in Hrun.
      now injection Hrun as _ <-.
    + rewrite (generate_defect_rate_by_product_run _ _ _ Hr) in Hrun.
      now injection Hrun as _ <-.
    + destruct (generate_productivity_per_operator_run _ _ _ Hr) as [d Hd].
      rewrite Hd in Hrun. injection Hrun as _ <-. now apply at_ref_app.
  - intros o h' Hrun.
    rewrite (generate_monthly_production_run _ _ _ _ Hr) in Hrun.
    injection Hrun as _ <-.
    destruct (has_column df "Date") eqn:Ed.
    + exists (with_month pd df). split; [eapply at_ref_update; eassumption|].
      split; [intros r0 d0 Hne; now apply at_ref_update_other|].
      split; [intros lbl; apply column_values_with_month|].
      split; [unfold with_month; cbn [rows]; apply length_map|].
      split; [apply column_values_month|].
      intros Hm lbl Hl. apply column_values_with_month. intros ->. congruence.
    + exists df. repeat split; auto.
Qed.

Lemma only_month_column_is_set_witness :
  (forall f o h',
      In f read_only_aggregations ->
      f 0%nat [table_with_month] = (o, h') ->
      forall r0 d0, at_ref [table_with_month] r0 d0 -> at_ref h' r0 d0) /\
  (forall o h',
      generate_monthly_production pandas3 0%nat [table_with_month] = (o, h') ->
      exists df',
        at_ref h' 0%nat df' /\
        (forall r0 d0, r0 <> 0%nat ->
                       at_ref [table_with_month] r0 d0 -> at_ref h' r0 d0) /\
        (forall lbl, lbl <> "Month" ->
                     column_values df' lbl =
                     column_values table_with_month lbl) /\
        List.length (rows df') = List.length (rows table_with_month) /\
        (if has_column table_with_month "Date"
         then column_values df' "Month" =
                Some (map (fun x => ObjectV (astype_str pandas3 (Date x)))
                        (rows table_with_month))
         else df' = table_with_month) /\
        (has_column table_with_month "Month" = false ->
         existing_columns_unchanged table_with_month df')).
Proof.
  apply (only_month_column_is_set pandas3 [table_with_month] 0%nat
           table_with_month).
  reflexivity.
Defined.

(** C10 as stated fails: when the input table already has a Month column,
    [generate_monthly_production] replaces its values. *)
Lemma month_column_is_overwritten :
  column_values table_with_month "Month" = Some [ObjectV (Some "January")] /\
  (forall pd,
      (exists o df',
          generate_monthly_production pd 0%nat [table_with_month]
            = (o, [df']) /\
          column_values df' "Month" = Some [ObjectV (Some "2024-01")]) /\
      ~ frame_claim pd table_with_month).
Proof.
  split; [reflexivity|]. intros pd. split.
  - do 2 eexists. split; destruct pd; reflexivity.
  - intros Hclaim.
    destruct (Hclaim "generate_monthly_production" ["Date"; "Units Produced"]
                (generate_monthly_production pd) [table_with_month]
                0%nat _ _
                ltac:(destruct pd; cbn; auto) eq_refl
                (surjective_pairing _)) as [df' [Hat Hsame]].
    specialize (Hsame "Month" eq_refl).
    destruct pd; injection Hat as <-; vm_compute in Hsame; discriminate.
Qed.

(* ----------------------------------------------------------------- *)
(** ** Month labels and chronological order *)

Lemma digit_compare (a b : Z) :
  Ascii.compare (digit a) (digit b) = (a mod 10 ?= b mod 10).
Proof.
  unfold Ascii.compare, digit.
  assert (Ha := Z.mod_pos_bound a 10 ltac:(lia)).
  assert (Hb := Z.mod_pos_bound b 10 ltac:(lia)).
  rewrite !N_ascii_embedding by lia.
  rewrite <- N2Z.inj_compare, !N2Z.inj_add, !Z2N.id by lia.
  apply Z.add_compare_mono_l.
Qed.

Lemma digit_compare_N (a : Z) : Ascii.compare (digit a) "N"%char = Lt.
Proof.
  unfold Ascii.compare, digit.
  assert (Ha := Z.mod_pos_bound a 10 ltac:(lia)).
  rewrite N_ascii_embedding by lia. cbn [N_of_ascii N_of_digits].
  apply N.compare_lt_iff. lia.
Qed.

Lemma digits4 (y : Z) :
  0 <= y <= 9999 ->
  y = 1000 * ((y / 1000) mod 10) + 100 * ((y / 100) mod 10)
      + 10 * ((y / 10) mod 10) + y mod 10.
Proof. intros Hy. Z.div_mod_to_equations. lia. Qed.

Lemma digits2 (m : Z) :
  0 <= m <= 99 -> m = 10 * ((m / 10) mod 10) + m mod 10.
Proof. intros Hm. Z.div_mod_to_equations. lia. Qed.

(** On valid dates the order of the labels is the order of the months. *)
Lemma period_str_compare (a b : date) :
  valid_date a -> valid_date b ->
  String.compare (period_str (Some a)) (period_str (Some b)) =
  match year a ?= year b with
  | Eq => month a ?= month b
  | c => c
  end.
Proof.
  intros [Hya Hma] [Hyb Hmb].
  unfold period_str, pad4, pad2. cbn [append String.compare].
  rewrite !digit_compare.
  pose proof (digits4 (year a) ltac:(lia)) as Ea.
  pose proof (digits4 (year b) ltac:(lia)) as Eb.
  pose proof (digits2 (month a) ltac:(lia)) as Fa.
  pose proof (digits2 (month b) ltac:(lia)) as Fb.
  assert (Hd : forall x, 0 <= x mod 10 < 10)
    by (intros x; apply Z.mod_pos_bound; lia).
  pose proof (Hd (year a / 1000)). pose proof (Hd (year a / 100)).
  pose proof (Hd (year a / 10)). pose proof (Hd (year a)).
  pose proof (Hd (year b / 1000)). pose proof (Hd (year b / 100)).
  pose proof (Hd (year b / 10)). pose proof (Hd (year b)).
  pose proof (Hd (month a / 10)). pose proof (Hd (month a)).
  pose proof (Hd (month b / 10)). pose proof (Hd (month b)).
  clear Hd.
  set (a3 := (year a / 1000) mod 10) in *. set (a2 := (year a / 100) mod 10) in *.
  set (a1 := (year a / 10) mod 10) in *. set (a0 := year a mod 10) in *.
  set (b3 := (year b / 1000) mod 10) in *. set (b2 := (year b / 100) mod 10) in *.
  set (b1 := (year b / 10) mod 10) in *. set (b0 := year b mod 10) in *.
  set (c1 := (month a / 10) mod 10) in *. set (c0 := month a mod 10) in *.
  set (d1 := (month b / 10) mod 10) in *. set (d0 := month b mod 10) in *.
  clearbody a3 a2 a1 a0 b3 b2 b1 b0 c1 c0 d1 d0.
  change (Ascii.compare "-" "-") with Eq.
  repeat match goal with
         | |- context [Z.compare ?x ?y] => destruct (Z.compare_spec x y)
         end;
    try reflexivity; exfalso; lia.
Qed.

Lemma period_str_before_NaT (a : date) :
  String.compare (period_str (Some a)) "NaT" = Lt.
Proof.
  unfold period_str, pad4. cbn [append String.compare].
  now rewrite digit_compare_N.
Qed.

Lemma period_str_not_NaT (a : date) : period_str (Some a) <> "NaT".
Proof.
  intros E. pose proof (period_str_before_NaT a) as Hlt. rewrite E in Hlt.
  discriminate.
Qed.

Lemma klt_period_str (a b : date) :
  valid_date a -> valid_date b ->
  klt (period_str (Some a)) (period_str (Some b)) -> month_lt a b.
Proof.
  intros Ha Hb [Hle Hne]. cbn [kleb Key_string] in Hle.
  apply string_leb_cases in Hle. destruct Hle as [Hlt|E]; [|contradiction].
  rewrite (period_str_compare a b Ha Hb) in Hlt. unfold month_lt.
  destruct (Z.compare_spec (year a) (year b)); try discriminate.
  - right. split; [assumption|]. now apply Z.compare_lt_iff.
  - now left.
Qed.

Lemma not_klt_NaT (l : string) (d : option date) :
  l = period_str d -> ~ klt "NaT" l.
Proof.
  intros -> [Hle Hne]. destruct d as [x|]; [|now apply Hne].
  cbn [kleb Key_string] in Hle. unfold String.leb in Hle.
  rewrite String.compare_antisym, period_str_before_NaT in Hle. discriminate.
Qed.

(** A strictly ascending list of month labels is a chronological list of
    months, followed by ["NaT"] when that label occurs. *)
Lemma sorted_month_labels (ds : list (option date)) (labels : list string) :
  Forall (fun d => match d with Some x => valid_date x | None => True end) ds ->
  StronglySorted klt labels ->
  (forall l, In l labels -> In l (map period_str ds)) ->
  exists ms,
    labels = map (fun d => period_str (Some d)) ms ++
             (if existsb (String.eqb "NaT") labels then ["NaT"] else []) /\
    StronglySorted month_lt ms /\
    Forall (fun d => In (Some d) ds /\ valid_date d) ms.
Proof.
  intros Hvalid Hsorted. rewrite Forall_forall in Hvalid.
  induction Hsorted as [|l rest Hs IH Hl]; intros Hin.
  - exists []. repeat split; constructor.
  - destruct (proj1 (in_map_iff _ _ _) (Hin l (or_introl eq_refl)))
      as [d [Ed Hd]].
    rewrite Forall_forall in Hl.
    destruct d as [x|].
    + destruct IH as [ms [Erest [Hms Hall]]];
        [intros l' Hl'; apply Hin; now right|].
      exists (x :: ms). cbn [map app existsb].
      assert (Ex : String.eqb "NaT" l = false).
      { apply String.eqb_neq. rewrite <- Ed. intros E. symmetry in E.
        exact (period_str_not_NaT x E). }
      rewrite Ex, orb_false_l. split; [now rewrite Ed, <- Erest|].
      pose proof (Hvalid _ Hd) as Hx. cbn in Hx.
      split.
      * constructor; [assumption|]. apply Forall_forall. intros m Hm.
        rewrite Forall_forall in Hall. destruct (Hall m Hm) as [_ Hvm].
        apply klt_period_str; try assumption.
        rewrite Ed. apply Hl. rewrite Erest. apply in_or_app. left.
        now apply (in_map (fun d => period_str (Some d))).
      * constructor; [split; assumption | assumption].
    + cbn [period_str] in Ed. subst l.
      destruct rest as [|l' rest].
      * exists []. cbn. repeat split; constructor.
      * exfalso.
        destruct (proj1 (in_map_iff _ _ _) (Hin l' (or_intror (or_introl eq_refl))))
          as [d' [Ed' _]].
        apply (not_klt_NaT l' d'); [now symmetry|].
        apply Hl. now left.
Qed.

(* ----------------------------------------------------------------- *)
(** ** Monthly production *)

Lemma str_column_month_reset_index {V : Type} `{ToCell V}
  (s : list (string * V)) :
  str_column "Month" (reset_index "Month" "Units Produced" s) = map fst s.
Proof.
  unfold str_column, table_column, reset_index. cbn.
  rewrite !map_map. apply map_ext. reflexivity.
Qed.

Lemma is_some_astype_str pd d : is_some (astype_str pd d) = in_a_month pd d.
Proof. unfold in_a_month. destruct d, pd; reflexivity. Qed.

Lemma dropna_month_units pd df :
  dropna (month_units pd df) =
  map (fun r => (period_str (Date r), Units_Produced r))
    (filter (fun r => in_a_month pd (Date r)) (rows df)).
Proof.
  unfold month_units. induction (rows df) as [|x l IH]; [reflexivity|].
  cbn [map dropna filter]. rewrite <- is_some_astype_str.
  destruct (Date x) as [d|] eqn:E; [|destruct pd];
    cbn [astype_str nat_is_text is_some dropna map]; rewrite ?E;
    now rewrite IH.
Qed.

Lemma month_keys pd df :
  map fst (dropna (month_units pd df)) =
  map period_str (filter (in_a_month pd) (map Date (rows df))).
Proof.
  rewrite dropna_month_units, map_map. cbn [fst].
  induction (rows df) as [|x l IH]; [reflexivity|].
  cbn [map filter]. destruct (in_a_month pd (Date x)); cbn [map];
    now rewrite IH.
Qed.

Lemma In_NaT_missing_date pd df :
  existsb (String.eqb "NaT")
    (map period_str (filter (in_a_month pd) (map Date (rows df)))) =
  nat_is_text pd && has_missing_date df.
Proof.
  unfold has_missing_date. induction (map Date (rows df)) as [|d l IH].
  - now destruct pd.
  - cbn [filter existsb]. destruct d as [x|].
    + cbn [in_a_month is_some orb negb map existsb]. rewrite IH.
      replace (String.eqb "NaT" (period_str (Some x))) with false;
        [reflexivity|].
      symmetry. apply String.eqb_neq. intros E. symmetry in E.
      exact (period_str_not_NaT x E).
    + destruct pd; cbn [in_a_month is_some nat_is_text orb negb andb map
                          existsb] in *.
      * reflexivity.
      * exact IH.
Qed.

Lemma existsb_ext_In {A : Type} (f : A -> bool) (l l' : list A) :
  (forall x, In x l <-> In x l') -> existsb f l = existsb f l'.
Proof.
  intros Hin. destruct (existsb f l) eqn:E; symmetry.
  - apply existsb_exists in E. destruct E as [x [Hx Hf]].
    apply existsb_exists. exists x. split; [now apply Hin | assumption].
  - destruct (existsb f l') eqn:E'; [|reflexivity].
    apply existsb_exists in E'. destruct E' as [x [Hx Hf]].
    assert (Ht : existsb f l = true)
      by (apply existsb_exists; exists x; split; [now apply Hin | assumption]).
    congruence.
Qed.

(** C3 (amended).  For every input table with the columns Date (parsed,
    missing or unparseable dates being [NaT]) and Units Produced, the rows
    of [generate_monthly_production] are the months of the dates in
    chronological order, each once.  With a pandas release that keeps a
    missing month missing (pandas 3) there is no other row, and the totals
    add up to the sum of Units Produced over the rows whose Date is
    parseable.  With a release that writes a missing month as the text
    "NaT" (pandas 2) the rows without a date form one more row, the last,
    labelled "NaT", and the totals add up to the sum over all the rows.
    The sums agree as 64-bit sums, and exactly when the units are
    non-negative and their total is below 2^63. *)
Theorem monthly_production_order_and_total :
  forall pd h r df,
    at_ref h r df ->
    has_column df "Date" = true ->
    has_column df "Units Produced" = true ->
    valid_dates df ->
    exists t h',
      generate_monthly_production pd r h = (Ok t, h') /\
      (exists ms,
          str_column "Month" t =
            map (fun d => period_str (Some d)) ms ++
            (if nat_is_text pd && has_missing_date df then ["NaT"] else []) /\
          StronglySorted month_lt ms /\
          Forall (fun d => In (Some d) (map Date (rows df))) ms) /\
      wrap64 (Zsum (int_column "Units Produced" t)) =
        wrap64 (Zsum (monthly_units pd df)) /\
      ((forall u, In u (monthly_units pd df) -> 0 <= u) ->
       Zsum (monthly_units pd df) < 2 ^ 63 ->
       Zsum (int_column "Units Produced" t) = Zsum (monthly_units pd df)) /\
      monthly_units pd df =
        match pd with
        | pandas2 => map Units_Produced (rows df)
        | pandas3 =>
            map Units_Produced
              (filter (fun r => is_some (Date r)) (rows df))
        end.
Proof.
  intros pd h r df Hr Hd Hu Hvalid.
  rewrite (generate_monthly_production_run _ _ _ _ Hr).
  unfold monthly_production_result, require. rewrite Hd, Hu.
  do 2 eexists. split; [reflexivity|].
  assert (Hvals : map snd (dropna (month_units pd df)) = monthly_units pd df).
  { rewrite dropna_month_units, map_map. reflexivity. }
  split; [|split; [|split]].
  - rewrite str_column_month_reset_index. unfold agg, groupby.
    rewrite !map_map. cbn [fst]. rewrite map_id, month_keys.
    set (ds := filter (in_a_month pd) (map Date (rows df))).
    assert (Hsub : forall d, In d ds -> In d (map Date (rows df))).
    { intros d Hin. unfold ds in Hin. now apply filter_In in Hin. }
    assert (Hvalid' : Forall (fun d => match d with
                                       | Some x => valid_date x
                                       | None => True
                                       end) ds).
    { unfold valid_dates in Hvalid. rewrite Forall_forall in Hvalid.
      apply Forall_forall. intros d Hin. apply Hvalid. now apply Hsub. }
    destruct (sorted_month_labels ds (sorted_keys (map period_str ds)) Hvalid'
                (sorted_keys_sorted _)) as [ms [E [Hms Hall]]].
    { intros l Hl. now apply sorted_keys_In. }
    exists ms. split; [|split; [assumption|]].
    + rewrite E at 1. f_equal.
      rewrite <- In_NaT_missing_date. fold ds.
      rewrite (existsb_ext_In (String.eqb "NaT")
                 (sorted_keys (map period_str ds)) (map period_str ds));
        [reflexivity|].
      intros x. apply sorted_keys_In.
    + eapply Forall_impl; [|exact Hall]. intros d [Hin _]. now apply Hsub.
  - rewrite int_column_units_reset_index by reflexivity.
    rewrite <- Hvals. apply group_sums_total.
  - rewrite int_column_units_reset_index by reflexivity.
    rewrite <- Hvals. apply group_sums_total.
  - unfold monthly_units, in_a_month. destruct pd; cbn [nat_is_text].
    + f_equal. induction (rows df) as [|x l IH]; [reflexivity|].
      cbn [filter]. rewrite orb_true_r. now f_equal.
    + f_equal. apply filter_ext. intros x. apply orb_false_r.
Qed.

Lemma monthly_production_order_and_total_witness :
  exists t h',
    generate_monthly_production pandas3 0%nat [full_table] = (Ok t, h') /\
    (exists ms,
        str_column "Month" t =
          map (fun d => period_str (Some d)) ms ++
          (if nat_is_text pandas3 && has_missing_date full_table
           then ["NaT"] else []) /\
        StronglySorted month_lt ms /\
        Forall (fun d => In (Some d) (map Date (rows full_table))) ms) /\
    wrap64 (Zsum (int_column "Units Produced" t)) =
      wrap64 (Zsum (monthly_units pandas3 full_table)) /\
    ((forall u, In u (monthly_units pandas3 full_table) -> 0 <= u) ->
     Zsum (monthly_units pandas3 full_table) < 2 ^ 63 ->
     Zsum (int_column "Units Produced" t) =
       Zsum (monthly_units pandas3 full_table)) /\
    monthly_units pandas3 full_table =
      map Units_Produced
        (filter (fun r => is_some (Date r)) (rows full_table)).
Proof.
  apply (monthly_production_order_and_total pandas3 [full_table] 0%nat
           full_table);
    try reflexivity.
  unfold valid_dates, valid_date. cbn [map rows full_table Date].
  repeat (apply Forall_cons; [first [exact I | cbn; lia]|]).
  apply Forall_nil.
Defined.

(** C3 as stated fails.  Whatever the pandas release, the totals are
    64-bit sums: two rows of January with 2^62 units each give the total
    -2^63, not 2^63.  With pandas 2 the rows without a date are not left
    out either: they form the last row, "NaT", and count in the total (8
    against 3), where pandas 3 gives the row of January only. *)
Lemma monthly_production_total_differs :
  (forall pd,
      fst (generate_monthly_production pd 0%nat [large_units_table]) =
        Ok (mkTable ["Month"; "Units Produced"]
              [[VStr "2024-01"; VInt (- 2 ^ 63)]]) /\
      ~ monthly_parseable_total_claim pd large_units_table) /\
  fst (generate_monthly_production pandas2 0%nat [missing_date_table]) =
    Ok (mkTable ["Month"; "Units Produced"]
          [[VStr "2024-01"; VInt 3]; [VStr "NaT"; VInt 5]]) /\
  fst (generate_monthly_production pandas3 0%nat [missing_date_table]) =
    Ok (mkTable ["Month"; "Units Produced"] [[VStr "2024-01"; VInt 3]]) /\
  ~ monthly_parseable_total_claim pandas2 missing_date_table.
Proof.
  split; [|split; [reflexivity|]; split; [reflexivity|]].
  - intros pd. split; [destruct pd; reflexivity|].
    intros Hclaim.
    specialize (Hclaim [large_units_table] 0%nat _ _ eq_refl
                  (surjective_pairing _)).
    destruct pd; vm_compute in Hclaim; discriminate.
  - intros Hclaim.
    specialize (Hclaim [missing_date_table] 0%nat _ _ eq_refl eq_refl).
    vm_compute in Hclaim. discriminate.
Qed.

(* ----------------------------------------------------------------- *)
(** ** Correlation *)







Lemma codev_diag (l : list Qc) :
  codev (map (fun x => (x, x)) l) = sum_sq_dev l.
Proof.
  unfold codev, sum_sq_dev. rewrite !map_map. cbn [fst snd].
  rewrite map_id. reflexivity.
Qed.

Lemma Qc_square_nonneg (x : Qc) : (Qc0 <= x * x)%Qc.
Proof.
  unfold Qcle, Qc0, Qcmult. cbn [this Q2Qc]. rewrite !Qred_correct.
  unfold Qle, Qmult. cbn [Qnum Qden]. nia.
Qed.

Lemma qsum_nonneg (l : list Qc) :
  Forall (fun x => (Qc0 <= x)%Qc) l -> (Qc0 <= qsum l)%Qc.
Proof.
  induction 1 as [|x l Hx _ IH]; cbn [qsum fold_right].
  - apply Qcle_refl.
  - replace Qc0 with (Qc0 + Qc0)%Qc by (apply Qc_is_canon; reflexivity).
    now apply Qcplus_le_compat.
Qed.



Lemma Qc_eq_bool_refl (x : Qc) : Qc_eq_bool x x = true.
Proof.
  unfold Qc_eq_bool. destruct (Qc_eq_dec x x); [reflexivity | contradiction].
Qed.




Lemma Qc_plus_this (x y : Qc) : (this (x + y)%Qc == this x + this y)%Q.
Proof. unfold Qcplus. cbn [this Q2Qc]. apply Qred_correct. Qed.

Lemma Qc_nonneg_sum_zero (x s : Qc) :
  (Qc0 <= x)%Qc -> (Qc0 <= s)%Qc -> (x + s)%Qc = Qc0 -> x = Qc0 /\ s = Qc0.
Proof.
  unfold Qcle. intros Hx Hs E.
  assert (H0 : (this Qc0 == 0)%Q) by apply Qred_correct.
  assert (E' : (this x + this s == 0)%Q)
    by (rewrite <- Qc_plus_this, E; exact H0).
  rewrite H0 in Hx, Hs.
  split; apply Qc_is_canon; rewrite H0; Lqa.lra.
Qed.

Lemma qsum_nonneg_zero (l : list Qc) :
  Forall (fun x => (Qc0 <= x)%Qc) l -> qsum l = Qc0 ->
  Forall (fun x => x = Qc0) l.
Proof.
  induction 1 as [|x l Hx Hl IH]; intros E; constructor.
  - cbn [qsum fold_right] in E.
    now destruct (Qc_nonneg_sum_zero x (qsum l) Hx (qsum_nonneg l Hl) E).
  - apply IH. cbn [qsum fold_right] in E.
    now destruct (Qc_nonneg_sum_zero x (qsum l) Hx (qsum_nonneg l Hl) E).
Qed.

Lemma qlen_cons {A : Type} (x : A) (l : list A) :
  qlen (x :: l) = (qlen l + 1)%Qc.
Proof.
  unfold qlen. cbn [List.length]. rewrite Nat2Z.inj_succ.
  apply Qc_is_canon. unfold Qcplus. cbn [this Q2Qc].
  rewrite !Qred_correct. unfold Z.succ. rewrite inject_Z_plus. reflexivity.
Qed.

Lemma qsum_constant (c : Qc) (l : list Qc) :
  Forall (fun x => x = c) l -> qsum l = (c * qlen l)%Qc.
Proof.
  induction 1 as [|x l -> _ IH].
  - change (qsum []) with 0%Qc. change (qlen (@nil Qc)) with 0%Qc. ring.
  - cbn [qsum fold_right]. fold (qsum l). rewrite IH, qlen_cons. ring.
Qed.

Lemma qlen_nonzero {A : Type} (l : list A) : l <> [] -> qlen l <> Qc0.
Proof.
  intros Hl E. unfold qlen, Qc0 in E. apply Q2Qc_eq_iff in E.
  destruct l as [|x l]; [contradiction|].
  cbn [List.length] in E. unfold Qeq, inject_Z in E. cbn [Qnum Qden] in E.
  lia.
Qed.

(** The sum of squared deviations is zero exactly when all the values are
    the same. *)
Lemma sum_sq_dev_zero_iff (l : list Qc) :
  sum_sq_dev l = Qc0 <-> (forall x y, In x l -> In y l -> x = y).
Proof.
  split.
  - intros E.
    assert (Hall : forall x, In x l -> x = qmean l).
    { intros x Hx. unfold sum_sq_dev in E.
      apply qsum_nonneg_zero in E.
      - rewrite Forall_forall in E.
        specialize (E _ (in_map (fun x => ((x - qmean l) * (x - qmean l))%Qc)
                           l x Hx)).
        cbn beta in E.
        assert (Hz : (x - qmean l)%Qc = Qc0)
          by (destruct (Qcmult_integral _ _ E); assumption).
        unfold Qc0 in Hz.
        replace x with ((x - qmean l) + qmean l)%Qc by ring.
        rewrite Hz. ring.
      - apply Forall_forall. intros y Hy. apply in_map_iff in Hy.
        destruct Hy as [z [<- _]]. apply Qc_square_nonneg. }
    intros x y Hx Hy. now rewrite (Hall x Hx), (Hall y Hy).
  - intros Hsame. destruct l as [|c l]; [reflexivity|].
    assert (Hc : Forall (fun x => x = c) (c :: l)).
    { apply Forall_forall. intros x Hx. apply Hsame; [assumption | now left]. }
    assert (Hm : qmean (c :: l) = c).
    { unfold qmean. rewrite (qsum_constant c _ Hc).
      apply Qcdiv_mult_l. now apply qlen_nonzero. }
    unfold sum_sq_dev. rewrite Hm.
    rewrite (qsum_constant Qc0).
    + unfold Qc0. ring.
    + apply Forall_forall. intros y Hy. apply in_map_iff in Hy.
      destruct Hy as [x [<- Hx]]. rewrite Forall_forall in Hc.
      rewrite (Hc x Hx). unfold Qc0. ring.
Qed.

(* ----------------------------------------------------------------- *)
(** ** Energy versus production *)







(* ================================================================= *)
(** * Further properties of the report functions *)

(* ----------------------------------------------------------------- *)
(** ** The rows of the grouped reports *)

Lemma wrap64_range (z : Z) : - 2 ^ 63 <= wrap64 z < 2 ^ 63.
Proof.
  unfold wrap64.
  pose proof (Z.mod_pos_bound (z + 2 ^ 63) (2 ^ 64) ltac:(lia)). lia.
Qed.

Lemma sum64_range (l : list Z) : - 2 ^ 63 <= sum64 l < 2 ^ 63.
Proof. rewrite sum64_spec. apply wrap64_range. Qed.

Lemma sum64_exact (l : list Z) :
  - 2 ^ 63 <= Zsum l < 2 ^ 63 -> sum64 l = Zsum l.
Proof. intros Hl. rewrite sum64_spec. now apply wrap64_small. Qed.

Lemma str_column_reset_index {V : Type} `{ToCell V} (iname vname : string)
  (s : list (string * V)) :
  str_column iname (reset_index iname vname s) = map fst s.
Proof.
  unfold str_column, table_column, reset_index.
  cbn [headers body column_index]. rewrite String.eqb_refl.
  rewrite !map_map. apply map_ext. reflexivity.
Qed.

(** X1.  For every input table with the columns Product Type and Units
    Produced, the result of [generate_units_by_product] has one row per
    product that occurs and no other row; the row of a product holds the
    64-bit sum of the Units Produced of its rows, which lies in the int64
    range and is the exact sum whenever the exact sum lies in that
    range. *)
Theorem units_by_product_rows :
  forall h r df,
    at_ref h r df ->
    has_column df "Product Type" = true ->
    has_column df "Units Produced" = true ->
    exists t,
      generate_units_by_product r h = (Ok t, h) /\
      NoDup (str_column "Product Type" t) /\
      (forall p, In p (str_column "Product Type" t) <->
                 In (Some p) (map Product_Type (rows df))) /\
      (forall p,
          In (Some p) (map Product_Type (rows df)) ->
          let v := sum64 (units_of_product p df) in
          find_row p (body t) = Some [VStr p; VInt v] /\
          - 2 ^ 63 <= v < 2 ^ 63 /\
          (- 2 ^ 63 <= Zsum (units_of_product p df) < 2 ^ 63 ->
           v = Zsum (units_of_product p df))).
Proof.
  intros h r df Hr Hp Hu.
  rewrite (generate_units_by_product_run _ _ _ Hr).
  unfold units_by_product_result, require. rewrite Hp, Hu.
  eexists. split; [reflexivity|].
  rewrite str_column_reset_index, agg_keys, groupby_keys.
  split; [apply sorted_keys_NoDup|]. split.
  - intros p. rewrite sorted_keys_In. unfold product_units. split.
    + apply In_dropna_fst_inv.
    + apply In_dropna_fst.
  - intros p Hin. cbv zeta. split; [|split].
    + unfold reset_index, agg, groupby. cbn [body]. rewrite !map_map.
      cbn [fst snd]. unfold to_cell, ToCell_string, ToCell_Z.
      rewrite (find_row_map
                 (fun k => VInt (sum64 (group_of k (dropna (product_units df))))))
        by (apply sorted_keys_In; now apply In_dropna_fst).
      unfold product_units. now rewrite group_of_dropna.
    + apply sum64_range.
    + apply sum64_exact.
Qed.

Lemma units_by_product_rows_witness :
  exists t,
    generate_units_by_product 0%nat [missing_product_table] =
      (Ok t, [missing_product_table]) /\
    NoDup (str_column "Product Type" t) /\
    (forall p, In p (str_column "Product Type" t) <->
               In (Some p) (map Product_Type (rows missing_product_table))) /\
    (forall p,
        In (Some p) (map Product_Type (rows missing_product_table)) ->
        let v := sum64 (units_of_product p missing_product_table) in
        find_row p (body t) = Some [VStr p; VInt v] /\
        - 2 ^ 63 <= v < 2 ^ 63 /\
        (- 2 ^ 63 <= Zsum (units_of_product p missing_product_table) < 2 ^ 63 ->
         v = Zsum (units_of_product p missing_product_table))).
Proof.
  apply (units_by_product_rows [missing_product_table] 0%nat
           missing_product_table); reflexivity.
Defined.

(* ----------------------------------------------------------------- *)
(** ** The rows of the monthly report *)

Lemma string_compare_refl (s : string) : String.compare s s = Eq.
Proof.
  pose proof (String.compare_antisym s s) as Ha.
  destruct (String.compare s s); [reflexivity | discriminate | discriminate].
Qed.

(** Two valid dates get the same label exactly when they are in the same
    month of the same year. *)
Lemma period_str_eqb (a b : date) :
  valid_date a -> valid_date b ->
  String.eqb (period_str (Some a)) (period_str (Some b)) = same_month a b.
Proof.
  intros Ha Hb. unfold same_month.
  destruct (String.eqb_spec (period_str (Some a)) (period_str (Some b)))
    as [E|Hne].
  - pose proof (period_str_compare a b Ha Hb) as Hc.
    rewrite E, string_compare_refl in Hc. symmetry.
    destruct (Z.compare_spec (year a) (year b)) as [Ey| |]; try discriminate.
    symmetry in Hc. apply Z.compare_eq in Hc.
    rewrite Ey, Hc, !Z.eqb_refl. reflexivity.
  - symmetry. apply andb_false_iff.
    destruct (Z.eqb_spec (year a) (year b)) as [Ey|]; [|now left].
    destruct (Z.eqb_spec (month a) (month b)) as [Em|]; [|now right].
    exfalso. apply Hne. unfold period_str. now rewrite Ey, Em.
Qed.

Lemma group_of_month_units pd df (lbl : string) :
  group_of lbl (dropna (month_units pd df)) =
  map Units_Produced
    (filter (fun r => is_key lbl (astype_str pd (Date r))) (rows df)).
Proof.
  unfold month_units.
  exact (group_of_dropna (fun r => astype_str pd (Date r)) Units_Produced
           lbl (rows df)).
Qed.

Lemma find_row_map_None (F : string -> cell) (ks : list string) (s : string) :
  ~ In s ks -> find_row s (map (fun k => [VStr k; F k]) ks) = None.
Proof.
  induction ks as [|k ks IH]; [reflexivity|].
  intros Hno. cbn [map find_row].
  destruct (String.eqb_spec k s) as [->|Hne].
  - exfalso. apply Hno. now left.
  - apply IH. intros Hin. apply Hno. now right.
Qed.

(** X2.  For every input table with the columns Date (parsed, the dates
    lying in the range of timestamps) and Units Produced, the row of
    [generate_monthly_production] for the month of a date of the table
    holds the 64-bit sum of the Units Produced of the rows dated in that
    month of that year.  With a pandas release that writes a missing
    month as text and a table in which some row has no date, the row
    "NaT" holds the 64-bit sum of the Units Produced of the rows without
    a date; with a release that keeps it missing there is no such row. *)
Theorem monthly_production_rows :
  forall pd h r df,
    at_ref h r df ->
    has_column df "Date" = true ->
    has_column df "Units Produced" = true ->
    valid_dates df ->
    exists t h',
      generate_monthly_production pd r h = (Ok t, h') /\
      (forall d,
          In (Some d) (map Date (rows df)) ->
          find_row (period_str (Some d)) (body t) =
            Some [VStr (period_str (Some d));
                  VInt (sum64 (units_of_month d df))]) /\
      (nat_is_text pd = true ->
       has_missing_date df = true ->
       find_row "NaT" (body t) =
         Some [VStr "NaT"; VInt (sum64 (units_without_date df))]) /\
      (nat_is_text pd = false -> find_row "NaT" (body t) = None).
Proof.
  intros pd h r df Hr Hd Hu Hvalid.
  rewrite (generate_monthly_production_run _ _ _ _ Hr).
  unfold monthly_production_result, require. rewrite Hd, Hu.
  do 2 eexists. split; [reflexivity|].
  unfold reset_index, agg, groupby. cbn [body]. rewrite !map_map.
  cbn [fst snd]. unfold to_cell, ToCell_string, ToCell_Z.
  rewrite month_keys.
  unfold valid_dates in Hvalid. rewrite Forall_forall in Hvalid.
  split; [|split].
  - intros d Hin.
    rewrite (find_row_map
               (fun k => VInt (sum64 (group_of k (dropna (month_units pd df))))))
      by (apply sorted_keys_In;
          apply (in_map period_str _ (Some d));
          apply filter_In; split; [assumption | reflexivity]).
    replace (group_of (period_str (Some d)) (dropna (month_units pd df)))
      with (units_of_month d df); [reflexivity|].
    rewrite group_of_month_units. unfold units_of_month.
    f_equal. symmetry. apply filter_ext_in. intros x Hx.
    pose proof (Hvalid (Date x) (in_map Date _ _ Hx)) as Hvx.
    pose proof (Hvalid (Some d) Hin) as Hvd. cbn in Hvd.
    destruct (Date x) as [dx|]; cbn [astype_str is_key].
    + now apply period_str_eqb.
    + destruct pd; cbn [nat_is_text is_key]; [|reflexivity].
      apply String.eqb_neq. intros E. symmetry in E.
      exact (period_str_not_NaT d E).
  - intros Hpd Hmiss.
    assert (Hnone : In None (map Date (rows df))).
    { unfold has_missing_date in Hmiss. apply existsb_exists in Hmiss.
      destruct Hmiss as [[x|] [Hx Hn]]; [discriminate | assumption]. }
    rewrite (find_row_map
               (fun k => VInt (sum64 (group_of k (dropna (month_units pd df))))))
      by (apply sorted_keys_In;
          apply (in_map period_str _ None);
          apply filter_In; split; [assumption|];
          unfold in_a_month; now rewrite Hpd).
    cbn [period_str].
    replace (group_of "NaT" (dropna (month_units pd df)))
      with (units_without_date df); [reflexivity|].
    rewrite group_of_month_units. unfold units_without_date.
    f_equal. symmetry. apply filter_ext. intros x.
    destruct (Date x) as [dx|]; cbn [astype_str is_key is_some negb].
    + apply String.eqb_neq. apply period_str_not_NaT.
    + rewrite Hpd. cbn [is_key period_str]. reflexivity.
  - intros Hpd. apply find_row_map_None.
    rewrite sorted_keys_In. intros Hin. apply in_map_iff in Hin.
    destruct Hin as [[x|] [E Hx]].
    + exact (period_str_not_NaT x E).
    + apply filter_In in Hx. destruct Hx as [_ Hx].
      unfold in_a_month in Hx. rewrite Hpd in Hx. discriminate.
Qed.

Lemma monthly_production_rows_witness :
  exists t h',
    generate_monthly_production pandas3 0%nat [full_table] = (Ok t, h') /\
    (forall d,
        In (Some d) (map Date (rows full_table)) ->
        find_row (period_str (Some d)) (body t) =
          Some [VStr (period_str (Some d));
                VInt (sum64 (units_of_month d full_table))]) /\
    (nat_is_text pandas3 = true ->
     has_missing_date full_table = true ->
     find_row "NaT" (body t) =
       Some [VStr "NaT"; VInt (sum64 (units_without_date full_table))]) /\
    (nat_is_text pandas3 = false -> find_row "NaT" (body t) = None).
Proof.
  apply (monthly_production_rows pandas3 [full_table] 0%nat full_table);
    try reflexivity.
  unfold valid_dates, valid_date. cbn [map rows full_table Date].
  repeat (apply Forall_cons; [first [exact I | cbn; lia]|]).
  apply Forall_nil.
Defined.

(* ----------------------------------------------------------------- *)
(** ** The rows of the defect-rate report *)

Lemma str_column_defect_rate df :
  str_column "Product Type"
    (mkTable ["Product Type"; "Defect Rate (%)"]
       (map (fun k =>
               [VStr k;
                VFloat (defect_rate
                          (sum64 (group_of k (dropna (product_defects df))))
                          (sum64 (group_of k (dropna (product_units df)))))])
          (sorted_keys (map fst (dropna (product_units df)))))) =
  sorted_keys (map fst (dropna (product_units df))).
Proof.
  unfold str_column, table_column. cbn [headers body column_index String.eqb].
  cbn. rewrite !map_map. cbn. apply map_id.
Qed.

(** X3.  For every input table with the columns Product Type, Units
    Produced and Defects, the defect-rate report has the same products in
    the same order as the units-by-product report, one row each. *)
Theorem defect_rate_rows_match_units_rows :
  forall h r df,
    at_ref h r df ->
    has_column df "Product Type" = true ->
    has_column df "Units Produced" = true ->
    has_column df "Defects" = true ->
    exists units rate,
      generate_units_by_product r h = (Ok units, h) /\
      generate_defect_rate_by_product r h = (Ok rate, h) /\
      str_column "Product Type" rate = str_column "Product Type" units /\
      List.length (body rate) = List.length (body units).
Proof.
  intros h r df Hr Hp Hu Hd.
  rewrite (generate_units_by_product_run _ _ _ Hr).
  rewrite (generate_defect_rate_by_product_run _ _ _ Hr).
  unfold units_by_product_result, defect_rate_by_product_result, require.
  rewrite Hp, Hu, Hd. do 2 eexists.
  split; [reflexivity|]. split; [reflexivity|]. split.
  - rewrite str_column_defect_rate, str_column_reset_index, agg_keys,
      groupby_keys. reflexivity.
  - unfold reset_index, agg, groupby. cbn [body]. now rewrite !length_map.
Qed.

Lemma defect_rate_rows_match_units_rows_witness :
  exists units rate,
    generate_units_by_product 0%nat [scenario_AB] = (Ok units, [scenario_AB]) /\
    generate_defect_rate_by_product 0%nat [scenario_AB]
      = (Ok rate, [scenario_AB]) /\
    str_column "Product Type" rate = str_column "Product Type" units /\
    List.length (body rate) = List.length (body units).
Proof.
  apply (defect_rate_rows_match_units_rows [scenario_AB] 0%nat scenario_AB);
    reflexivity.
Defined.

Lemma defect_rate_percentage (d u : Z) :
  0 < u -> 0 <= d <= u ->
  exists q, defect_rate d u = Fin q /\ (Qc0 <= q)%Qc /\ (q <= Q2Qc 100)%Qc.
Proof.
  intros Hu Hd. rewrite defect_rate_finite by lia.
  eexists. split; [reflexivity|].
  assert (E : (inject_Z d / inject_Z u * inject_Z 100 ==
               (100 * d) # Z.to_pos u)%Q).
  { unfold Qdiv, Qmult, Qinv, inject_Z, Qeq. cbn [Qnum Qden].
    destruct u as [|pu|pu]; cbn [Qnum Qden Z.to_pos]; lia. }
  unfold Qcle, Qc0. cbn [this Q2Qc]. rewrite !Qred_correct, E.
  unfold Qle. cbn [Qnum Qden].
  rewrite Z2Pos.id by assumption. lia.
Qed.

(** X4.  In the defect-rate report, a product whose total Units Produced
    is positive and whose total Defects lies between zero and that total
    gets a finite rate between 0 and 100. *)
Theorem defect_rate_is_a_percentage :
  forall h r df p,
    at_ref h r df ->
    has_column df "Product Type" = true ->
    has_column df "Units Produced" = true ->
    has_column df "Defects" = true ->
    In (Some p) (map Product_Type (rows df)) ->
    0 < sum64 (units_of_product p df) ->
    0 <= sum64 (defects_of_product p df) <= sum64 (units_of_product p df) ->
    exists t q,
      generate_defect_rate_by_product r h = (Ok t, h) /\
      find_row p (body t) = Some [VStr p; VFloat (Fin q)] /\
      (Qc0 <= q)%Qc /\ (q <= Q2Qc 100)%Qc.
Proof.
  intros h r df p Hr Hp Hu Hd Hin Hpos Hle.
  rewrite (generate_defect_rate_by_product_run _ _ _ Hr).
  unfold defect_rate_by_product_result, require. rewrite Hp, Hu, Hd.
  destruct (defect_rate_percentage _ _ Hpos Hle) as [q [Eq [H0 H100]]].
  eexists. exists q. split; [reflexivity|]. split; [|split; assumption].
  cbn [body].
  rewrite (find_row_map
             (fun k => VFloat (defect_rate
                                 (sum64 (group_of k (dropna (product_defects df))))
                                 (sum64 (group_of k (dropna (product_units df)))))))
    by (apply sorted_keys_In; now apply In_dropna_fst).
  unfold product_defects, product_units. rewrite !group_of_dropna.
  fold (defects_of_product p df). fold (units_of_product p df).
  now rewrite Eq.
Qed.

Lemma defect_rate_is_a_percentage_witness :
  exists t q,
    generate_defect_rate_by_product 0%nat [scenario_AB] = (Ok t, [scenario_AB]) /\
    find_row "A" (body t) = Some [VStr "A"; VFloat (Fin q)] /\
    (Qc0 <= q)%Qc /\ (q <= Q2Qc 100)%Qc.
Proof.
  apply (defect_rate_is_a_percentage [scenario_AB] 0%nat scenario_AB "A");
    try reflexivity.
  - cbn. auto.
  - vm_compute. split; discriminate.
Defined.

(* ----------------------------------------------------------------- *)
(** ** The rows of the productivity report *)


(** X5.  For every input table with the columns Product Type, Shift, Units
    Produced, Operator Count and Production Time Hours,
    [generate_productivity_per_operator] raises nothing and its result has
    one row for every pair (product, shift) that occurs in a record
    having both, and no other row: a record without product or without
    shift belongs to no group.  The row of a pair holds the binary64 mean
    (a compensated sum in row order over the number of values, the values
    that are NaN left out) of Units Produced / (Operator Count x
    Production Time Hours) over the records of the pair. *)
Theorem productivity_per_operator_rows :
  forall h r df,
    at_ref h r df ->
    Forall (fun l => has_column df l = true) productivity_columns ->
    exists t,
      fst (generate_productivity_per_operator r h) = Ok t /\
      headers t = ["Product Type"; "Shift"; "Productivity"] /\
      NoDup (key_column2 t) /\
      (forall p s,
          In (p, s) (key_column2 t) <->
          exists x, In x (rows df) /\
                    Product_Type x = Some p /\ Shift x = Some s) /\
      (forall p s,
          In (p, s) (key_column2 t) ->
          find_row2 p s (body t) =
            Some [VStr p; VStr s;
                  VDouble (Binary64.group_mean
                             (productivity_of_group p s df))]).
Proof.
  intros h r df Hr Hall.
  destruct (generate_productivity_per_operator_run _ _ _ Hr) as [d ->].
  cbn [fst]. rewrite (productivity_result_when_present df Hall).
  eexists. split; [reflexivity|]. split; [reflexivity|].
  rewrite productivity_keys.
  split; [apply sorted_keys_NoDup|]. split; [apply productivity_key_In|].
  intros p s Hin. rewrite productivity_body.
  now apply (find_row2_map
               (fun k => VDouble (Binary64.group_mean
                                    (productivity_of_group (fst k) (snd k)
                                       df)))).
Qed.

Lemma productivity_per_operator_rows_witness :
  exists t,
    fst (generate_productivity_per_operator 0%nat [productivity_table])
      = Ok t /\
    headers t = ["Product Type"; "Shift"; "Productivity"] /\
    NoDup (key_column2 t) /\
    (forall p s,
        In (p, s) (key_column2 t) <->
        exists x, In x (rows productivity_table) /\
                  Product_Type x = Some p /\ Shift x = Some s) /\
    (forall p s,
        In (p, s) (key_column2 t) ->
        find_row2 p s (body t) =
          Some [VStr p; VStr s;
                VDouble (Binary64.group_mean
                           (productivity_of_group p s productivity_table))]).
Proof.
  apply (productivity_per_operator_rows [productivity_table] 0%nat
           productivity_table).
  - reflexivity.
  - repeat (apply Forall_cons; [reflexivity|]). apply Forall_nil.
Defined.

(* ----------------------------------------------------------------- *)
(** ** Records without operators or hours *)






(* ----------------------------------------------------------------- *)
(** ** Row order and the other reports *)

Lemma Zsum_perm (l l' : list Z) : Permutation l l' -> Zsum l = Zsum l'.
Proof.
  induction 1 as [|x l l' _ IH|x y l|l l' l'' _ IH1 _ IH2];
    rewrite ?Zsum_cons; lia.
Qed.

Lemma sum64_perm (l l' : list Z) : Permutation l l' -> sum64 l = sum64 l'.
Proof. intros Hp. now rewrite !sum64_spec, (Zsum_perm _ _ Hp). Qed.

Lemma agg_groupby_perm {K V R : Type} `{KeyLaws K} (f : list V -> R)
  (rs rs' : list (option K * V)) :
  (forall l l', Permutation l l' -> f l = f l') ->
  Permutation rs rs' ->
  agg f (groupby rs) = agg f (groupby rs').
Proof.
  intros Hf Hp. pose proof (dropna_perm _ _ Hp) as Hd.
  unfold agg, groupby. rewrite !map_map. cbn [fst snd].
  rewrite (sorted_keys_perm _ _ (Permutation_map fst Hd)).
  apply map_ext. intros k. f_equal. apply Hf. now apply group_of_perm.
Qed.

Section RowOrder.
Variable pd : pandas.
Variables df df' : DataFrame.
Hypothesis Hcols : columns df' = columns df.
Hypothesis Hrows : Permutation (rows df) (rows df').

Lemma units_by_product_result_perm :
  units_by_product_result df = units_by_product_result df'.
Proof.
  unfold units_by_product_result, require.
  rewrite !(has_column_columns df df') by assumption.
  assert (E : agg sum64 (groupby (product_units df))
              = agg sum64 (groupby (product_units df'))).
  { apply agg_groupby_perm; [apply sum64_perm|].
    unfold product_units. now apply Permutation_map. }
  now rewrite E.
Qed.

Lemma monthly_production_result_perm :
  monthly_production_result pd df = monthly_production_result pd df'.
Proof.
  unfold monthly_production_result, require.
  rewrite !(has_column_columns df df') by assumption.
  assert (E : agg sum64 (groupby (month_units pd df))
              = agg sum64 (groupby (month_units pd df'))).
  { apply agg_groupby_perm; [apply sum64_perm|].
    unfold month_units. now apply Permutation_map. }
  now rewrite E.
Qed.

Lemma defect_rate_by_product_result_perm :
  defect_rate_by_product_result df = defect_rate_by_product_result df'.
Proof.
  unfold defect_rate_by_product_result, require.
  rewrite !(has_column_columns df df') by assumption.
  assert (Hu : Permutation (dropna (product_units df))
                 (dropna (product_units df')))
    by (apply dropna_perm; unfold product_units; now apply Permutation_map).
  assert (Hd : Permutation (dropna (product_defects df))
                 (dropna (product_defects df')))
    by (apply dropna_perm; unfold product_defects; now apply Permutation_map).
  rewrite (sorted_keys_perm _ _ (Permutation_map fst Hu)).
  assert (E : forall k,
             defect_rate (sum64 (group_of k (dropna (product_defects df))))
               (sum64 (group_of k (dropna (product_units df)))) =
             defect_rate (sum64 (group_of k (dropna (product_defects df'))))
               (sum64 (group_of k (dropna (product_units df'))))).
  { intros k. rewrite (sum64_perm _ _ (group_of_perm k _ _ Hu)).
    now rewrite (sum64_perm _ _ (group_of_perm k _ _ Hd)). }
  rewrite (map_ext _ _ (fun k => f_equal (fun v => [VStr k; VFloat v]) (E k))).
  reflexivity.
Qed.

End RowOrder.

(** X7.  Reordering the rows of the input table changes none of the three
    reports computed from integer sums: on two tables with the same
    columns and the same rows in another order,
    [generate_units_by_product], [generate_monthly_production] and
    [generate_defect_rate_by_product] return the same table, or raise the
    same exception. *)
Theorem reports_ignore_row_order :
  forall pd h r df h' r' df',
    at_ref h r df ->
    at_ref h' r' df' ->
    columns df' = columns df ->
    Permutation (rows df) (rows df') ->
    fst (generate_units_by_product r h)
      = fst (generate_units_by_product r' h') /\
    fst (generate_monthly_production pd r h)
      = fst (generate_monthly_production pd r' h') /\
    fst (generate_defect_rate_by_product r h)
      = fst (generate_defect_rate_by_product r' h').
Proof.
  intros pd h r df h' r' df' Hr Hr' Hc Hp.
  rewrite !(generate_units_by_product_run _ _ _ Hr),
    !(generate_units_by_product_run _ _ _ Hr'),
    !(generate_monthly_production_run _ _ _ _ Hr),
    !(generate_monthly_production_run _ _ _ _ Hr'),
    !(generate_defect_rate_by_product_run _ _ _ Hr),
    !(generate_defect_rate_by_product_run _ _ _ Hr').
  cbn [fst].
  rewrite (units_by_product_result_perm df df' Hc Hp),
    (monthly_production_result_perm pd df df' Hc Hp),
    (defect_rate_by_product_result_perm df df' Hc Hp).
  repeat split; reflexivity.
Qed.

Lemma reports_ignore_row_order_witness :
  fst (generate_units_by_product 0%nat [full_table])
    = fst (generate_units_by_product 0%nat [full_table_reordered]) /\
  fst (generate_monthly_production pandas3 0%nat [full_table])
    = fst (generate_monthly_production pandas3 0%nat [full_table_reordered]) /\
  fst (generate_defect_rate_by_product 0%nat [full_table])
    = fst (generate_defect_rate_by_product 0%nat [full_table_reordered]).
Proof.
  apply (reports_ignore_row_order pandas3 [full_table] 0%nat full_table
           [full_table_reordered] 0%nat full_table_reordered);
    try reflexivity.
  apply Permutation_rev.
Defined.

(* ----------------------------------------------------------------- *)
(** ** The Month column and the heap *)

(** X8.  When the input table has the Date column and lacks Units
    Produced, [generate_monthly_production] raises the KeyError for Units
    Produced only after it has set the Month column: the exception leaves
    the input table with the month labels of its dates (a missing date
    giving the text NaT or a missing label, as the pandas release has
    it), its other columns unchanged. *)
Theorem monthly_production_sets_month_before_raising :
  forall pd h r df,
    at_ref h r df ->
    has_column df "Date" = true ->
    has_column df "Units Produced" = false ->
    exists h' df',
      generate_monthly_production pd r h
        = (Raise (KeyError ["Units Produced"]), h') /\
      at_ref h' r df' /\
      column_values df' "Month" =
        Some (map (fun x => ObjectV (astype_str pd (Date x))) (rows df)) /\
      (forall lbl, lbl <> "Month" ->
                   column_values df' lbl = column_values df lbl).
Proof.
  intros pd h r df Hr Hd Hu.
  rewrite (generate_monthly_production_run _ _ _ _ Hr).
  unfold monthly_production_result, require. rewrite Hd, Hu.
  exists (update_nth r (with_month pd df) h), (with_month pd df).
  split; [reflexivity|].
  split; [eapply at_ref_update; eassumption|].
  split; [apply column_values_month|].
  intros lbl. apply column_values_with_month.
Qed.

Lemma monthly_production_sets_month_before_raising_witness :
  exists h' df',
    generate_monthly_production pandas3 0%nat [dates_only_table]
      = (Raise (KeyError ["Units Produced"]), h') /\
    at_ref h' 0%nat df' /\
    column_values df' "Month" =
      Some (map (fun x => ObjectV (astype_str pandas3 (Date x)))
              (rows dates_only_table)) /\
    (forall lbl, lbl <> "Month" ->
                 column_values df' lbl = column_values dates_only_table lbl).
Proof.
  apply (monthly_production_sets_month_before_raising pandas3
           [dates_only_table] 0%nat dates_only_table); reflexivity.
Defined.

Lemma with_month_idem pd df :
  with_month pd (with_month pd df) = with_month pd df.
Proof.
  unfold with_month at 1. rewrite has_column_with_month.
  cbn [String.eqb Ascii.eqb Bool.eqb]. rewrite orb_true_r.
  unfold with_month. cbn [columns rows]. f_equal.
  rewrite map_map. apply map_ext. reflexivity.
Qed.

Lemma monthly_production_result_with_month pd df :
  monthly_production_result pd (with_month pd df)
  = monthly_production_result pd df.
Proof.
  unfold monthly_production_result, require.
  rewrite !has_column_with_month. cbn [String.eqb Ascii.eqb Bool.eqb].
  rewrite !orb_false_r. unfold month_units.
  rewrite !(map_rows_with_month _ pd df) by reflexivity. reflexivity.
Qed.

(** X9.  Calling [generate_monthly_production] a second time on the same
    table returns what the first call returned and changes nothing any
    more. *)
Theorem monthly_production_twice :
  forall pd h r df o h1,
    at_ref h r df ->
    generate_monthly_production pd r h = (o, h1) ->
    generate_monthly_production pd r h1 = (o, h1).
Proof.
  intros pd h r df o h1 Hr Hrun.
  rewrite (generate_monthly_production_run _ _ _ _ Hr) in Hrun.
  injection Hrun as <- <-.
  destruct (has_column df "Date") eqn:Ed.
  - pose proof (at_ref_update _ _ _ (with_month pd df) Hr) as Hm.
    rewrite (generate_monthly_production_run _ _ _ _ Hm).
    rewrite has_column_with_month, Ed. cbn [orb].
    rewrite with_month_idem, monthly_production_result_with_month.
    now rewrite (update_nth_same _ _ _ Hm).
  - rewrite (generate_monthly_production_run _ _ _ _ Hr). now rewrite Ed.
Qed.

Lemma monthly_production_twice_witness :
  generate_monthly_production pandas3 0%nat
    (snd (generate_monthly_production pandas3 0%nat [full_table]))
  = generate_monthly_production pandas3 0%nat [full_table].
Proof.
  rewrite (monthly_production_twice pandas3 [full_table] 0%nat full_table
             (fst (generate_monthly_production pandas3 0%nat [full_table]))
             (snd (generate_monthly_production pandas3 0%nat [full_table]))
             eq_refl (surjective_pairing _)).
  symmetry. apply surjective_pairing.
Defined.



(* ----------------------------------------------------------------- *)
(** ** Missing values in the cost columns *)




(* ----------------------------------------------------------------- *)
(** ** Correlation on a single record *)

Lemma sum_sq_dev_single (q : Qc) : sum_sq_dev [q] = Qc0.
Proof.
  apply sum_sq_dev_zero_iff. intros x y [<-|[]] [<-|[]]. reflexivity.
Qed.

Lemma correlate_single (p : Qc * Qc) : correlate [p] = VFloat NaN.
Proof.
  unfold correlate.
  change (map diag_pair [p]) with (map (fun x => (x, x)) [fst p]).
  rewrite codev_diag, sum_sq_dev_single.
  replace (Qc0 * codev (map diag_pair (map swap_pair [p])))%Qc with Qc0
    by (unfold Qc0; ring).
  now rewrite Qc_eq_bool_refl.
Qed.

Lemma pearson_single (a b : float64) : pearson [a] [b] = VFloat NaN.
Proof.
  unfold pearson. cbn [finite_pairs].
  destruct a, b; try reflexivity. apply correlate_single.
Qed.

(** X12.  On an input table of a single record the correlation matrix has
    no number at all: its four entries are NaN. *)
Theorem correlation_of_one_record_is_NaN :
  forall h r df x,
    at_ref h r df ->
    rows df = [x] ->
    has_column df "Energy Consumption kWh" = true ->
    has_column df "Units Produced" = true ->
    generate_energy_vs_production r h =
      (Ok (mkTable ["index"; "Energy Consumption kWh"; "Units Produced"]
             [[VStr "Energy Consumption kWh"; VFloat NaN; VFloat NaN];
              [VStr "Units Produced"; VFloat NaN; VFloat NaN]]), h).
Proof.
  intros h r df x Hr Hrows He Hu.
  rewrite (generate_energy_vs_production_run _ _ _ Hr).
  unfold energy_vs_production_result, energy_columns. cbn [filter].
  rewrite He, Hu. cbn [negb].
  unfold reset_index_frame, corr. cbn [columns rows map fst snd].
  rewrite Hrows. cbn [map]. now rewrite !pearson_single.
Qed.

Lemma correlation_of_one_record_is_NaN_witness :
  generate_energy_vs_production 0%nat [single_row_table] =
    (Ok (mkTable ["index"; "Energy Consumption kWh"; "Units Produced"]
           [[VStr "Energy Consumption kWh"; VFloat NaN; VFloat NaN];
            [VStr "Units Produced"; VFloat NaN; VFloat NaN]]),
     [single_row_table]).
Proof.
  apply (correlation_of_one_record_is_NaN [single_row_table] 0%nat
           single_row_table (energy_row (of_int 70) 5)); reflexivity.
Defined.

(* ================================================================= *)
(** * The mail step *)

Ltac io_step :=
  match goal with
  | |- context [if defined ?w ?n then _ else _] =>
      let E := fresh "E" in destruct (defined w n) eqn:E
  | H : context [if defined ?w ?n then _ else _] |- _ =>
      let E := fresh "E" in destruct (defined w n) eqn:E
  end.

(** X13.  [send_report_via_email] never reaches the mail server: while the
    name [application], which it reads to build the attachment header, is
    not defined, every call raises and leaves the world as it was, no SMTP
    call made; when the other names it reads are defined and the report
    file can be read, the exception is the NameError for [application]. *)
Theorem send_report_via_email_never_connects :
  forall sender_email sender_password recipient_email report_path w,
    defined w "application" = false ->
    (exists e,
        send_report_via_email sender_email sender_password recipient_email
          report_path w = (Fail e, w)) /\
    (forall p contents,
        report_path = Some p ->
        files w p = Some contents ->
        Forall (fun n => defined w n = true)
          ["MIMEMultipart"; "MIMEText"; "open"; "MIMEBase"; "encoders"; "os"] ->
        send_report_via_email sender_email sender_password recipient_email
          report_path w = (Fail (NameError "application"), w)).
Proof.
  intros se sp re path w Happ. split.
  - unfold send_report_via_email, io_bind, name, open_rb.
    repeat (io_step; [|eexists; reflexivity]).
    destruct path as [p|]; [|eexists; reflexivity].
    destruct (files w p); [|eexists; reflexivity].
    repeat (io_step; [try discriminate|eexists; reflexivity]).
  - intros p contents -> Hfile Hall.
    repeat match goal with
           | Hf : Forall _ (_ :: _) |- _ =>
               let E := fresh "E" in
               apply Forall_cons_iff in Hf; destruct Hf as [E Hf]
           end.
    unfold send_report_via_email, io_bind, name, open_rb.
    repeat match goal with
           | E : defined w _ = _ |- _ => rewrite E
           | _ => rewrite Hfile
           end.
    reflexivity.
Qed.

Lemma send_report_via_email_never_connects_witness :
  (exists e,
      send_report_via_email None None (Some "someone@example.org")
        (Some "agentic_report.xlsx") app_py_world = (Fail e, app_py_world)) /\
  (forall p contents,
      Some "agentic_report.xlsx" = Some p ->
      files app_py_world p = Some contents ->
      Forall (fun n => defined app_py_world n = true)
        ["MIMEMultipart"; "MIMEText"; "open"; "MIMEBase"; "encoders"; "os"] ->
      send_report_via_email None None (Some "someone@example.org")
        (Some "agentic_report.xlsx") app_py_world
      = (Fail (NameError "application"), app_py_world)).
Proof.
  apply (send_report_via_email_never_connects None None
           (Some "someone@example.org") (Some "agentic_report.xlsx")
           app_py_world).
  reflexivity.
Defined.

Lemma name_defined w n : defined w n = true -> name n w = (Done tt, w).
Proof. unfold name. now intros ->. Qed.

Lemma name_undefined w n :
  defined w n = false -> name n w = (Fail (NameError n), w).
Proof. unfold name. now intros ->. Qed.

Lemma io_bind_done {A B : Type} (m : IO A) (f : A -> IO B) w a w' :
  m w = (Done a, w') -> io_bind m f w = f a w'.
Proof. intros E. unfold io_bind. now rewrite E. Qed.

Lemma io_bind_fail {A B : Type} (m : IO A) (f : A -> IO B) w e w' :
  m w = (Fail e, w') -> io_bind m f w = (Fail e, w').
Proof. intros E. unfold io_bind. now rewrite E. Qed.

(** The call of [send_report_via_email] fails on one of its first two
    names. *)
Lemma call_send_report_fails se sp re w :
  defined w "application" = false ->
  exists e, call_send_report se sp re w = (Fail e, w).
Proof.
  intros Happ. unfold call_send_report.
  destruct (defined w "send_report_via_email") eqn:E.
  - rewrite (io_bind_done _ _ _ _ _ (name_defined _ _ E)).
    rewrite (io_bind_fail _ _ _ _ _ (name_undefined _ _ Happ)).
    now eexists.
  - rewrite (io_bind_fail _ _ _ _ _ (name_undefined _ _ E)). now eexists.
Qed.

(** X14.  The statements at the end of the module send nothing either:
    while [application] is not defined they make no SMTP call, whatever
    the form and the environment hold.  When [request] is not defined
    they raise the NameError for it at once; and when a recipient was
    submitted but [app] is not defined, the failure of the call to
    [send_report_via_email] is caught, and the handler itself raises the
    NameError for [app]. *)
Theorem mail_step_sends_nothing :
  forall w o w',
    defined w "application" = false ->
    mail_step w = (o, w') ->
    (exists l, calls w' = calls w ++ l /\
               Forall (fun c => is_smtp c = false) l) /\
    (defined w "request" = false ->
     o = Fail (NameError "request") /\ w' = w) /\
    (defined w "request" = true -> defined w "os" = true ->
     truthy (form w "email") = true -> defined w "app" = false ->
     o = Fail (NameError "app") /\ w' = w).
Proof.
  intros w o w' Happ Hrun.
  assert (Hnil : exists l, calls w = calls w ++ l /\
                           Forall (fun c => is_smtp c = false) l)
    by (exists []; split; [now rewrite app_nil_r | constructor]).
  unfold mail_step in Hrun.
  destruct (defined w "request") eqn:Ereq.
  2:{ rewrite (io_bind_fail _ _ _ _ _ (name_undefined _ _ Ereq)) in Hrun.
      injection Hrun as <- <-. split; [exact Hnil|]. split; [auto|discriminate]. }
  rewrite (io_bind_done _ _ _ _ _ (name_defined _ _ Ereq)) in Hrun.
  unfold io_bind at 1, form_get at 1 in Hrun.
  destruct (defined w "os") eqn:Eos.
  2:{ rewrite (io_bind_fail _ _ _ _ _ (name_undefined _ _ Eos)) in Hrun.
      injection Hrun as <- <-. split; [exact Hnil|].
      split; discriminate. }
  rewrite (io_bind_done _ _ _ _ _ (name_defined _ _ Eos)) in Hrun.
  unfold io_bind at 1, getenv at 1 in Hrun.
  rewrite (io_bind_done _ _ _ _ _ (name_defined _ _ Eos)) in Hrun.
  unfold io_bind at 1, getenv at 1 in Hrun.
  destruct (truthy (form w "email")) eqn:Etruthy.
  2:{ unfold io_ret in Hrun. injection Hrun as <- <-. split; [exact Hnil|].
      split; discriminate. }
  unfold try_except in Hrun.
  destruct (call_send_report_fails
              (environ w "221260132002setiict@gmail.com")
              (environ w "952004") (form w "email") w Happ) as [e He].
  rewrite He in Hrun. unfold log_failure in Hrun.
  destruct (defined w "app") eqn:Eapp.
  - rewrite (io_bind_done _ _ _ _ _ (name_defined _ _ Eapp)) in Hrun.
    unfold do_call in Hrun. cbn [is_smtp andb] in Hrun.
    injection Hrun as <- <-. cbn [calls]. split; [|split; discriminate].
    eexists. split; [reflexivity|]. repeat constructor.
  - rewrite (io_bind_fail _ _ _ _ _ (name_undefined _ _ Eapp)) in Hrun.
    injection Hrun as <- <-. split; [exact Hnil|]. split; [discriminate|auto].
Qed.

Lemma mail_step_sends_nothing_witness :
  (exists l, calls (snd (mail_step app_py_world))
             = calls app_py_world ++ l /\
             Forall (fun c => is_smtp c = false) l) /\
  (defined app_py_world "request" = false ->
   fst (mail_step app_py_world) = Fail (NameError "request") /\
   snd (mail_step app_py_world) = app_py_world) /\
  (defined app_py_world "request" = true ->
   defined app_py_world "os" = true ->
   truthy (form app_py_world "email") = true ->
   defined app_py_world "app" = false ->
   fst (mail_step app_py_world) = Fail (NameError "app") /\
   snd (mail_step app_py_world) = app_py_world).
Proof.
  apply (mail_step_sends_nothing app_py_world
           (fst (mail_step app_py_world)) (snd (mail_step app_py_world))).
  - reflexivity.
  - apply surjective_pairing.
Defined.
